(** * miredo: the tunnel device, the event loop and the supervisor

  A shallow embedding of [src/ipv6-tunnel.cpp] (class [IPv6Tunnel]) and of
  the signal handlers, the worker loop and the supervisor of
  [src/miredo.cpp], with the properties of the specification stated over
  it.

  System calls are modelled by an oracle record (what the kernel answers)
  and a trace (what the program asked), so that "no ioctl was issued" or
  "a single write" are statements about the trace.  The worker loop and the
  supervisor run over a script of what the world does at each turn; the
  signal handlers run statement by statement, so that a signal can arrive
  inside a handler.

  - [Octets], [Sys]: octets, 16-bit objects, system calls and their trace;
  - [Tun6]: the methods of [IPv6Tunnel];
  - [Miredo]: [exit_handler], [reload_handler], [InitSignals],
    [teredo_server_relay], [miredo];
  - then the properties, component by component, each followed by its
    examples on concrete inputs. *)

From Stdlib Require Import ZArith List Strings.String Strings.Byte Bool Lia.
From stdpp Require Import base decidable list gmap sets.

Local Open Scope Z_scope.

(** ** Octets and 16-bit objects *)

Module Octets.

Definition Z_of_byte (b : byte) : Z := Z.of_N (Byte.to_N b).

Definition byte_of_Z (z : Z) : byte :=
  match Byte.of_N (Z.to_N (z mod 256)) with
  | Some b => b
  | None => x00
  end.

(** The object representation of a [uint16_t], as [memcpy] sees it. *)
Definition u16_bytes (big_endian : bool) (v : Z) : list byte :=
  let hi := byte_of_Z (v / 256) in
  let lo := byte_of_Z (v mod 256) in
  if big_endian then [hi; lo] else [lo; hi].

(** The [uint16_t] whose object representation is the two octets. *)
Definition u16_of_bytes (big_endian : bool) (b0 b1 : byte) : Z :=
  if big_endian
  then 256 * Z_of_byte b0 + Z_of_byte b1
  else 256 * Z_of_byte b1 + Z_of_byte b0.

(** [memcpy (dst + off, src, length src)] on a buffer held as a list. *)
Definition memcpy (dst : list byte) (off : nat) (src : list byte) : list byte :=
  take off dst ++ src ++ drop (off + length src)%nat dst.

(** Conversion of an [int] to [short] (two's complement, 16 bits). *)
Definition short_of_Z (z : Z) : Z := (z + 32768) mod 65536 - 32768.

End Octets.

(** ** System calls: requests, answers, traces *)

Module Sys.

Inductive ioctl_request : Type :=
| TUNSETIFF (name : string) (flags : Z)
| SIOCGIFFLAGS (name : string)
| SIOCSIFFLAGS (name : string) (flags : Z)
| SIOCGIFINDEX (name : string)
| SIOCSIFADDR (ifindex : Z) (addr : list byte) (prefixlen : Z)
| SIOCSIFMTU (name : string) (mtu : Z).

Inductive log_arg : Type :=
| ArgInt (n : Z)
| ArgStr (s : string).

Inductive syscall : Type :=
| sys_open (path : string)                     (* open (path, O_RDWR) *)
| sys_socket                                   (* socket (PF_INET6, SOCK_DGRAM, 0) *)
| sys_ioctl (fd : Z) (req : ioctl_request)
| sys_close (fd : Z)
| sys_read (fd : Z) (size : nat)
| sys_write (fd : Z) (buf : list byte)
| sys_syslog (priority : Z) (format : string) (args : list log_arg).

(** What the kernel answers.  One tunnel operation issues each kind of call
    at most once per request, so an answer per request is enough. *)
Record kernel : Type := {
  k_open : Z;                          (* open(): a descriptor, or -1 *)
  k_socket : Z;                        (* socket(): a descriptor, or -1 *)
  k_ioctl : ioctl_request -> Z;        (* ioctl(): 0, or an error *)
  k_ifr : ioctl_request -> Z;          (* the member of the ifreq union the
                                          kernel fills in on a "get" request *)
  k_ifname : string -> string;         (* the interface name TUNSETIFF puts in
                                          ifr_name, from the one requested *)
  k_read : option (list byte);         (* the frame read() delivers; None: -1 *)
  k_write : list byte -> Z;            (* write(): octets written, or -1 *)
  k_stack : nat -> byte                (* what an uninitialised automatic
                                          array holds at each index *)
}.

(** Computations that consult the kernel and log the calls they make. *)
Definition io (A : Type) : Type := kernel -> A * list syscall.

Definition ret {A} (a : A) : io A := fun _ => (a, []).

Definition bind {A B} (m : io A) (f : A -> io B) : io B :=
  fun k =>
    let (a, t1) := m k in
    let (b, t2) := f a k in
    (b, t1 ++ t2).

Definition open (path : string) : io Z := fun k => (k_open k, [sys_open path]).

Definition socket : io Z := fun k => (k_socket k, [sys_socket]).

Definition ioctl (fd : Z) (req : ioctl_request) : io Z :=
  fun k => (k_ioctl k req, [sys_ioctl fd req]).

Definition ifr_value (req : ioctl_request) : io Z :=
  fun k => (k_ifr k req, []).

Definition ifr_name_value (requested : string) : io string :=
  fun k => (k_ifname k requested, []).

Definition close (fd : Z) : io unit := fun _ => (tt, [sys_close fd]).

(** [read (fd, buf, size)]: the length (or -1) and the octets stored. *)
Definition read (fd : Z) (size : nat) : io (Z * list byte) :=
  fun k =>
    (match k_read k with
     | None => (-1, [])
     | Some frame => (Z.of_nat (length (take size frame)), take size frame)
     end, [sys_read fd size]).

Definition write (fd : Z) (buf : list byte) : io Z :=
  fun k => (k_write k buf, [sys_write fd buf]).

Definition syslog (priority : Z) (format : string) (args : list log_arg) : io unit :=
  fun _ => (tt, [sys_syslog priority format args]).

(** An automatic array of [n] octets, not initialised. *)
Definition automatic_array (n : nat) : io (list byte) :=
  fun k => (map (k_stack k) (seq 0 n), []).

Definition LOG_ERR : Z := 3.
Definition LOG_INFO : Z := 6.
Definition LOG_DEBUG : Z := 7.

Definition is_ioctl (c : syscall) : bool :=
  match c with sys_ioctl _ _ => true | _ => false end.
Definition is_socket (c : syscall) : bool :=
  match c with sys_socket => true | _ => false end.
Definition is_read (c : syscall) : bool :=
  match c with sys_read _ _ => true | _ => false end.
Definition is_write (c : syscall) : bool :=
  match c with sys_write _ _ => true | _ => false end.
Definition is_syslog (c : syscall) : bool :=
  match c with sys_syslog _ _ _ => true | _ => false end.

(** The buffers handed to [write], in order. *)
Fixpoint writes (t : list syscall) : list (Z * list byte) :=
  match t with
  | [] => []
  | sys_write fd buf :: t' => (fd, buf) :: writes t'
  | _ :: t' => writes t'
  end.

(** The format strings logged, in order. *)
Fixpoint logged (t : list syscall) : list string :=
  match t with
  | [] => []
  | sys_syslog _ fmt _ :: t' => fmt :: logged t'
  | _ :: t' => logged t'
  end.

End Sys.

Declare Scope io_scope.
Delimit Scope io_scope with io.
Notation "x <- c1 ;; c2" := (Sys.bind c1 (fun x => c2))
(at level 100, c1 at next level, right associativity) : io_scope.
Notation "c1 ;;; c2" := (Sys.bind c1 (fun _ => c2))
(at level 100, right associativity) : io_scope.

(** ** ipv6-tunnel.cpp: class IPv6Tunnel *)

Module Tun6.
Import Octets Sys.
Local Open Scope io_scope.

(** A readiness set ([fd_set]) is a finite set of descriptors. *)
Abbreviation fd_set := (gset Z).
Definition FD_SET (fd : Z) (s : fd_set) : fd_set := {[ fd ]} ∪ s.
Definition FD_ISSET (fd : Z) (s : fd_set) : bool := bool_decide (fd ∈ s).

(** <net/if.h> *)
Definition IFNAMSIZ : nat := 16.
Definition IFF_UP : Z := 0x1.
Definition IFF_BROADCAST : Z := 0x2.
Definition IFF_POINTOPOINT : Z := 0x10.
Definition IFF_RUNNING : Z := 0x40.
Definition IFF_NOARP : Z := 0x80.
Definition IFF_MULTICAST : Z := 0x1000.
(** <linux/if_tun.h> *)
Definition IFF_TUN : Z := 0x1.

(** Conversion of a [size_t] to [int] (two's complement, 32 bits). *)
Definition int_of_Z (z : Z) : Z := (z + 2147483648) mod 4294967296 - 2147483648.

(** Modelled from the spec: the declaration of the class is in
    ipv6-tunnel.h, which is not among the sources; the read buffer is "large
    enough for one maximum-size IPv6 packet plus a 4-octet frame header". *)
Definition sizeof_pbuf : nat := Z.to_nat (65535 + 4).

(** The members of the class, as ipv6-tunnel.cpp uses them. *)
Record IPv6Tunnel : Type := {
  fd : Z;
  ifname : string;
  pbuf : list byte;
  plen : Z
}.

(** [strncpy (tgt, src, len); tgt[len - 1] = 0], read back as a C string. *)
Definition secure_strncpy (src : string) (len : nat) : string :=
  String.substring 0 (len - 1) src.

Definition socket_udp6 : io Z :=
  fd <- socket ;;
  if fd =? -1
  then syslog LOG_ERR "IPv6 stack not available: %m\n" [] ;;; ret fd
  else ret fd.

(** The constructor.  [raw] is the storage of the object before it runs:
    members it does not assign keep what the storage held. *)
Definition IPv6Tunnel_new (raw : IPv6Tunnel) (req_name tundev : option string)
    : io IPv6Tunnel :=
  let tundev := match tundev with None => "/dev/net/tun"%string | Some d => d end in
  fd <- open tundev ;;
  if fd =? -1 then
    syslog LOG_ERR "Tunneling driver error (%s): %m\n" [ArgStr tundev] ;;;
    ret {| fd := fd; ifname := ifname raw; pbuf := pbuf raw; plen := plen raw |}
  else
  (* Allocates the tunneling virtual network interface *)
  let ifr_name :=
    match req_name with
    | Some n => secure_strncpy n IFNAMSIZ
    | None => EmptyString
    end in
  r <- ioctl fd (TUNSETIFF ifr_name IFF_TUN) ;;
  fd <- (if negb (r =? 0) then
           syslog LOG_ERR "Tunnel error (TUNSETIFF): %m\n" [] ;;;
           close fd ;;;
           ret (-1)
         else ret fd) ;;
  (* the request comes back with the name the kernel chose *)
  ifr_name <- (if r =? 0 then ifr_name_value ifr_name else ret ifr_name) ;;
  let ifname := secure_strncpy ifr_name IFNAMSIZ in
  syslog LOG_INFO "Tunneling interface %s created.\n" [ArgStr ifname] ;;;
  ret {| fd := fd; ifname := ifname; pbuf := pbuf raw; plen := plen raw |}.

(** The destructor. *)
Definition IPv6Tunnel_delete (t : IPv6Tunnel) : io unit :=
  if negb (fd t =? -1) then
    syslog LOG_INFO "Tunneling interface %s removed.\n" [ArgStr (ifname t)] ;;;
    close (fd t)
  else ret tt.

Section Platform.

(** config.h *)
Variable WORDS_BIGENDIAN : bool.

Definition L2_PROTO_IPV6 : Z := if WORDS_BIGENDIAN then 0x86dd else 0xdd86.

Definition SetState (t : IPv6Tunnel) (up : bool) : io Z :=
  if fd t =? -1 then ret (-1) else
  reqfd <- socket_udp6 ;;
  if reqfd =? -1 then ret (-1) else
  (* Sets up the interface *)
  let name := secure_strncpy (ifname t) IFNAMSIZ in
  r <- ioctl reqfd (SIOCGIFFLAGS name) ;;
  if negb (r =? 0) then
    syslog LOG_ERR "Tunnel error (SIOCGIFFLAGS): %m\n" [] ;;;
    close reqfd ;;;
    ret (-1)
  else
  ifr_flags <- ifr_value (SIOCGIFFLAGS name) ;;
  let ifr_flags := short_of_Z ifr_flags in
  let name := secure_strncpy (ifname t) IFNAMSIZ in
  (* settings we want/don't want: *)
  let ifr_flags := short_of_Z (Z.lor ifr_flags (Z.lor IFF_POINTOPOINT IFF_NOARP)) in
  let ifr_flags :=
    if up
    then short_of_Z (Z.lor ifr_flags (Z.lor IFF_UP IFF_RUNNING))
    else short_of_Z (Z.land ifr_flags (Z.lnot IFF_UP)) in
  let ifr_flags :=
    short_of_Z (Z.land ifr_flags (Z.lnot (Z.lor IFF_MULTICAST IFF_BROADCAST))) in
  r <- ioctl reqfd (SIOCSIFFLAGS name ifr_flags) ;;
  if negb (r =? 0) then
    syslog LOG_ERR "%s tunnel error (SIOCSIFFLAGS): %m\n" [ArgStr (ifname t)] ;;;
    close reqfd ;;;
    ret (-1)
  else
  close reqfd ;;;
  ret 0.

Definition SetAddress (t : IPv6Tunnel) (addr : list byte) (prefix_len : Z) : io Z :=
  if (fd t =? -1) || (prefix_len <? 0) then ret (-1) else
  if prefix_len >? 128 then
    syslog LOG_ERR "IPv6 prefix length too long: %d\n" [ArgInt prefix_len] ;;;
    ret (-1)
  else
  reqfd <- socket_udp6 ;;
  if reqfd =? -1 then ret (-1) else
  (* Gets kernel's interface index *)
  let name := secure_strncpy (ifname t) IFNAMSIZ in
  r <- ioctl reqfd (SIOCGIFINDEX name) ;;
  if r =? 0 then
    ifr_ifindex <- ifr_value (SIOCGIFINDEX name) ;;
    r6 <- ioctl reqfd (SIOCSIFADDR ifr_ifindex addr prefix_len) ;;
    if r6 =? 0 then
      syslog LOG_DEBUG "%s tunnel address set\n" [ArgStr (ifname t)] ;;;
      close reqfd ;;;
      ret 0
    else
      close reqfd ;;;
      ret (-1)
  else
    close reqfd ;;;
    ret (-1).

Definition SetMTU (t : IPv6Tunnel) (mtu : Z) : io Z :=
  if fd t =? -1 then ret (-1) else
  if mtu <? 1280 then
    syslog LOG_ERR "IPv6 MTU too small (<1280): %d\n" [ArgInt mtu] ;;;
    ret (-1)
  else
  if mtu >? 65535 then
    syslog LOG_ERR "IPv6 MTU too big (>65535): %d\n" [ArgInt mtu] ;;;
    ret (-1)
  else
  reqfd <- socket_udp6 ;;
  if reqfd =? -1 then ret (-1) else
  let name := secure_strncpy (ifname t) IFNAMSIZ in
  r <- ioctl reqfd (SIOCSIFMTU name mtu) ;;
  if negb (r =? 0) then
    syslog LOG_ERR "%s tunnel MTU error (SIOCSIFMTU): %m\n" [ArgStr (ifname t)] ;;;
    close reqfd ;;;
    ret (-1)
  else
  syslog LOG_DEBUG "%s tunnel MTU set to %d.\n" [ArgStr (ifname t); ArgInt mtu] ;;;
  ret 0.

Definition RegisterReadSet (t : IPv6Tunnel) (readset : fd_set) : Z * fd_set :=
  if negb (fd t =? -1)
  then (fd t, FD_SET (fd t) readset)
  else (fd t, readset).

(** The method updates [pbuf] and [plen]: the handle comes back with the
    return value. *)
Definition ReceivePacket (t : IPv6Tunnel) (readset : fd_set) : io (Z * IPv6Tunnel) :=
  if (fd t =? -1) || negb (FD_ISSET (fd t) readset) then ret (-1, t) else
  r <- read (fd t) sizeof_pbuf ;;
  let '(len, octets) := r in
  if len =? -1 then ret (-1, t) else
  let t := {| fd := fd t; ifname := ifname t;
              pbuf := memcpy (pbuf t) 0 octets; plen := len |} in
  let flags := u16_of_bytes WORDS_BIGENDIAN (nth 0 (pbuf t) x00) (nth 1 (pbuf t) x00) in
  let proto := u16_of_bytes WORDS_BIGENDIAN (nth 2 (pbuf t) x00) (nth 3 (pbuf t) x00) in
  if negb (proto =? L2_PROTO_IPV6)
  then ret (-1, t) (* only accept IPv6 packets *)
  else ret (0, t).

Definition SendPacket (t : IPv6Tunnel) (packet : list byte) : io Z :=
  let len := Z.of_nat (length packet) in
  if negb (fd t =? -1) && (len <=? 65535) then
    buf <- automatic_array (Z.to_nat (65535 + 4)) ;;
    let flags := 0 in
    let proto := L2_PROTO_IPV6 in
    let buf := memcpy buf 0 (u16_bytes WORDS_BIGENDIAN flags) in
    let buf := memcpy buf 2 (u16_bytes WORDS_BIGENDIAN proto) in
    let buf := memcpy buf 4 packet in
    let len := len + 4 in
    w <- write (fd t) (take (Z.to_nat len) buf) ;;
    if w =? int_of_Z len then ret 0 else
    (if int_of_Z len =? -1
     then syslog LOG_ERR "Cannot send packet to tunnel: %m" []
     else syslog LOG_ERR "Packet truncated to %u byte(s)\n" [ArgInt len]) ;;;
    ret (-1)
  else ret (-1).

End Platform.

(** The flags [SetState] writes back, as a function of the flags it read
    (the four assignments to [req.ifr_flags]). *)
Definition SetState_flags (up : bool) (read : Z) : Z :=
  let f := short_of_Z (Z.lor read (Z.lor IFF_POINTOPOINT IFF_NOARP)) in
  let f := if up
           then short_of_Z (Z.lor f (Z.lor IFF_UP IFF_RUNNING))
           else short_of_Z (Z.land f (Z.lnot IFF_UP)) in
  short_of_Z (Z.land f (Z.lnot (Z.lor IFF_MULTICAST IFF_BROADCAST))).

(** [flags & mask] is all of [mask], or none of it. *)
Definition flags_set (flags mask : Z) : Prop := Z.land flags mask = mask.
Definition flags_clear (flags mask : Z) : Prop := Z.land flags mask = 0.

(** The header of an IPv6 frame on the device: flags, then the ethertype in
    the driver's byte order. *)
Definition frame_header (big_endian : bool) : list byte :=
  u16_bytes big_endian 0 ++ u16_bytes big_endian (L2_PROTO_IPV6 big_endian).

(** The ethertype field of a frame: its octets at offsets 2 and 3. *)
Definition ethertype_field (frame : list byte) : list byte :=
  take 2 (drop 2 frame).

End Tun6.

(** Concrete handles, kernels and frames, for the examples. *)

Module Tun6Examples.
Import Octets Sys Tun6.

(** A handle on descriptor 3, and one whose open failed. *)
Definition tun0 : IPv6Tunnel :=
  {| fd := 3; ifname := "teredo"; pbuf := repeat x00 sizeof_pbuf; plen := 0 |}.

Definition tun_raw : IPv6Tunnel :=
  {| fd := 0; ifname := EmptyString; pbuf := repeat x00 sizeof_pbuf; plen := 0 |}.

Definition all_written (buf : list byte) : Z := Z.of_nat (length buf).

(** A kernel that accepts every request: the device opens on descriptor 3,
    the control socket is [sock], the interface flags are [ifflags], the next
    read delivers [frame] and [write] returns [written buf]. *)
Definition kernel_with
    (sock : Z) (ifflags : Z) (frame : option (list byte))
    (written : list byte -> Z) : kernel :=
  {| k_open := 3;
     k_socket := sock;
     k_ioctl := fun _ => 0;
     k_ifr := fun _ => ifflags;
     k_ifname := fun name => if String.eqb name EmptyString then "tun0"%string else name;
     k_read := frame;
     k_write := written;
     k_stack := fun _ => xff |}.


Definition kernel_ok : kernel := kernel_with 4 0 None all_written.

(** A kernel on which the tunnel device cannot be opened. *)
Definition kernel_no_device : kernel :=
  {| k_open := -1;
     k_socket := 4;
     k_ioctl := fun _ => 0;
     k_ifr := fun _ => 0;
     k_ifname := fun name => name;
     k_read := None;
     k_write := all_written;
     k_stack := fun _ => xff |}.

Definition kernel_reading (frame : list byte) : kernel :=
  kernel_with 4 0 (Some frame) all_written.

(** The handle a failed open leaves. *)
Definition tun_failed : IPv6Tunnel :=
  fst (IPv6Tunnel_new tun_raw (Some "teredo"%string) None kernel_no_device).

(** An IPv4 frame of 4 octets (ethertype 0x0800), a 5-octet frame with the
    IPv6 ethertype, and a frame too short to hold a header. *)
Definition ipv4_frame : list byte := [x00; x00; x08; x00].
Definition ipv6_frame : list byte := [x00; x00; x86; xdd; x60].
Definition short_frame : list byte := [x00; x00].

End Tun6Examples.

(** ** miredo.cpp: signal handlers, worker loop, supervisor *)

Module Miredo.
Import Tun6.

(** *** Signals *)

(** <signal.h>: the signals the program names, with their Linux numbers. *)
Inductive signal : Type :=
| SIGHUP | SIGINT | SIGQUIT | SIGUSR1 | SIGUSR2 | SIGPIPE | SIGTERM.

Definition signum (s : signal) : Z :=
  match s with
  | SIGHUP => 1 | SIGINT => 2 | SIGQUIT => 3 | SIGUSR1 => 10
  | SIGUSR2 => 12 | SIGPIPE => 13 | SIGTERM => 15
  end.

Definition signal_eqb (a b : signal) : bool := signum a =? signum b.

(** What [sa_handler] can be in this program. *)
Inductive disposition : Type :=
| SIG_DFL | SIG_IGN | handler_exit | handler_reload.

(** [sigset_t], and [struct sigaction] as far as the program fills it in
    ([sa_flags] is 0 throughout). *)
Definition sigset : Type := signal -> bool.
Definition sigemptyset : sigset := fun _ => false.

Record sigaction_t : Type := {
  sa_handler : disposition;
  sa_mask : sigset
}.

(** The statics of miredo.cpp and the signal table of the process. *)
Record process : Type := {
  should_exit : Z;
  should_reload : Z;
  signalfd0 : Z;                    (* signalfd[0] *)
  signalfd1 : Z;                    (* signalfd[1] *)
  handlers : signal -> sigaction_t
}.

(** Static storage is zeroed; no handler is installed yet. *)
Definition process_start : process :=
  {| should_exit := 0; should_reload := 0; signalfd0 := 0; signalfd1 := 0;
     handlers := fun _ => {| sa_handler := SIG_DFL; sa_mask := sigemptyset |} |}.

(** What a handler does that the rest of the program can see. *)
Inductive action : Type :=
| bridge_write (fd : Z) (signum : Z)   (* write (signalfd[1], &signum, 4) *)
| set_should_exit (signum : Z)
| set_should_reload (signum : Z).

(** The two handlers, run from entry to return without interruption. *)
Definition exit_handler (signum : Z) (p : process) : process * list action :=
  if negb (should_exit p =? 0) || (signalfd1 p =? -1) then (p, []) else
  ({| should_exit := signum; should_reload := should_reload p;
      signalfd0 := signalfd0 p; signalfd1 := signalfd1 p;
      handlers := handlers p |},
   [bridge_write (signalfd1 p) signum; set_should_exit signum]).

Definition reload_handler (signum : Z) (p : process) : process * list action :=
  if negb (should_reload p =? 0) || (signalfd1 p =? -1) then (p, []) else
  ({| should_exit := should_exit p; should_reload := signum;
      signalfd0 := signalfd0 p; signalfd1 := signalfd1 p;
      handlers := handlers p |},
   [bridge_write (signalfd1 p) signum; set_should_reload signum]).

Definition sigaction (sig : signal) (sa : sigaction_t)
    (table : signal -> sigaction_t) : signal -> sigaction_t :=
  fun s => if signal_eqb s sig then sa else table s.

(** [pipe_result] is what [pipe (signalfd)] does: [None] when it fails. *)
Definition InitSignals (pipe_result : option (Z * Z)) (p : process) : bool * process :=
  match pipe_result with
  | None => (false, p)
  | Some (rd, wr) =>
      let mask := sigemptyset in
      let sa := {| sa_handler := handler_exit; sa_mask := mask |} in
      let table := sigaction SIGINT sa (handlers p) in
      let table := sigaction SIGQUIT sa table in
      let table := sigaction SIGTERM sa table in
      let sa := {| sa_handler := SIG_IGN; sa_mask := mask |} in
      let table := sigaction SIGPIPE sa table in
      let table := sigaction SIGUSR1 sa table in
      let table := sigaction SIGUSR2 sa table in
      let sa := {| sa_handler := handler_reload; sa_mask := mask |} in
      let table := sigaction SIGHUP sa table in
      (true,
       {| should_exit := 0; should_reload := 0;
          signalfd0 := rd; signalfd1 := wr; handlers := table |})
  end.

(** The handlers [InitSignals] leaves, for the signals the program names. *)
Definition installed (s : signal) : disposition :=
  match s with
  | SIGINT | SIGQUIT | SIGTERM => handler_exit
  | SIGHUP => handler_reload
  | SIGPIPE | SIGUSR1 | SIGUSR2 => SIG_IGN
  end.

(** [asyncsafe_close (signalfd[1])]: the descriptor becomes -1 before it is
    closed, so that a handler running from then on does not write. *)
Definition asyncsafe_close (p : process) : process :=
  {| should_exit := should_exit p; should_reload := should_reload p;
     signalfd0 := signalfd0 p; signalfd1 := -1; handlers := handlers p |}.

(** The read end is closed last; its number stays in [signalfd[0]]. *)
Definition DeinitSignals (p : process) : process :=
  asyncsafe_close p.

(** Delivery of one signal whose handler runs to its end: [None] when the
    default action ends the process. *)
Definition deliver (s : signal) (p : process) : option (process * list action) :=
  match sa_handler (handlers p s) with
  | SIG_DFL => None
  | SIG_IGN => Some (p, [])
  | handler_exit => Some (exit_handler (signum s) p)
  | handler_reload => Some (reload_handler (signum s) p)
  end.

Fixpoint deliver_all (sigs : list signal) (p : process)
    : option (process * list action) :=
  match sigs with
  | [] => Some (p, [])
  | s :: sigs' =>
      match deliver s p with
      | None => None
      | Some (p', a) =>
          match deliver_all sigs' p' with
          | None => None
          | Some (p'', a') => Some (p'', a ++ a')
          end
      end
  end.

(** **** Handlers that can be interrupted

    A handler is three statements: the test, the [write], the assignment.  A
    signal that is not blocked interrupts whatever runs, a handler included.
    While a handler runs, the signal that started it and the signals of its
    [sa_mask] are blocked. *)

Inductive pc : Type := pc_test | pc_write | pc_assign.

Record frame : Type := {
  fr_signal : signal;
  fr_handler : disposition;
  fr_pc : pc
}.

(** The process and the handlers in progress, innermost first. *)
Record machine : Type := {
  m_proc : process;
  m_stack : list frame
}.

Definition idle (p : process) : machine := {| m_proc := p; m_stack := [] |}.

(** [sa_flags] being 0, a signal is blocked while its own handler runs, and
    so are the signals of the [sa_mask] it was installed with. *)
Definition blocked (m : machine) (s : signal) : bool :=
  existsb
    (fun fr => signal_eqb s (fr_signal fr)
               || sa_mask (handlers (m_proc m) (fr_signal fr)) s)
    (m_stack m).

(** The next statement of the handler [fr], the handlers under it being
    [stack]. *)
Definition handler_step (fr : frame) (p : process) (stack : list frame)
    : machine * list action :=
  let signum := signum (fr_signal fr) in
  let at_pc pc := {| fr_signal := fr_signal fr; fr_handler := fr_handler fr;
                     fr_pc := pc |} in
  match fr_handler fr, fr_pc fr with
  | handler_exit, pc_test =>
      if negb (should_exit p =? 0) || (signalfd1 p =? -1)
      then ({| m_proc := p; m_stack := stack |}, [])
      else ({| m_proc := p; m_stack := at_pc pc_write :: stack |}, [])
  | handler_exit, pc_write =>
      ({| m_proc := p; m_stack := at_pc pc_assign :: stack |},
       [bridge_write (signalfd1 p) signum])
  | handler_exit, pc_assign =>
      ({| m_proc := {| should_exit := signum; should_reload := should_reload p;
                       signalfd0 := signalfd0 p; signalfd1 := signalfd1 p;
                       handlers := handlers p |};
          m_stack := stack |},
       [set_should_exit signum])
  | handler_reload, pc_test =>
      if negb (should_reload p =? 0) || (signalfd1 p =? -1)
      then ({| m_proc := p; m_stack := stack |}, [])
      else ({| m_proc := p; m_stack := at_pc pc_write :: stack |}, [])
  | handler_reload, pc_write =>
      ({| m_proc := p; m_stack := at_pc pc_assign :: stack |},
       [bridge_write (signalfd1 p) signum])
  | handler_reload, pc_assign =>
      ({| m_proc := {| should_exit := should_exit p; should_reload := signum;
                       signalfd0 := signalfd0 p; signalfd1 := signalfd1 p;
                       handlers := handlers p |};
          m_stack := stack |},
       [set_should_reload signum])
  | _, _ => ({| m_proc := p; m_stack := stack |}, [])
  end.

(** What can happen next: a signal arrives, or the innermost handler runs
    its next statement. *)
Inductive sig_event : Type :=
| arrives (s : signal)
| resumes.

(** One event.  A blocked signal stays pending and an ignored one is
    discarded: nothing changes; [None] when the default action ends the
    process. *)
Definition sig_step (e : sig_event) (m : machine) : option (machine * list action) :=
  match e with
  | arrives s =>
      if blocked m s then Some (m, []) else
      match sa_handler (handlers (m_proc m) s) with
      | SIG_DFL => None
      | SIG_IGN => Some (m, [])
      | h =>
          Some ({| m_proc := m_proc m;
                   m_stack := {| fr_signal := s; fr_handler := h; fr_pc := pc_test |}
                              :: m_stack m |}, [])
      end
  | resumes =>
      match m_stack m with
      | [] => Some (m, [])
      | fr :: stack => Some (handler_step fr (m_proc m) stack)
      end
  end.

Fixpoint sig_run (events : list sig_event) (m : machine)
    : option (machine * list action) :=
  match events with
  | [] => Some (m, [])
  | e :: events' =>
      match sig_step e m with
      | None => None
      | Some (m', a) =>
          match sig_run events' m' with
          | None => None
          | Some (m'', a') => Some (m'', a ++ a')
          end
      end
  end.

(** The handlers in progress run to their end: three statements each at
    most. *)
Definition settle (m : machine) : option (machine * list action) :=
  sig_run (repeat resumes (3 * length (m_stack m))) m.

(** Each signal arrives when no handler runs, and its handler is not
    interrupted. *)
Definition one_by_one (sigs : list signal) : list sig_event :=
  concat (map (fun s => [arrives s; resumes; resumes; resumes]) sigs).

Definition is_set_should_exit (a : action) : bool :=
  match a with set_should_exit _ => true | _ => false end.
Definition is_set_should_reload (a : action) : bool :=
  match a with set_should_reload _ => true | _ => false end.
Definition is_bridge_write (a : action) : bool :=
  match a with bridge_write _ _ => true | _ => false end.

(** How many more times each variable can be set from a given state, when
    handlers are not interrupted. *)
Definition exit_budget (q : process) : nat :=
  if should_exit q =? 0 then 1%nat else 0%nat.
Definition reload_budget (q : process) : nat :=
  if should_reload q =? 0 then 1%nat else 0%nat.

Definition sets_exit (acts : list action) : nat :=
  length (filter is_set_should_exit acts).
Definition sets_reload (acts : list action) : nat :=
  length (filter is_set_should_reload acts).
Definition bridge_writes (acts : list action) : nat :=
  length (filter is_bridge_write acts).

(** The handlers run with every signal blocked, as the comment above them
    in miredo.cpp has it. *)
Definition blocks_all (p : process) : Prop :=
  forall s s' : signal, sa_mask (handlers p s) s' = true.

(** How many more times each variable can be set, when at most one handler
    is in progress: once if that handler is past its test, else by the
    budget. *)
Definition pending_exit (m : machine) : nat :=
  match m_stack m with
  | fr :: _ =>
      match fr_handler fr, fr_pc fr with
      | handler_exit, pc_write | handler_exit, pc_assign => 1%nat
      | _, _ => exit_budget (m_proc m)
      end
  | [] => exit_budget (m_proc m)
  end.

Definition pending_reload (m : machine) : nat :=
  match m_stack m with
  | fr :: _ =>
      match fr_handler fr, fr_pc fr with
      | handler_reload, pc_write | handler_reload, pc_assign => 1%nat
      | _, _ => reload_budget (m_proc m)
      end
  | [] => reload_budget (m_proc m)
  end.

(** *** The worker loop *)

(** The relay and the server are objects of other files.  The loop sees
    them through [RegisterReadSet] (the descriptors it adds to the set and
    the value it returns) and through the calls below, whose effects are
    theirs. *)
Record registrant : Type := {
  reg_fds : fd_set;
  reg_val : Z
}.

Inductive call : Type :=
| call_select (nfds : Z) (readset : fd_set) (tv_sec tv_usec : Z)
| server_ProcessPacket (readset : fd_set)
| relay_Process
| tunnel_ReceivePacket (readset : fd_set)
| relay_SendPacket (len : Z)
| relay_ReceivePacket (readset : fd_set).

(** What the world does during one iteration: whether [select] fails, which
    descriptors become readable within the timeout, and the length the
    tunnel's [ReceivePacket (readset, buf, size)] returns. *)
Record tick : Type := {
  select_fails : bool;
  readable : fd_set;
  tunnel_len : Z
}.

(** [select (nfds, &readset, NULL, NULL, &tv)]: on failure -1 and the set
    untouched; otherwise the watched descriptors below [nfds] that are
    readable, and their number. *)
Definition select (nfds : Z) (readset : fd_set) (w : tick) : Z * fd_set :=
  if select_fails w then (-1, readset) else
  let ready := filter (fun fd => 0 <= fd < nfds) (readset ∩ readable w) in
  (Z.of_nat (size ready), ready).

Definition register (r : registrant) (maxfd : Z) (readset : fd_set) : Z * fd_set :=
  let val := reg_val r in
  (if val >? maxfd then val else maxfd, reg_fds r ∪ readset).

(** The readiness set and [maxfd] built at the top of the loop. *)
Definition registered (sigfd : Z) (tunnel : IPv6Tunnel)
    (relay server : option registrant) : Z * fd_set :=
  let readset : fd_set := ∅ in
  let maxfd := sigfd in
  let readset := FD_SET sigfd readset in
  let '(maxfd, readset) :=
    match server with
    | Some s => register s maxfd readset
    | None => (maxfd, readset)
    end in
  match relay with
  | Some r =>
      let '(val, readset) := RegisterReadSet tunnel readset in
      let maxfd := if val >? maxfd then val else maxfd in
      register r maxfd readset
  | None => (maxfd, readset)
  end.

(** One turn of [while (1)]: whether it ends in [break], and the calls
    made, in order. *)
Definition iteration (sigfd : Z) (tunnel : IPv6Tunnel)
    (relay server : option registrant) (w : tick) : bool * list call :=
  let '(maxfd, readset) := registered sigfd tunnel relay server in
  (* Short time-out to call relay->Proces () quite often. *)
  let tv_sec := 0 in
  let tv_usec := 250000 in
  (* Wait until one of them is ready for read *)
  let waited := call_select (maxfd + 1) readset tv_sec tv_usec in
  let '(maxfd, readset) := select (maxfd + 1) readset w in
  if (maxfd <? 0) || ((maxfd >=? 1) && FD_ISSET sigfd readset)
  then (true, [waited]) (* interrupted by signal *)
  else
    (false,
     waited ::
     (* Handle incoming data *)
     (match server with
      | Some _ => [server_ProcessPacket readset]
      | None => []
      end) ++
     (match relay with
      | Some _ =>
          let len := tunnel_len w in
          relay_Process ::
          tunnel_ReceivePacket readset ::
          (if len >? 0 then [relay_SendPacket len] else []) ++
          [relay_ReceivePacket readset]
      | None => []
      end)).

(** The loop over the ticks the world provides; [true] when it has left the
    loop, [false] when it is still in it after the last tick. *)
Fixpoint teredo_server_relay (sigfd : Z) (tunnel : IPv6Tunnel)
    (relay server : option registrant) (ticks : list tick) : bool * list call :=
  match ticks with
  | [] => (false, [])
  | w :: ticks' =>
      let '(stop, calls) := iteration sigfd tunnel relay server w in
      if stop then (true, calls) else
      let '(stopped, calls') := teredo_server_relay sigfd tunnel relay server ticks' in
      (stopped, calls ++ calls')
  end.

Definition is_select (c : call) : bool :=
  match c with call_select _ _ _ _ => true | _ => false end.
Definition is_server_call (c : call) : bool :=
  match c with server_ProcessPacket _ => true | _ => false end.
Definition is_housekeeping (c : call) : bool :=
  match c with relay_Process => true | _ => false end.
Definition is_tunnel_receive (c : call) : bool :=
  match c with tunnel_ReceivePacket _ => true | _ => false end.
Definition is_relay_send (c : call) : bool :=
  match c with relay_SendPacket _ => true | _ => false end.
Definition is_outbound (c : call) : bool :=
  is_tunnel_receive c || is_relay_send c.
Definition is_inbound (c : call) : bool :=
  match c with relay_ReceivePacket _ => true | _ => false end.
Definition is_relay_call (c : call) : bool :=
  is_housekeeping c || is_outbound c || is_inbound c.

(** Every call satisfying [P] comes earlier in the list than every call
    satisfying [Q]. *)
Definition all_before (P Q : call -> bool) (calls : list call) : Prop :=
  forall (i j : nat) (a b : call),
    calls !! i = Some a -> calls !! j = Some b ->
    P a = true -> Q b = true -> (i < j)%nat.

(** A decision procedure for [all_before]: behind a call satisfying [Q],
    and at it, no call satisfies [P]. *)
Fixpoint all_beforeb (P Q : call -> bool) (calls : list call) : bool :=
  match calls with
  | [] => true
  | c :: calls' =>
      (negb (Q c) || (negb (P c) && forallb (fun d => negb (P d)) calls'))
      && all_beforeb P Q calls'
  end.

Definition timeout_250ms (c : call) : Prop :=
  match c with
  | call_select _ _ tv_sec tv_usec => tv_sec = 0 /\ tv_usec = 250000
  | _ => True
  end.

(** The world interrupts the wait: [select] fails, or the read end of the
    signal pipe is readable. *)
Definition interrupts (sigfd : Z) (w : tick) : Prop :=
  select_fails w = true \/ sigfd ∈ readable w.

(** *** The supervisor *)

Definition schar_of_Z (z : Z) : Z := (z + 128) mod 256 - 128.

(** <sys/wait.h> (glibc): the macros on the status [waitpid] stores. *)
Definition WEXITSTATUS (status : Z) : Z := Z.shiftr (Z.land status 0xff00) 8.
Definition WTERMSIG (status : Z) : Z := Z.land status 0x7f.
Definition WIFEXITED (status : Z) : bool := WTERMSIG status =? 0.
Definition WIFSIGNALED (status : Z) : bool :=
  Z.shiftr (schar_of_Z (Z.land status 0x7f + 1)) 1 >? 0.

(** What happens during one turn of the [do ... while] of [miredo]. *)
Record generation : Type := {
  g_pipe : option (Z * Z);     (* pipe(): the two descriptors, or failure *)
  g_conf : option Z;           (* ParseConf(): the facility chosen, or failure *)
  g_fork : Z;                  (* fork(): -1, 0 in the child, else the pid *)
  g_run : Z;                   (* miredo_run(), in the child *)
  g_signals : list sig_event;  (* signals and handler statements while the
                                  child is awaited *)
  g_status : Z                 (* the status waitpid() stores *)
}.

Inductive body_result : Type :=
| body_retval (retval : Z) (p : process) (facility : Z)
| body_exit (code : Z)          (* exit() in the child *)
| body_killed.                  (* ended by a signal's default action *)

(** The if-chain after [DeinitSignals ()]: the new [retval]. *)
Definition decide (p : process) (retval : Z) : Z :=
  if negb (should_exit p =? 0) then 0
  else if negb (should_reload p =? 0) then 2
  else if WIFEXITED retval then
    let retval := WEXITSTATUS retval in
    if negb (retval =? 0) then 1 else 0
  else if WIFSIGNALED retval then 2
  else retval.

(** The process once the events have happened and the handlers have
    returned to the main program. *)
Definition handled (events : list sig_event) (p : process) : option process :=
  match sig_run events (idle p) with
  | None => None
  | Some (m, _) =>
      match settle m with
      | None => None
      | Some (m', _) => Some (m_proc m')
      end
  end.

(** The body of the [do ... while]; [continue] leaves it with the current
    [retval]. *)
Definition loop_body (p : process) (facility : Z) (g : generation) : body_result :=
  let retval := 1 in
  let '(ok, p) := InitSignals (g_pipe g) p in
  if negb ok then body_retval retval p facility else
  match g_conf g with
  | None => body_retval retval p facility
  | Some newfac =>
      (* Apply syslog facility change if needed *)
      let facility := if negb (newfac =? facility) then newfac else facility in
      (* Starts the main miredo process *)
      let pid := g_fork g in
      if pid =? -1 then body_retval retval p facility else
      if pid =? 0 then
        (* the child: asyncsafe_close (signalfd[1]), then the worker *)
        let retval := g_run g in
        body_exit (- retval)
      else
      (* Waits until the miredo process terminates *)
      match handled (g_signals g) p with
      | None => body_killed
      | Some p =>
          let retval := g_status g in
          let p := DeinitSignals p in
          body_retval (decide p retval) p facility
      end
  end.

Inductive outcome : Type :=
| returned (value : Z)          (* miredo() returns *)
| exited (code : Z)             (* the child calls exit() *)
| killed                        (* ended by a signal's default action *)
| looping.                      (* still in the loop after the last generation *)

Fixpoint miredo_loop (p : process) (facility : Z) (gens : list generation) : outcome :=
  match gens with
  | [] => looping
  | g :: gens' =>
      match loop_body p facility g with
      | body_retval retval p facility =>
          if retval =? 2 then miredo_loop p facility gens'
          else returned (- retval)
      | body_exit code => exited code
      | body_killed => killed
      end
  end.

Definition LOG_DAEMON : Z := 24.

Definition miredo (gens : list generation) : outcome :=
  miredo_loop process_start LOG_DAEMON gens.

(** The state the if-chain looks at, for a generation that gets as far as
    reaping the child. *)
Definition reaped (p : process) (g : generation) : option process :=
  match g_pipe g, g_conf g with
  | Some fds, Some _ =>
      if (g_fork g =? -1) || (g_fork g =? 0) then None else
      match handled (g_signals g) (snd (InitSignals (Some fds) p)) with
      | Some p' => Some (DeinitSignals p')
      | None => None
      end
  | _, _ => None
  end.

(** The encoding of the status, for the examples. *)
Definition W_EXITCODE (ret sig : Z) : Z := Z.lor (Z.shiftl ret 8) sig.

End Miredo.

(** Concrete generations and ticks, for the examples. *)

Module MiredoExamples.
Import Tun6 Miredo.

Definition generation_with (sigs : list signal) (status : Z) : generation :=
  {| g_pipe := Some (5, 6); g_conf := Some LOG_DAEMON; g_fork := 1234;
     g_run := 0; g_signals := one_by_one sigs; g_status := status |}.

(** The child exits with code 0 after SIGTERM reached the supervisor. *)
Definition gen_term : generation := generation_with [SIGTERM] (W_EXITCODE 0 0).
(** The child exits with code 0 after SIGHUP reached the supervisor. *)
Definition gen_hup : generation := generation_with [SIGHUP] (W_EXITCODE 0 0).
(** The child exits by itself with code 255 (a failed start). *)
Definition gen_failed : generation := generation_with [] (W_EXITCODE 255 0).
(** The child is killed by signal 11. *)
Definition gen_crash : generation := generation_with [] (W_EXITCODE 0 11).

(** [select] fails while nothing is readable. *)
Definition tick_select_error : tick :=
  {| select_fails := true; readable := ∅; tunnel_len := 0 |}.
(** Nothing happens for 250 ms. *)
Definition tick_idle : tick :=
  {| select_fails := false; readable := ∅; tunnel_len := 0 |}.
(** The tunnel (descriptor 3) has a packet of 40 octets. *)
Definition tick_packet : tick :=
  {| select_fails := false; readable := {[ 3 ]}; tunnel_len := 40 |}.
(** A signal was written to the pipe, whose read end is descriptor 5. *)
Definition tick_signal : tick :=
  {| select_fails := false; readable := {[ 5 ]}; tunnel_len := 0 |}.

Definition relay0 : registrant := {| reg_fds := {[ 7 ]}; reg_val := 7 |}.
Definition server0 : registrant := {| reg_fds := {[ 8; 9 ]}; reg_val := 9 |}.

End MiredoExamples.

(** ** Further vocabulary for traces and handles *)

Module Tun6More.
Import Octets Sys Tun6.

Definition is_close (c : syscall) : bool :=
  match c with sys_close _ => true | _ => false end.

(** The interface name an ioctl request carries in [ifr_name]; the address
    request carries an index instead. *)
Definition ifr_name_of (c : syscall) : option string :=
  match c with
  | sys_ioctl _ (TUNSETIFF n _) | sys_ioctl _ (SIOCGIFFLAGS n)
  | sys_ioctl _ (SIOCSIFFLAGS n _) | sys_ioctl _ (SIOCGIFINDEX n)
  | sys_ioctl _ (SIOCSIFMTU n _) => Some n
  | _ => None
  end.

(** Every name handed to the kernel fits [ifr_name] with its final NUL. *)
Definition names_fit (t : list syscall) : Prop :=
  Forall (fun c => match ifr_name_of c with
                   | Some n => (String.length n < IFNAMSIZ)%nat
                   | None => True
                   end) t.

(** The buffer of a handle has its declared size and the recorded length
    lies within it. *)
Definition buffer_ok (t : IPv6Tunnel) : Prop :=
  length (pbuf t) = sizeof_pbuf /\ 0 <= plen t <= Z.of_nat sizeof_pbuf.

(** The name the constructor asks for. *)
Definition requested_name (req_name : option string) : string :=
  match req_name with
  | Some n => secure_strncpy n IFNAMSIZ
  | None => EmptyString
  end.

End Tun6More.

Module MiredoMore.
Import Tun6 Miredo.

(** The readiness set a call on the server, the relay or the tunnel is
    given. *)
Definition readset_of (c : call) : option fd_set :=
  match c with
  | server_ProcessPacket rs | tunnel_ReceivePacket rs | relay_ReceivePacket rs => Some rs
  | _ => None
  end.

(** The number of turns of the loop a trace shows: one wait each. *)
Definition waits (calls : list call) : nat := length (filter is_select calls).

(** A handler of SIGHUP that has passed its test and not yet returned. *)
Definition reload_in_progress (fr : frame) : bool :=
  match fr_handler fr, fr_pc fr with
  | handler_reload, pc_write | handler_reload, pc_assign => true
  | _, _ => false
  end.

(** How many more times [should_reload] can be set, handlers in progress
    included. *)
Definition reloads_left (m : machine) : nat :=
  if existsb reload_in_progress (m_stack m) then 1%nat
  else reload_budget (m_proc m).

(** The numbers of the signals that end the program, and of the one that
    reloads it. *)
Definition terminal_number (n : Z) : Prop := n = 2 \/ n = 3 \/ n = 15.
Definition reload_number (n : Z) : Prop := n = 1.

(** What a handler may do when the write end of the pipe is [wr]. *)
Definition action_ok (wr : Z) (a : action) : Prop :=
  match a with
  | bridge_write fd n => fd = wr /\ (terminal_number n \/ reload_number n)
  | set_should_exit n => terminal_number n
  | set_should_reload n => reload_number n
  end.

(** The state of a process between [InitSignals] and [DeinitSignals]: the
    handlers are the installed ones, each handler in progress is the one of
    its signal, no signal has two handlers in progress, and the variables
    hold 0 or the number of a signal of their class. *)
Definition in_generation (wr : Z) (m : machine) : Prop :=
  (forall s, sa_handler (handlers (m_proc m) s) = installed s) /\
  Forall (fun fr => fr_handler fr = installed (fr_signal fr)) (m_stack m) /\
  NoDup (map fr_signal (m_stack m)) /\
  (should_exit (m_proc m) = 0 \/ terminal_number (should_exit (m_proc m))) /\
  (should_reload (m_proc m) = 0 \/ reload_number (should_reload (m_proc m))) /\
  signalfd1 (m_proc m) = wr.

(** The two processes agree on everything the handlers and the supervisor
    look at. *)
Definition same_state (p q : process) : Prop :=
  should_exit p = should_exit q /\ should_reload p = should_reload q /\
  signalfd0 p = signalfd0 q /\ signalfd1 p = signalfd1 q /\
  forall s, handlers p s = handlers q s.

(** **** [InitSignals], statement by statement

    [InitSignals] is not atomic.  A signal that arrives while it runs is
    handled between two of its statements, to the return of its handler,
    under the table as it is then: from the second generation on, the table
    the generation before installed, until [sigaction] replaces it. *)

(** [pipe (signalfd)], when it succeeds. *)
Definition pipe_signalfd (rd wr : Z) (p : process) : process :=
  {| should_exit := should_exit p; should_reload := should_reload p;
     signalfd0 := rd; signalfd1 := wr; handlers := handlers p |}.

(** [should_exit = 0] and [should_reload = 0]. *)
Definition clear_should_exit (p : process) : process :=
  {| should_exit := 0; should_reload := should_reload p;
     signalfd0 := signalfd0 p; signalfd1 := signalfd1 p; handlers := handlers p |}.
Definition clear_should_reload (p : process) : process :=
  {| should_exit := should_exit p; should_reload := 0;
     signalfd0 := signalfd0 p; signalfd1 := signalfd1 p; handlers := handlers p |}.

(** [sa.sa_handler = h; sigaction (sig, &sa, NULL)], the mask being empty. *)
Definition install (sig : signal) (h : disposition) (p : process) : process :=
  {| should_exit := should_exit p; should_reload := should_reload p;
     signalfd0 := signalfd0 p; signalfd1 := signalfd1 p;
     handlers := sigaction sig {| sa_handler := h; sa_mask := sigemptyset |}
                   (handlers p) |}.

(** The statements of [InitSignals] after a successful [pipe], in order. *)
Definition InitSignals_statements (rd wr : Z) : list (process -> process) :=
  [pipe_signalfd rd wr; clear_should_exit; clear_should_reload;
   install SIGINT handler_exit; install SIGQUIT handler_exit;
   install SIGTERM handler_exit;
   install SIGPIPE SIG_IGN; install SIGUSR1 SIG_IGN; install SIGUSR2 SIG_IGN;
   install SIGHUP handler_reload].

(** The events happen and the handlers return to the main program: the
    process then, and what the handlers did. *)
Definition handling (events : list sig_event) (p : process)
    : option (process * list action) :=
  match sig_run events (idle p) with
  | None => None
  | Some (m, a) =>
      match settle m with
      | None => None
      | Some (m', a') => Some (m_proc m', a ++ a')
      end
  end.

(** The statements in turn, each followed by the signals that arrive before
    the next one: [arrivals] gives them statement by statement, and none
    arrive after those it lists. *)
Fixpoint interleaved (stmts : list (process -> process))
    (arrivals : list (list sig_event)) (p : process)
    : option (process * list action) :=
  match stmts with
  | [] => Some (p, [])
  | stmt :: stmts' =>
      match handling (hd [] arrivals) (stmt p) with
      | None => None
      | Some (p', a) =>
          match interleaved stmts' (tl arrivals) p' with
          | None => None
          | Some (p'', a') => Some (p'', a ++ a')
          end
      end
  end.

(** What the handler of [s] does when it finds the process as [p], run to
    its end: nothing when its variable is set or the signal is ignored. *)
Definition handler_actions (s : signal) (p : process) : list action :=
  match installed s with
  | handler_exit =>
      if should_exit p =? 0
      then [bridge_write (signalfd1 p) (signum s); set_should_exit (signum s)]
      else []
  | handler_reload =>
      if should_reload p =? 0
      then [bridge_write (signalfd1 p) (signum s); set_should_reload (signum s)]
      else []
  | SIG_DFL | SIG_IGN => []
  end.

(** The generation stops before a child is awaited: [pipe], [ParseConf] or
    [fork] failed. *)
Definition start_fails (g : generation) : Prop :=
  g_pipe g = None \/ g_conf g = None \/ g_fork g = -1.

(** The status is neither that of an exit nor that of a death by signal. *)
Definition unclassified (status : Z) : Prop :=
  WIFEXITED status = false /\ WIFSIGNALED status = false.

End MiredoMore.

(** Further generations, for the examples. *)

Module MiredoMoreExamples.
Import Miredo MiredoExamples.

(** [fork] fails. *)
Definition gen_no_fork : generation :=
  {| g_pipe := Some (5, 6); g_conf := Some LOG_DAEMON; g_fork := -1;
     g_run := 0; g_signals := []; g_status := 0 |}.

(** The child's side of a generation in which [miredo_run] returns -1. *)
Definition gen_child : generation :=
  {| g_pipe := Some (5, 6); g_conf := Some LOG_DAEMON; g_fork := 0;
     g_run := -1; g_signals := []; g_status := 0 |}.

(** The status of a child stopped by signal 19. *)
Definition gen_stopped : generation := generation_with [] 0x137f.

(** The process as [InitSignals] leaves it in the examples. *)
Definition proc0 : process := snd (InitSignals (Some (5, 6)) process_start).

End MiredoMoreExamples.

(** ** miredo.cpp: the configuration and the worker's set-up and tear-down *)

Module MiredoRun.
Import Sys.

(** <syslog.h> *)
Definition LOG_ALERT : Z := 1.
Definition LOG_WARNING : Z := 4.
Definition LOG_NOTICE : Z := 5.

(** Modelled from the spec: the values of [mode], which conf.h names; the
    data model of the spec has "mode | enum {Disabled, Client,
    Restricted-NAT, Cone-NAT}". *)
Inductive relay_mode : Type :=
| TEREDO_DISABLED | TEREDO_CLIENT | TEREDO_RESTRICT | TEREDO_CONE.

Definition mode_eqb (a b : relay_mode) : bool :=
  match a, b with
  | TEREDO_DISABLED, TEREDO_DISABLED | TEREDO_CLIENT, TEREDO_CLIENT
  | TEREDO_RESTRICT, TEREDO_RESTRICT | TEREDO_CONE, TEREDO_CONE => true
  | _, _ => false
  end.

(** [struct miredo_conf].  [prefix] is the union as its 16 octets: [ip6] is
    all of them, [teredo.prefix] the first four. *)
Record miredo_conf : Type := {
  ifname : option string;
  prefix : list byte;
  mode : relay_mode;
  server_ip : Z;          (* uint32_t *)
  bind_ip : Z;            (* uint32_t *)
  bind_port : Z;          (* uint16_t *)
  default_route : bool
}.

Definition prefix_ip6 (conf : miredo_conf) : list byte := prefix conf.
Definition prefix_teredo_prefix (conf : miredo_conf) : list byte := take 4 (prefix conf).

(** <byteswap.h>: the octets in reverse order. *)
Definition bswap_16 (x : Z) : Z := (x mod 256) * 256 + (x / 256) mod 256.
Definition bswap_32 (x : Z) : Z :=
  (x mod 256) * 16777216 + ((x / 256) mod 256) * 65536
  + ((x / 65536) mod 256) * 256 + (x / 16777216) mod 256.

Definition uint16 (x : Z) : Z := x mod 65536.
Definition uint32 (x : Z) : Z := x mod 4294967296.

(** *** What [ParseConf] is given and asks for *)

(** The functions of conf.h are not in this file.  Each takes the address
    of its target and returns a [bool]; what it does is taken as given: its
    result, and the value it stores in the target, if it stores one. *)
Record parsed (A : Type) : Type := {
  p_ok : bool;
  p_stored : option A
}.
Arguments p_ok {A} _.
Arguments p_stored {A} _.

Definition store {A} (r : parsed A) (old : A) : A :=
  match p_stored r with
  | Some v => v
  | None => old
  end.

(** What the configuration file answers. *)
Record conf_file : Type := {
  cf_ReadFile : bool;
  cf_SyslogFacility : parsed Z;
  cf_RelayType : parsed relay_mode;
  cf_IPv4 : string -> parsed Z;
  cf_IPv6 : string -> parsed (list byte);
  cf_Boolean : string -> parsed bool;
  cf_Int16 : string -> parsed Z;
  cf_RawValue : string -> option string
}.

Inductive parser : Type :=
| ParseSyslogFacility | ParseRelayType | ParseIPv4 | ParseIPv6
| GetBoolean | GetInt16 | GetRawValue.

(** What [ParseConf] asks for. *)
Inductive conf_call : Type :=
| cnf_ReadFile (path : string)
| cnf_lookup (f : parser) (key : string)
| cnf_syslog (priority : Z) (format : string) (args : list log_arg).

(** *** What [miredo_run] is given and asks for *)

(** What [new MiredoServer] and [new MiredoRelay] give: an exception, an
    object that could not open its UDP port, or a ready object. *)
Inductive construction : Type := throws | not_ready | ready.

(** A pointer to a relay or to a server: [!*p] is [negb is_ready]. *)
Inductive pointer : Type :=
| NULL
| object (is_ready : bool).

(** What the tunnel, the kernel and the constructors answer. *)
Record world : Type := {
  w_tunnel : bool;               (* the tunnel is usable: [!tunnel] is false *)
  w_SetMTU : Z;
  w_privileged_process : Z;      (* the descriptor, or -1 *)
  w_BringUp : Z;
  w_AddAddress : Z;
  w_AddRoute : Z;
  w_chroot : Z;
  w_chdir : Z;
  w_setuid : Z;
  w_server : construction;
  w_relay : construction
}.

(** The two well-known addresses of libteredo. *)
Inductive well_known : Type := teredo_restrict | teredo_cone.

Inductive run_call : Type :=
| InitNonceGenerator
| DeinitNonceGenerator
| tunnel_new (ifname : option string)       (* IPv6Tunnel tunnel (conf->ifname) *)
| tunnel_delete                             (* its destructor, when the function returns *)
| tunnel_SetMTU (mtu : Z)
| miredo_privileged_process (default_route : bool)
| tunnel_BringUp
| tunnel_AddAddress (addr : well_known)
| tunnel_AddRoute (addr : list byte) (prefix_len : Z)
| run_chroot (dir : string)
| run_chdir (dir : string)
| run_setuid (uid : Z)
| new_MiredoServer (server_ip server_ip2 : Z)
| server_SetPrefix (prefix : list byte)
| server_SetTunnel
| delete_server
| new_MiredoRelay_client (fd : Z) (server_ip bind_port bind_ip : Z)
| new_MiredoRelay (prefix : list byte) (bind_port bind_ip : Z) (cone : bool)
| delete_relay
| run_teredo_server_relay (relay server : pointer)
| run_close (fd : Z)
| run_wait
| run_syslog (priority : Z) (format : string) (args : list log_arg).

(** The locals that are live at the label [abort]. *)
Record locals : Type := {
  l_relay : pointer;
  l_server : pointer;
  l_fd : Z;
  l_retval : Z
}.

(** The part of the function between the tunnel set-up and the label
    [abort]: a computation that reads the answers, updates the locals,
    records its calls and either goes on ([Some]) or jumps to [abort]
    ([None]). *)
Definition run (A : Type) : Type := locals -> world -> option A * locals * list run_call.

Definition run_ret {A} (a : A) : run A := fun l _ => (Some a, l, []).

Definition run_bind {A B} (m : run A) (f : A -> run B) : run B :=
  fun l w =>
    match m l w with
    | (None, l', t) => (None, l', t)
    | (Some a, l', t) =>
        let '(b, l'', t') := f a l' w in
        (b, l'', t ++ t')
    end.

Definition goto_abort {A} : run A := fun l _ => (None, l, []).

(** A call, and the answer to it. *)
Definition call {A} (c : run_call) (answer : world -> A) : run A :=
  fun l w => (Some (answer w), l, [c]).

Definition perform (c : run_call) : run unit := call c (fun _ => tt).

Definition read_local {A} (f : locals -> A) : run A := fun l _ => (Some (f l), l, []).

Definition set_fd (fd : Z) : run unit :=
  fun l _ => (Some tt, {| l_relay := l_relay l; l_server := l_server l;
                          l_fd := fd; l_retval := l_retval l |}, []).
Definition set_relay (relay : pointer) : run unit :=
  fun l _ => (Some tt, {| l_relay := relay; l_server := l_server l;
                          l_fd := l_fd l; l_retval := l_retval l |}, []).
Definition set_server (server : pointer) : run unit :=
  fun l _ => (Some tt, {| l_relay := l_relay l; l_server := server;
                          l_fd := l_fd l; l_retval := l_retval l |}, []).
Definition set_retval (retval : Z) : run unit :=
  fun l _ => (Some tt, {| l_relay := l_relay l; l_server := l_server l;
                          l_fd := l_fd l; l_retval := retval |}, []).


Section Build.

(** The byte order of the platform, the directory of the [chroot] when the
    build has one, and the global [unpriv_uid]. *)
Variable WORDS_BIGENDIAN : bool.
Variable MIREDO_CHROOT : option string.
Variable unpriv_uid : Z.

(** <netinet/in.h> *)
Definition htons (x : Z) : Z := if WORDS_BIGENDIAN then uint16 x else bswap_16 (uint16 x).
Definition ntohs (x : Z) : Z := htons x.
Definition htonl (x : Z) : Z := if WORDS_BIGENDIAN then uint32 x else bswap_32 (uint32 x).
Definition ntohl (x : Z) : Z := htonl x.

(** *** [ParseConf] *)

Definition ParseConf (path : string) (newfac : Z) (conf : miredo_conf) (cf : conf_file)
    : (bool * Z * miredo_conf) * list conf_call :=
  let t := [cnf_ReadFile path] in
  if negb (cf_ReadFile cf) then
    ((false, newfac, conf),
     t ++ [cnf_syslog LOG_ALERT "Loading configuration from %s failed" [ArgStr path]])
  else
  let newfac := store (cf_SyslogFacility cf) newfac in
  let t := t ++ [cnf_lookup ParseSyslogFacility "SyslogFacility"] in
  let r := cf_RelayType cf in
  let conf := {| ifname := ifname conf; prefix := prefix conf; mode := store r (mode conf);
                 server_ip := server_ip conf; bind_ip := bind_ip conf;
                 bind_port := bind_port conf; default_route := default_route conf |} in
  let t := t ++ [cnf_lookup ParseRelayType "RelayType"] in
  if negb (p_ok r) then
    ((false, newfac, conf), t ++ [cnf_syslog LOG_ALERT "Fatal configuration error" []])
  else
  let '(failed, conf, t) :=
    if mode_eqb (mode conf) TEREDO_CLIENT then
      let r := cf_IPv4 cf "ServerAddress" in
      let conf := {| ifname := ifname conf; prefix := prefix conf; mode := mode conf;
                     server_ip := store r (server_ip conf); bind_ip := bind_ip conf;
                     bind_port := bind_port conf; default_route := default_route conf |} in
      let t := t ++ [cnf_lookup ParseIPv4 "ServerAddress"] in
      if negb (p_ok r) then (true, conf, t) else
      let r := cf_Boolean cf "DefaultRoute" in
      let conf := {| ifname := ifname conf; prefix := prefix conf; mode := mode conf;
                     server_ip := server_ip conf; bind_ip := bind_ip conf;
                     bind_port := bind_port conf;
                     default_route := store r (default_route conf) |} in
      let t := t ++ [cnf_lookup GetBoolean "DefaultRoute"] in
      (negb (p_ok r), conf, t)
    else
      let r := cf_IPv4 cf "ServerBindAddress" in
      let conf := {| ifname := ifname conf; prefix := prefix conf; mode := mode conf;
                     server_ip := store r (server_ip conf); bind_ip := bind_ip conf;
                     bind_port := bind_port conf; default_route := default_route conf |} in
      let t := t ++ [cnf_lookup ParseIPv4 "ServerBindAddress"] in
      if negb (p_ok r) then (true, conf, t) else
      let r := cf_IPv6 cf "Prefix" in
      let conf := {| ifname := ifname conf; prefix := store r (prefix conf);
                     mode := mode conf;
                     server_ip := server_ip conf; bind_ip := bind_ip conf;
                     bind_port := bind_port conf; default_route := default_route conf |} in
      let t := t ++ [cnf_lookup ParseIPv6 "Prefix"] in
      (negb (p_ok r), conf, t) in
  if failed then
    ((false, newfac, conf), t ++ [cnf_syslog LOG_ALERT "Fatal configuration error" []])
  else
  let '(failed, conf, t) :=
    if negb (mode_eqb (mode conf) TEREDO_DISABLED) then
      let r := cf_IPv4 cf "BindAddress" in
      let conf := {| ifname := ifname conf; prefix := prefix conf; mode := mode conf;
                     server_ip := server_ip conf; bind_ip := store r (bind_ip conf);
                     bind_port := bind_port conf; default_route := default_route conf |} in
      let t := t ++ [cnf_lookup ParseIPv4 "BindAddress"] in
      if negb (p_ok r) then
        (true, conf, t ++ [cnf_syslog LOG_ALERT "Fatal bind IPv4 address error" []])
      else
      let port := htons (bind_port conf) in
      let r := cf_Int16 cf "BindPort" in
      let port := store r port in
      let t := t ++ [cnf_lookup GetInt16 "BindPort"] in
      if negb (p_ok r) then
        (true, conf, t ++ [cnf_syslog LOG_ALERT "Fatal bind UDP port error" []])
      else
      (false,
       {| ifname := ifname conf; prefix := prefix conf; mode := mode conf;
          server_ip := server_ip conf; bind_ip := bind_ip conf;
          bind_port := htons port; default_route := default_route conf |},
       t)
    else (false, conf, t) in
  if failed then ((false, newfac, conf), t) else
  ((true, newfac,
    {| ifname := cf_RawValue cf "InterfaceName"; prefix := prefix conf; mode := mode conf;
       server_ip := server_ip conf; bind_ip := bind_ip conf;
       bind_port := bind_port conf; default_route := default_route conf |}),
   t ++ [cnf_lookup GetRawValue "InterfaceName"]).

(** *** [miredo_run] *)

Declare Scope run_scope.
Delimit Scope run_scope with run.
Notation "x <- c1 ;; c2" := (run_bind c1 (fun x => c2))
(at level 100, c1 at next level, right associativity) : run_scope.
Notation "c1 ;;; c2" := (run_bind c1 (fun _ => c2))
(at level 100, right associativity) : run_scope.
Local Open Scope run_scope.

(** [try { p = new ... } catch (...) { p = NULL; }] *)
Definition try_new (c : construction) : pointer :=
  match c with
  | throws => NULL
  | not_ready => object false
  | ready => object true
  end.

(** [tunnel.BringUp () || tunnel.AddAddress (...) || (conf->mode !=
    TEREDO_DISABLED && tunnel.AddRoute (&conf->prefix.ip6, 32))] *)
Definition routing (conf : miredo_conf) : run bool :=
  r <- call tunnel_BringUp w_BringUp ;;
  if negb (r =? 0) then run_ret true else
  r <- call (tunnel_AddAddress (if mode_eqb (mode conf) TEREDO_RESTRICT
                                then teredo_restrict else teredo_cone))
            w_AddAddress ;;
  if negb (r =? 0) then run_ret true else
  if negb (mode_eqb (mode conf) TEREDO_DISABLED) then
    r <- call (tunnel_AddRoute (prefix_ip6 conf) 32) w_AddRoute ;;
    run_ret (negb (r =? 0))
  else run_ret false.

(** [#ifdef MIREDO_CHROOT]: [chroot (MIREDO_CHROOT) || chdir ("/")] *)
Definition enter_chroot : run unit :=
  match MIREDO_CHROOT with
  | None => run_ret tt
  | Some dir =>
      r <- call (run_chroot dir) w_chroot ;;
      failed <- (if negb (r =? 0) then run_ret true else
                 r <- call (run_chdir "/") w_chdir ;;
                 run_ret (negb (r =? 0))) ;;
      if (failed : bool)
      then perform (run_syslog LOG_WARNING "chroot to %s failed: %m" [ArgStr dir])
      else run_ret tt
  end.

(** From the declaration of [relay] to the call of the loop, in a build with
    client, relay and server. *)
Definition miredo_run_body (conf : miredo_conf) : run unit :=
  (if mode_eqb (mode conf) TEREDO_CLIENT then
     fd <- call (miredo_privileged_process (default_route conf)) w_privileged_process ;;
     set_fd fd ;;;
     if fd =? -1 then
       perform (run_syslog LOG_ALERT "Privileged process setup failed: %m" []) ;;;
       goto_abort
     else run_ret tt
   else
     failed <- routing conf ;;
     if (failed : bool) then
       perform (run_syslog LOG_ALERT "Teredo routing failed:\n %s"
                  [ArgStr "You should be root to do that."]) ;;;
       goto_abort
     else run_ret tt) ;;;
  enter_chroot ;;;
  (* Definitely drops privileges *)
  r <- call (run_setuid unpriv_uid) w_setuid ;;
  (if negb (r =? 0) then
     perform (run_syslog LOG_ALERT "Setting UID failed: %m" []) ;;;
     goto_abort
   else run_ret tt) ;;;
  (* Sets up server sockets *)
  (if negb (mode_eqb (mode conf) TEREDO_CLIENT) && negb (server_ip conf =? 0) then
     let server_ip2 := htonl (ntohl (server_ip conf) + 1) in
     c <- call (new_MiredoServer (server_ip conf) server_ip2) w_server ;;
     set_server (try_new c) ;;;
     match try_new c with
     | NULL =>
         perform (run_syslog LOG_ALERT "Teredo server failure" []) ;;;
         goto_abort
     | object false =>
         perform (run_syslog LOG_ALERT "Teredo UDP port failure" []) ;;;
         perform (run_syslog LOG_NOTICE
                    "Make sure another instance of the program is not already running."
                    []) ;;;
         goto_abort
     | object true =>
         perform (server_SetPrefix (prefix_teredo_prefix conf)) ;;;
         perform server_SetTunnel
     end
   else run_ret tt) ;;;
  (* Sets up relay or client *)
  (if mode_eqb (mode conf) TEREDO_CLIENT then
     (* Sets up client *)
     fd <- read_local l_fd ;;
     c <- call (new_MiredoRelay_client fd (server_ip conf) (bind_port conf) (bind_ip conf))
               w_relay ;;
     set_relay (try_new c)
   else if negb (mode_eqb (mode conf) TEREDO_DISABLED) then
     (* Sets up relay *)
     c <- call (new_MiredoRelay (prefix_teredo_prefix conf) (bind_port conf) (bind_ip conf)
                  (mode_eqb (mode conf) TEREDO_CONE))
               w_relay ;;
     set_relay (try_new c)
   else run_ret tt) ;;;
  (if negb (mode_eqb (mode conf) TEREDO_DISABLED) then
     relay <- read_local l_relay ;;
     match relay with
     | NULL =>
         perform (run_syslog LOG_ALERT "Teredo service failure" []) ;;;
         goto_abort
     | object false =>
         (if negb (bind_port conf =? 0) then
            perform (run_syslog LOG_ALERT
                       "Teredo service port failure: cannot open UDP port %u"
                       [ArgInt (ntohs (bind_port conf))])
          else
            perform (run_syslog LOG_ALERT
                       "Teredo service port failure: cannot open an UDP port" [])) ;;;
         perform (run_syslog LOG_NOTICE
                    "Make sure another instance of the program is not already running."
                    []) ;;;
         goto_abort
     | object true => run_ret tt
     end
   else run_ret tt) ;;;
  set_retval 0 ;;;
  relay <- read_local l_relay ;;
  server <- read_local l_server ;;
  perform (run_teredo_server_relay relay server).

(** From the label [abort] to the [return]. *)
Definition abort (conf : miredo_conf) (l : locals) : list run_call :=
  (if negb (l_fd l =? -1) then [run_close (l_fd l)] else [])
  ++ (match l_relay l with NULL => [] | object _ => [delete_relay] end)
  ++ (if mode_eqb (mode conf) TEREDO_CLIENT then [DeinitNonceGenerator] else [])
  ++ (match l_server l with NULL => [] | object _ => [delete_server] end)
  ++ (if negb (l_fd l =? -1) then [run_wait] else []).  (* wait for privsep process *)

Definition miredo_run (conf : miredo_conf) (w : world) : Z * list run_call :=
  let t := (if mode_eqb (mode conf) TEREDO_CLIENT then [InitNonceGenerator] else [])
           ++ [tunnel_new (ifname conf)] in
  (* [!tunnel || tunnel.SetMTU (1280)] *)
  let '(failed, t) :=
    if negb (w_tunnel w) then (true, t)
    else (negb (w_SetMTU w =? 0), t ++ [tunnel_SetMTU 1280]) in
  if (failed : bool) then
    (-1, t ++ [run_syslog LOG_ALERT "Teredo tunnel setup failed:\n %s"
                 [ArgStr "You should be root to do that."];
               tunnel_delete])
  else
  let l := {| l_relay := NULL; l_server := NULL; l_fd := -1; l_retval := -1 |} in
  let '(_, l, t') := miredo_run_body conf l w in
  (l_retval l, t ++ t' ++ abort conf l ++ [tunnel_delete]).

End Build.

(** *** Reading a trace *)

Definition is_alert (c : run_call) : bool :=
  match c with run_syslog p _ _ => p =? LOG_ALERT | _ => false end.
Definition is_loop (c : run_call) : bool :=
  match c with run_teredo_server_relay _ _ => true | _ => false end.
Definition is_setuid (c : run_call) : bool :=
  match c with run_setuid _ => true | _ => false end.
(** The calls on the tunnel, the start of the helper and the change of root
    directory. *)
Definition is_set_up (c : run_call) : bool :=
  match c with
  | tunnel_new _ | tunnel_SetMTU _ | miredo_privileged_process _
  | tunnel_BringUp | tunnel_AddAddress _ | tunnel_AddRoute _ _
  | run_chroot _ | run_chdir _ => true
  | _ => false
  end.
(** The constructions of the server and of the relay, the calls that
    configure the server, and the loop. *)
Definition is_service (c : run_call) : bool :=
  match c with
  | new_MiredoServer _ _ | server_SetPrefix _ | server_SetTunnel
  | new_MiredoRelay_client _ _ _ _ | new_MiredoRelay _ _ _ _
  | run_teredo_server_relay _ _ => true
  | _ => false
  end.
Definition is_new_relay (c : run_call) : bool :=
  match c with
  | new_MiredoRelay_client _ _ _ _ | new_MiredoRelay _ _ _ _ => true
  | _ => false
  end.
Definition is_new_server (c : run_call) : bool :=
  match c with new_MiredoServer _ _ => true | _ => false end.
Definition is_delete_relay (c : run_call) : bool :=
  match c with delete_relay => true | _ => false end.
Definition is_delete_server (c : run_call) : bool :=
  match c with delete_server => true | _ => false end.
Definition is_helper (c : run_call) : bool :=
  match c with miredo_privileged_process _ => true | _ => false end.
Definition is_run_close (c : run_call) : bool :=
  match c with run_close _ => true | _ => false end.
Definition is_run_wait (c : run_call) : bool :=
  match c with run_wait => true | _ => false end.
Definition is_nonce_init (c : run_call) : bool :=
  match c with InitNonceGenerator => true | _ => false end.
Definition is_nonce_deinit (c : run_call) : bool :=
  match c with DeinitNonceGenerator => true | _ => false end.
Definition is_tunnel_setup (c : run_call) : bool :=
  match c with
  | tunnel_BringUp | tunnel_AddAddress _ | tunnel_AddRoute _ _ => true
  | _ => false
  end.

Definition is_tunnel_new (c : run_call) : bool :=
  match c with tunnel_new _ => true | _ => false end.
Definition is_tunnel_delete (c : run_call) : bool :=
  match c with tunnel_delete => true | _ => false end.
Definition is_client_relay (c : run_call) : bool :=
  match c with new_MiredoRelay_client _ _ _ _ => true | _ => false end.
Definition is_plain_relay (c : run_call) : bool :=
  match c with new_MiredoRelay _ _ _ _ => true | _ => false end.
Definition is_cone_relay (c : run_call) : bool :=
  match c with new_MiredoRelay _ _ _ cone => cone | _ => false end.
Definition is_AddRoute (c : run_call) : bool :=
  match c with tunnel_AddRoute _ _ => true | _ => false end.
Definition is_AddAddress (a : well_known) (c : run_call) : bool :=
  match c, a with
  | tunnel_AddAddress teredo_restrict, teredo_restrict
  | tunnel_AddAddress teredo_cone, teredo_cone => true
  | _, _ => false
  end.
(** What the label [abort] and the return do. *)
Definition is_cleanup (c : run_call) : bool :=
  match c with
  | run_close _ | delete_relay | DeinitNonceGenerator | delete_server | run_wait
  | tunnel_delete => true
  | _ => false
  end.

Definition count_calls (f : run_call -> bool) (t : list run_call) : nat :=
  length (List.filter f t).

(** Every call that satisfies [a] comes before every call that satisfies
    [b]. *)
Fixpoint precede (a b : run_call -> bool) (t : list run_call) : bool :=
  match t with
  | [] => true
  | c :: t' => (negb (b c) || forallb (fun c' => negb (a c')) t') && precede a b t'
  end.

(** The tunnel set-up succeeds. *)
Definition tunnel_ready (w : world) : bool := w_tunnel w && (w_SetMTU w =? 0).

(** The constructor returned an object. *)
Definition constructed (c : construction) : bool :=
  match c with throws => false | not_ready | ready => true end.

(** The loop is given a relay exactly when the mode is not disabled, a
    server exactly when the mode is not client and [server_ip] is not zero,
    and every object it is given is ready. *)
Definition loop_args_ok (conf : miredo_conf) (c : run_call) : bool :=
  match c with
  | run_teredo_server_relay relay server =>
      match relay with
      | object is_ready => is_ready && negb (mode_eqb (mode conf) TEREDO_DISABLED)
      | NULL => mode_eqb (mode conf) TEREDO_DISABLED
      end &&
      match server with
      | object is_ready =>
          is_ready && negb (mode_eqb (mode conf) TEREDO_CLIENT)
          && negb (server_ip conf =? 0)
      | NULL => mode_eqb (mode conf) TEREDO_CLIENT || (server_ip conf =? 0)
      end
  | _ => true
  end.

(** The pairs of addresses servers were constructed with, and the
    descriptors closed. *)
Fixpoint servers_of (t : list run_call) : list (Z * Z) :=
  match t with
  | [] => []
  | new_MiredoServer a b :: t' => (a, b) :: servers_of t'
  | _ :: t' => servers_of t'
  end.
Fixpoint closed_of (t : list run_call) : list Z :=
  match t with
  | [] => []
  | run_close fd :: t' => fd :: closed_of t'
  | _ :: t' => closed_of t'
  end.

(** The lookups of a [ParseConf] trace, and its ALERT lines. *)
Fixpoint keys (t : list conf_call) : list string :=
  match t with
  | [] => []
  | cnf_lookup _ key :: t' => key :: keys t'
  | _ :: t' => keys t'
  end.
(** The keys [ParseConf] looks up when nothing fails, by the mode it finds. *)
Definition keys_for (m : relay_mode) : list string :=
  ["SyslogFacility"; "RelayType"]%string
  ++ (match m with
      | TEREDO_CLIENT => ["ServerAddress"; "DefaultRoute"]
      | _ => ["ServerBindAddress"; "Prefix"]
      end)%string
  ++ (match m with
      | TEREDO_DISABLED => []
      | _ => ["BindAddress"; "BindPort"]
      end)%string
  ++ ["InterfaceName"]%string.

Definition is_conf_alert (c : conf_call) : bool :=
  match c with cnf_syslog p _ _ => p =? LOG_ALERT | _ => false end.
Definition is_conf_syslog (c : conf_call) : bool :=
  match c with cnf_syslog _ _ _ => true | _ => false end.
Definition alerts (t : list conf_call) : nat := length (List.filter is_conf_alert t).

End MiredoRun.

(** Concrete configurations and answers, for the examples. *)

Module MiredoRunExamples.
Import MiredoRun.

Definition conf_client : miredo_conf :=
  {| ifname := Some "teredo"%string; prefix := repeat x00 16; mode := TEREDO_CLIENT;
     server_ip := 0x0a000001; bind_ip := 0; bind_port := 0; default_route := true |}.

Definition conf_cone : miredo_conf :=
  {| ifname := None; prefix := [x3f; xfe; x83; x1f] ++ repeat x00 12; mode := TEREDO_CONE;
     server_ip := 0xffffffff; bind_ip := 0; bind_port := 3545; default_route := true |}.

Definition conf_disabled : miredo_conf :=
  {| ifname := None; prefix := repeat x00 16; mode := TEREDO_DISABLED;
     server_ip := 0; bind_ip := 0; bind_port := 0; default_route := true |}.

(** Everything succeeds; the helper is on descriptor 9. *)
Definition world_ok : world :=
  {| w_tunnel := true; w_SetMTU := 0; w_privileged_process := 9;
     w_BringUp := 0; w_AddAddress := 0; w_AddRoute := 0;
     w_chroot := 0; w_chdir := 0; w_setuid := 0;
     w_server := ready; w_relay := ready |}.

(** The tunnel device cannot be opened. *)
Definition world_no_tunnel : world :=
  {| w_tunnel := false; w_SetMTU := 0; w_privileged_process := 9;
     w_BringUp := 0; w_AddAddress := 0; w_AddRoute := 0;
     w_chroot := 0; w_chdir := 0; w_setuid := 0;
     w_server := ready; w_relay := ready |}.

(** The relay cannot open its UDP port. *)
Definition world_port_taken : world :=
  {| w_tunnel := true; w_SetMTU := 0; w_privileged_process := 9;
     w_BringUp := 0; w_AddAddress := 0; w_AddRoute := 0;
     w_chroot := 0; w_chdir := 0; w_setuid := 0;
     w_server := ready; w_relay := not_ready |}.

Definition always {A} (v : option A) : parsed A := {| p_ok := true; p_stored := v |}.

(** A file that sets the relay type and nothing else. *)
Definition file_with (m : relay_mode) : conf_file :=
  {| cf_ReadFile := true;
     cf_SyslogFacility := always None;
     cf_RelayType := always (Some m);
     cf_IPv4 := fun _ => always None;
     cf_IPv6 := fun _ => always None;
     cf_Boolean := fun _ => always None;
     cf_Int16 := fun _ => always None;
     cf_RawValue := fun _ => None |}.

(** A file whose [BindPort] is 3545. *)
Definition file_port : conf_file :=
  {| cf_ReadFile := true;
     cf_SyslogFacility := always None;
     cf_RelayType := always (Some TEREDO_CONE);
     cf_IPv4 := fun _ => always None;
     cf_IPv6 := fun _ => always None;
     cf_Boolean := fun _ => always None;
     cf_Int16 := fun _ => always (Some 3545);
     cf_RawValue := fun _ => None |}.

End MiredoRunExamples.

(** * Properties of the tunnel device *)

Section OctetFacts.
Import Octets.

Lemma Z_of_byte_range (b : byte) : 0 <= Z_of_byte b < 256.
Proof.
  unfold Z_of_byte. pose proof (Byte.to_N_bounded b). lia.
Qed.

Lemma Z_of_byte_inj (b : byte) (n : N) (c : byte) :
  Byte.of_N n = Some c -> Z_of_byte b = Z.of_N n -> b = c.
Proof.
  unfold Z_of_byte. intros Hc Hn.
  apply N2Z.inj in Hn. rewrite <- Hn, Byte.of_to_N in Hc. congruence.
Qed.

Lemma u16_bytes_length be v : length (u16_bytes be v) = 2%nat.
Proof. unfold u16_bytes. now destruct be. Qed.

(** Copying at the end of what has been filled so far leaves the filled
    part alone, whatever the buffer held. *)
Lemma memcpy_after_prefix (pre rest src : list byte) :
  memcpy (pre ++ rest) (length pre) src = pre ++ src ++ drop (length src) rest.
Proof.
  unfold memcpy.
  rewrite take_app_length, drop_app_add'; [reflexivity | reflexivity].
Qed.

Lemma memcpy_at_start (dst src : list byte) :
  memcpy dst 0 src = src ++ drop (length src) dst.
Proof. apply (memcpy_after_prefix [] dst src). Qed.

Lemma short_of_Z_congr (z : Z) : short_of_Z z mod 2 ^ 16 = z mod 2 ^ 16.
Proof.
  unfold short_of_Z. change (2 ^ 16) with 65536.
  rewrite Zminus_mod_idemp_l. f_equal. lia.
Qed.

Lemma short_of_Z_testbit (z i : Z) :
  0 <= i < 16 -> Z.testbit (short_of_Z z) i = Z.testbit z i.
Proof.
  intros Hi.
  rewrite <- (Z.mod_pow2_bits_low (short_of_Z z) 16 i) by lia.
  rewrite short_of_Z_congr. apply Z.mod_pow2_bits_low. lia.
Qed.

Lemma short_of_Z_range (z : Z) : -32768 <= short_of_Z z <= 32767.
Proof. unfold short_of_Z. pose proof (Z.mod_pos_bound (z + 32768) 65536). lia. Qed.

End OctetFacts.

Section TunnelFacts.
Import Octets Sys Tun6.

Variable WORDS_BIGENDIAN : bool.

(** The handcrafted constant puts the same two octets on the device on both
    kinds of platform: 0x86 then 0xDD. *)
Lemma ethertype_octets :
  u16_bytes WORDS_BIGENDIAN (L2_PROTO_IPV6 WORDS_BIGENDIAN) = [x86; xdd].
Proof. destruct WORDS_BIGENDIAN; reflexivity. Qed.

Lemma frame_header_octets :
  frame_header WORDS_BIGENDIAN = [x00; x00; x86; xdd].
Proof. destruct WORDS_BIGENDIAN; reflexivity. Qed.

(** The comparison of [ReceivePacket] accepts exactly the two octets that
    [SendPacket] emits. *)
Lemma proto_is_ipv6_iff (b2 b3 : byte) :
  u16_of_bytes WORDS_BIGENDIAN b2 b3 = L2_PROTO_IPV6 WORDS_BIGENDIAN
  <-> [b2; b3] = u16_bytes WORDS_BIGENDIAN (L2_PROTO_IPV6 WORDS_BIGENDIAN).
Proof.
  rewrite ethertype_octets. split.
  - intros H.
    pose proof (Z_of_byte_range b2) as R2. pose proof (Z_of_byte_range b3) as R3.
    assert (Z_of_byte b2 = Z.of_N 134 /\ Z_of_byte b3 = Z.of_N 221) as [E2 E3].
    { unfold u16_of_bytes, L2_PROTO_IPV6 in H.
      destruct WORDS_BIGENDIAN; simpl Z.of_N; lia. }
    f_equal; [| f_equal].
    + now apply (Z_of_byte_inj b2 134 x86).
    + now apply (Z_of_byte_inj b3 221 xdd).
  - intros [= -> ->]. destruct WORDS_BIGENDIAN; reflexivity.
Qed.


Lemma memcpy_after (pre rest src : list byte) (off : nat) :
  length pre = off ->
  memcpy (pre ++ rest) off src = pre ++ src ++ drop (length src) rest.
Proof. intros <-. apply memcpy_after_prefix. Qed.

(** What the three [memcpy] of [SendPacket] leave in the first [len + 4]
    octets of the array, whatever it held before. *)
Lemma SendPacket_buffer (buf packet : list byte) :
  take (Z.to_nat (Z.of_nat (length packet) + 4))
    (memcpy
       (memcpy (memcpy buf 0 (u16_bytes WORDS_BIGENDIAN 0)) 2
          (u16_bytes WORDS_BIGENDIAN (L2_PROTO_IPV6 WORDS_BIGENDIAN)))
       4 packet)
  = frame_header WORDS_BIGENDIAN ++ packet.
Proof.
  rewrite memcpy_at_start.
  rewrite (memcpy_after (u16_bytes WORDS_BIGENDIAN 0)) by apply u16_bytes_length.
  rewrite (app_assoc (u16_bytes WORDS_BIGENDIAN 0)).
  fold (frame_header WORDS_BIGENDIAN).
  rewrite (memcpy_after (frame_header WORDS_BIGENDIAN))
    by (rewrite frame_header_octets; reflexivity).
  rewrite app_assoc. apply take_app_length'.
  rewrite !length_app, frame_header_octets. simpl length. lia.
Qed.

Lemma int_of_Z_small (z : Z) :
  -2147483648 <= z < 2147483648 -> int_of_Z z = z.
Proof.
  intros H. unfold int_of_Z.
  rewrite Z.mod_small by lia. lia.
Qed.

Lemma SendPacket_too_long (t : IPv6Tunnel) (packet : list byte) (k : kernel) :
  Z.of_nat (length packet) > 65535 ->
  SendPacket WORDS_BIGENDIAN t packet k = (-1, []).
Proof.
  intros Hbig. unfold SendPacket.
  destruct (Z.leb_spec (Z.of_nat (length packet)) 65535) as [|_]; [lia|].
  rewrite andb_false_r. reflexivity.
Qed.

(** [SendPacket], with the array contents and the casts resolved. *)
Lemma SendPacket_unfold (t : IPv6Tunnel) (packet : list byte) (k : kernel) :
  fd t <> -1 -> Z.of_nat (length packet) <= 65535 ->
  let frame := frame_header WORDS_BIGENDIAN ++ packet in
  let len := Z.of_nat (length packet) + 4 in
  SendPacket WORDS_BIGENDIAN t packet k =
    if k_write k frame =? len
    then (0, [sys_write (fd t) frame])
    else (-1, [sys_write (fd t) frame;
               sys_syslog LOG_ERR "Packet truncated to %u byte(s)\n" [ArgInt len]]).
Proof.
  intros Hfd Hlen frame len.
  unfold SendPacket.
  destruct (Z.eqb_spec (fd t) (-1)) as [|_]; [contradiction|].
  destruct (Z.leb_spec (Z.of_nat (length packet)) 65535) as [_|]; [|lia].
  cbv [negb andb bind automatic_array write ret syslog].
  rewrite SendPacket_buffer. fold frame. fold len.
  rewrite (int_of_Z_small len) by (unfold len; lia).
  destruct (k_write k frame =? len); [reflexivity|].
  destruct (Z.eqb_spec len (-1)) as [E|_]; [unfold len in E; lia|].
  reflexivity.
Qed.

(** C2. [SendPacket] refuses a payload of more than 65535 octets without
    writing; a payload of [len <= 65535] octets goes to the device in one
    [write] of [len + 4] octets: two zero octets, the ethertype in the
    platform's encoding, then the payload unchanged. *)
Theorem SendPacket_frame (t : IPv6Tunnel) (packet : list byte) (k : kernel) :
  let len := Z.of_nat (length packet) in
  (len > 65535 -> SendPacket WORDS_BIGENDIAN t packet k = (-1, [])) /\
  (len <= 65535 -> fd t <> -1 ->
   let frame := frame_header WORDS_BIGENDIAN ++ packet in
   writes (snd (SendPacket WORDS_BIGENDIAN t packet k)) = [(fd t, frame)] /\
   filter is_write (snd (SendPacket WORDS_BIGENDIAN t packet k))
     = [sys_write (fd t) frame] /\
   Z.of_nat (length frame) = len + 4 /\
   take 2 frame = [x00; x00] /\
   ethertype_field frame
     = u16_bytes WORDS_BIGENDIAN (L2_PROTO_IPV6 WORDS_BIGENDIAN) /\
   drop 4 frame = packet).
Proof.
  intros len. split.
  - apply SendPacket_too_long.
  - intros Hlen Hfd frame.
    rewrite (SendPacket_unfold t packet k Hfd Hlen). fold frame.
    repeat split.
    + destruct (_ =? _); reflexivity.
    + destruct (_ =? _); reflexivity.
    + unfold frame. rewrite length_app, frame_header_octets. simpl length. lia.
    + unfold frame. rewrite frame_header_octets. reflexivity.
    + unfold frame, ethertype_field. rewrite frame_header_octets, ethertype_octets.
      reflexivity.
    + unfold frame. rewrite frame_header_octets. reflexivity.
Qed.


(** Whatever happens, the message of the write-error branch is not logged:
    its test looks at the frame length, which is never -1. *)
Lemma SendPacket_never_logs_write_error
    (t : IPv6Tunnel) (packet : list byte) (k : kernel) :
  ~ In "Cannot send packet to tunnel: %m"%string
       (logged (snd (SendPacket WORDS_BIGENDIAN t packet k))).
Proof.
  destruct (Z.eq_dec (fd t) (-1)) as [Hfd|Hfd];
    [|destruct (Z_le_gt_dec (Z.of_nat (length packet)) 65535) as [Hlen|Hlen]].
  - unfold SendPacket. rewrite Hfd. simpl. tauto.
  - rewrite (SendPacket_unfold t packet k Hfd Hlen).
    destruct (_ =? _); simpl; [tauto|].
    intros [H|[]]. discriminate H.
  - rewrite (SendPacket_too_long t packet k Hlen). simpl. tauto.
Qed.

(** A failed [write] on a valid handle is reported by -1 and logged with the
    message of a short write. *)
Lemma SendPacket_write_error (t : IPv6Tunnel) (packet : list byte) (k : kernel) :
  fd t <> -1 -> Z.of_nat (length packet) <= 65535 ->
  k_write k (frame_header WORDS_BIGENDIAN ++ packet) = -1 ->
  fst (SendPacket WORDS_BIGENDIAN t packet k) = -1 /\
  logged (snd (SendPacket WORDS_BIGENDIAN t packet k))
    = ["Packet truncated to %u byte(s)\n"%string].
Proof.
  intros Hfd Hlen Hw.
  rewrite (SendPacket_unfold t packet k Hfd Hlen), Hw.
  destruct (Z.eqb_spec (-1) (Z.of_nat (length packet) + 4)) as [E|_]; [lia|].
  split; reflexivity.
Qed.

(** A short [write] on a valid handle is reported by -1 and logged as a
    truncation. *)
Lemma SendPacket_short_write (t : IPv6Tunnel) (packet : list byte) (k : kernel) :
  fd t <> -1 -> Z.of_nat (length packet) <= 65535 ->
  0 <= k_write k (frame_header WORDS_BIGENDIAN ++ packet)
    < Z.of_nat (length packet) + 4 ->
  fst (SendPacket WORDS_BIGENDIAN t packet k) = -1 /\
  logged (snd (SendPacket WORDS_BIGENDIAN t packet k))
    = ["Packet truncated to %u byte(s)\n"%string].
Proof.
  intros Hfd Hlen Hw.
  rewrite (SendPacket_unfold t packet k Hfd Hlen).
  destruct (Z.eqb_spec (k_write k (frame_header WORDS_BIGENDIAN ++ packet))
              (Z.of_nat (length packet) + 4)) as [E|_]; [lia|].
  split; reflexivity.
Qed.

(** The constructor leaves descriptor -1 when the device cannot be opened or
    the interface cannot be allocated. *)
Lemma IPv6Tunnel_new_failed
    (raw : IPv6Tunnel) (req_name tundev : option string) (k : kernel) :
  k_open k = -1 \/
  (exists name : string, k_ioctl k (TUNSETIFF name IFF_TUN) <> 0 /\
     name = match req_name with
            | Some n => secure_strncpy n IFNAMSIZ
            | None => EmptyString
            end) ->
  fd (fst (IPv6Tunnel_new raw req_name tundev k)) = -1.
Proof.
  intros H. unfold IPv6Tunnel_new, bind, open, ioctl, syslog, close, ret, ifr_name_value.
  destruct (Z.eqb_spec (k_open k) (-1)) as [E|E]; [cbn; exact E|].
  destruct H as [H|(name & Hname & ->)]; [contradiction|].
  cbn. destruct (Z.eqb_spec (k_ioctl k (TUNSETIFF
      match req_name with
      | Some n => secure_strncpy n IFNAMSIZ
      | None => EmptyString
      end IFF_TUN)) 0); [contradiction|].
  reflexivity.
Qed.

(** C10. On a handle whose open failed (descriptor -1), the state, address
    and MTU operations and both packet operations return -1 at once, with an
    empty trace: no socket, no ioctl, no read, no write.  Registering the
    handle leaves the readiness set as it was and returns -1. *)
Theorem failed_open_is_inert
    (t : IPv6Tunnel) (up : bool) (addr : list byte) (prefix_len mtu : Z)
    (readset : fd_set) (packet : list byte) (k : kernel) :
  fd t = -1 ->
  SetState t up k = (-1, []) /\
  SetAddress t addr prefix_len k = (-1, []) /\
  SetMTU t mtu k = (-1, []) /\
  ReceivePacket WORDS_BIGENDIAN t readset k = ((-1, t), []) /\
  SendPacket WORDS_BIGENDIAN t packet k = (-1, []) /\
  RegisterReadSet t readset = (-1, readset).
Proof.
  intros H.
  unfold SetState, SetAddress, SetMTU, ReceivePacket, SendPacket, RegisterReadSet.
  rewrite H. simpl. repeat split; reflexivity.
Qed.


(** [SetMTU] on a valid handle, by cases on the range test and on what the
    kernel answers. *)
Lemma SetMTU_succeeds_iff (t : IPv6Tunnel) (mtu : Z) (k : kernel) :
  fst (SetMTU t mtu k) = 0 <->
  fd t <> -1 /\ 1280 <= mtu <= 65535 /\ k_socket k <> -1 /\
  k_ioctl k (SIOCSIFMTU (secure_strncpy (ifname t) IFNAMSIZ) mtu) = 0.
Proof.
  unfold SetMTU, socket_udp6, bind, socket, ioctl, syslog, close, ret.
  rewrite Z.gtb_ltb.
  destruct (Z.eqb_spec (fd t) (-1)); [simpl; lia|].
  destruct (Z.ltb_spec mtu 1280); [simpl; lia|].
  destruct (Z.ltb_spec 65535 mtu); [simpl; lia|].
  destruct (Z.eqb_spec (k_socket k) (-1)) as [E|E]; simpl.
  - rewrite E. simpl. lia.
  - destruct (Z.eqb_spec (k_socket k) (-1)); [contradiction|].
    destruct (Z.eqb_spec (k_ioctl k (SIOCSIFMTU (secure_strncpy (ifname t) IFNAMSIZ) mtu)) 0);
      simpl; lia.
Qed.

Lemma SetMTU_out_of_range (t : IPv6Tunnel) (mtu : Z) (k : kernel) :
  mtu < 1280 \/ 65535 < mtu ->
  fst (SetMTU t mtu k) = -1 /\
  filter is_socket (snd (SetMTU t mtu k)) = [] /\
  filter is_ioctl (snd (SetMTU t mtu k)) = [] /\
  (fd t <> -1 -> length (logged (snd (SetMTU t mtu k))) = 1%nat).
Proof.
  intros Hr.
  unfold SetMTU, bind, syslog, ret.
  rewrite Z.gtb_ltb.
  destruct (Z.eqb_spec (fd t) (-1)); [simpl; tauto|].
  destruct (Z.ltb_spec mtu 1280); [simpl; tauto|].
  destruct (Z.ltb_spec 65535 mtu); [simpl; tauto|].
  lia.
Qed.

(** C3 (amended). [SetMTU] returns 0 exactly when the handle is valid,
    [1280 <= mtu <= 65535], the control socket is obtained and the
    SIOCSIFMTU request is accepted; so success implies the range.  Outside
    the range it returns -1 without asking for a socket or issuing an ioctl,
    after one log line on a valid handle. *)
Theorem SetMTU_range (t : IPv6Tunnel) (mtu : Z) (k : kernel) :
  (fst (SetMTU t mtu k) = 0 <->
   fd t <> -1 /\ 1280 <= mtu <= 65535 /\ k_socket k <> -1 /\
   k_ioctl k (SIOCSIFMTU (secure_strncpy (ifname t) IFNAMSIZ) mtu) = 0) /\
  (mtu < 1280 \/ 65535 < mtu ->
   fst (SetMTU t mtu k) = -1 /\
   filter is_socket (snd (SetMTU t mtu k)) = [] /\
   filter is_ioctl (snd (SetMTU t mtu k)) = [] /\
   (fd t <> -1 -> length (logged (snd (SetMTU t mtu k))) = 1%nat)).
Proof.
  split.
  - apply SetMTU_succeeds_iff.
  - apply SetMTU_out_of_range.
Qed.


(** Testing one flag is reading one bit. *)
Lemma land_pow2 (f i : Z) :
  0 <= i -> Z.land f (2 ^ i) = if Z.testbit f i then 2 ^ i else 0.
Proof.
  intros Hi. apply Z.bits_inj'. intros n Hn.
  rewrite Z.land_spec, Z.pow2_bits_eqb by assumption.
  destruct (Z.eqb_spec i n) as [->|Hne].
  - destruct (Z.testbit f n); simpl.
    + rewrite Z.pow2_bits_eqb, Z.eqb_refl by assumption. reflexivity.
    + rewrite Z.bits_0. reflexivity.
  - rewrite andb_false_r.
    destruct (Z.testbit f i).
    + rewrite Z.pow2_bits_eqb by assumption.
      symmetry. now apply Z.eqb_neq.
    + rewrite Z.bits_0. reflexivity.
Qed.

Lemma flags_set_bit (f i : Z) :
  0 <= i -> flags_set f (2 ^ i) <-> Z.testbit f i = true.
Proof.
  intros Hi. unfold flags_set. rewrite land_pow2 by assumption.
  assert (0 < 2 ^ i) by (apply Z.pow_pos_nonneg; lia).
  destruct (Z.testbit f i); split; intros; try reflexivity; try discriminate; lia.
Qed.

Lemma flags_clear_bit (f i : Z) :
  0 <= i -> flags_clear f (2 ^ i) <-> Z.testbit f i = false.
Proof.
  intros Hi. unfold flags_clear. rewrite land_pow2 by assumption.
  assert (0 < 2 ^ i) by (apply Z.pow_pos_nonneg; lia).
  destruct (Z.testbit f i); split; intros; try reflexivity; try discriminate; lia.
Qed.

(** Bit [i] of the flags written, from bit [i] of the flags read. *)
Lemma SetState_flags_testbit (up : bool) (read i : Z) :
  0 <= i < 16 ->
  Z.testbit (SetState_flags up read) i =
    (if up
     then Z.testbit read i
          || (Z.testbit IFF_POINTOPOINT i || Z.testbit IFF_NOARP i)
          || (Z.testbit IFF_UP i || Z.testbit IFF_RUNNING i)
     else (Z.testbit read i
           || (Z.testbit IFF_POINTOPOINT i || Z.testbit IFF_NOARP i))
          && negb (Z.testbit IFF_UP i))
    && negb (Z.testbit IFF_MULTICAST i || Z.testbit IFF_BROADCAST i).
Proof.
  intros Hi. unfold SetState_flags.
  destruct up;
    repeat first [ rewrite short_of_Z_testbit by assumption
                 | rewrite Z.land_spec | rewrite Z.lor_spec
                 | rewrite Z.lnot_spec by lia ];
    reflexivity.
Qed.


(** A successful [SetState]: the four calls it made, and the flags it wrote
    back. *)
Lemma SetState_success_trace (t : IPv6Tunnel) (up : bool) (k : kernel) :
  fst (SetState t up k) = 0 ->
  let name := secure_strncpy (ifname t) IFNAMSIZ in
  snd (SetState t up k) =
    [sys_socket;
     sys_ioctl (k_socket k) (SIOCGIFFLAGS name);
     sys_ioctl (k_socket k)
       (SIOCSIFFLAGS name
          (SetState_flags up (short_of_Z (k_ifr k (SIOCGIFFLAGS name)))));
     sys_close (k_socket k)].
Proof.
  unfold SetState, socket_udp6, bind, socket, ioctl, ifr_value, syslog, close, ret.
  destruct (Z.eqb_spec (fd t) (-1)); [simpl; lia|].
  destruct (Z.eqb_spec (k_socket k) (-1)) as [E|E]; simpl.
  - rewrite E. simpl. lia.
  - destruct (Z.eqb_spec (k_socket k) (-1)); [contradiction|].
    destruct (Z.eqb_spec (k_ioctl k (SIOCGIFFLAGS (secure_strncpy (ifname t) IFNAMSIZ))) 0);
      simpl; [|lia].
    match goal with
    | |- context [k_ioctl k (SIOCSIFFLAGS ?n ?f) =? 0] =>
        destruct (Z.eqb_spec (k_ioctl k (SIOCSIFFLAGS n f)) 0)
    end; simpl; [|lia].
    intros _. unfold SetState_flags. reflexivity.
Qed.

(** C8 (amended). After a successful [SetState (up)], the flags written back
    with SIOCSIFFLAGS are the flags read with SIOCGIFFLAGS with POINTOPOINT
    and NOARP set and MULTICAST and BROADCAST cleared; when [up] is true UP
    and RUNNING are set; when [up] is false UP is cleared and RUNNING is as
    it was read. *)
Theorem SetState_flags_written (t : IPv6Tunnel) (up : bool) (k : kernel) :
  fst (SetState t up k) = 0 ->
  let name := secure_strncpy (ifname t) IFNAMSIZ in
  let read := short_of_Z (k_ifr k (SIOCGIFFLAGS name)) in
  exists written : Z,
    filter is_ioctl (snd (SetState t up k)) =
      [sys_ioctl (k_socket k) (SIOCGIFFLAGS name);
       sys_ioctl (k_socket k) (SIOCSIFFLAGS name written)] /\
    flags_set written IFF_POINTOPOINT /\ flags_set written IFF_NOARP /\
    flags_clear written IFF_MULTICAST /\ flags_clear written IFF_BROADCAST /\
    (up = true -> flags_set written IFF_UP /\ flags_set written IFF_RUNNING) /\
    (up = false ->
     flags_clear written IFF_UP /\
     (flags_set written IFF_RUNNING <-> flags_set read IFF_RUNNING)).
Proof.
  intros Hok name read.
  exists (SetState_flags up read).
  split; [rewrite (SetState_success_trace t up k Hok); reflexivity|].
  change IFF_POINTOPOINT with (2 ^ 4). change IFF_NOARP with (2 ^ 7).
  change IFF_MULTICAST with (2 ^ 12). change IFF_BROADCAST with (2 ^ 1).
  change IFF_UP with (2 ^ 0). change IFF_RUNNING with (2 ^ 6).
  rewrite !flags_set_bit, !flags_clear_bit by lia.
  rewrite !SetState_flags_testbit by lia.
  generalize (Z.testbit read 0), (Z.testbit read 1), (Z.testbit read 4),
    (Z.testbit read 6), (Z.testbit read 7), (Z.testbit read 12).
  intros b0 b1 b4 b6 b7 b12.
  destruct up, b0, b1, b4, b6, b7, b12; vm_compute; intuition congruence.
Qed.


(** [ReceivePacket] once the descriptor is known to be ready and the read
    has delivered [octets]. *)
Lemma ReceivePacket_unfold
    (t : IPv6Tunnel) (readset : fd_set) (k : kernel) (frame : list byte) :
  fd t <> -1 -> fd t ∈ readset -> k_read k = Some frame ->
  let octets := take sizeof_pbuf frame in
  let buf := octets ++ drop (length octets) (pbuf t) in
  let t' := {| fd := fd t; ifname := ifname t; pbuf := buf;
               plen := Z.of_nat (length octets) |} in
  ReceivePacket WORDS_BIGENDIAN t readset k =
    ((if u16_of_bytes WORDS_BIGENDIAN (nth 2 buf x00) (nth 3 buf x00)
         =? L2_PROTO_IPV6 WORDS_BIGENDIAN
      then 0 else -1, t'),
     [sys_read (fd t) sizeof_pbuf]).
Proof.
  intros Hfd Hready Hread octets buf t'.
  unfold ReceivePacket, FD_ISSET.
  destruct (Z.eqb_spec (fd t) (-1)); [contradiction|].
  rewrite bool_decide_eq_true_2 by assumption.
  cbv [negb orb bind read ret].
  rewrite Hread. fold octets.
  destruct (Z.eqb_spec (Z.of_nat (length octets)) (-1)); [lia|].
  cbv [pbuf]. rewrite memcpy_at_start. fold buf. fold t'.
  destruct (_ =? _); reflexivity.
Qed.

(** C1 (amended). On a valid handle whose descriptor is ready, when the read
    delivers a frame of at least 4 octets: the frame is stored in the buffer
    and the buffer length is set to the frame length, whatever the
    ethertype; the operation returns -1 when the ethertype field is not the
    platform's IPv6 encoding (the length is not reset) and 0 when it is, the
    payload then being the buffered octets from offset 4 on. *)
Theorem ReceivePacket_frame
    (t : IPv6Tunnel) (readset : fd_set) (k : kernel) (frame : list byte) :
  fd t <> -1 -> fd t ∈ readset -> k_read k = Some frame ->
  (4 <= length frame <= sizeof_pbuf)%nat ->
  exists (r : Z) (t' : IPv6Tunnel),
    ReceivePacket WORDS_BIGENDIAN t readset k
      = ((r, t'), [sys_read (fd t) sizeof_pbuf]) /\
    fd t' = fd t /\
    plen t' = Z.of_nat (length frame) /\
    take (length frame) (pbuf t') = frame /\
    (ethertype_field frame
       <> u16_bytes WORDS_BIGENDIAN (L2_PROTO_IPV6 WORDS_BIGENDIAN) -> r = -1) /\
    (ethertype_field frame
       = u16_bytes WORDS_BIGENDIAN (L2_PROTO_IPV6 WORDS_BIGENDIAN) ->
     r = 0 /\ drop 4 (take (Z.to_nat (plen t')) (pbuf t')) = drop 4 frame).
Proof.
  intros Hfd Hready Hread [Hmin Hmax].
  rewrite (ReceivePacket_unfold t readset k frame Hfd Hready Hread).
  rewrite (take_ge frame sizeof_pbuf) by lia.
  destruct frame as [|b0 [|b1 [|b2 [|b3 payload]]]]; simpl in Hmin; try lia.
  eexists _, _. split; [reflexivity|].
  cbn [fd plen pbuf].
  change (nth 2 _ x00) with b2. change (nth 3 _ x00) with b3.
  repeat split.
  - apply take_app_length.
  - intros Hne.
    destruct (Z.eqb_spec (u16_of_bytes WORDS_BIGENDIAN b2 b3)
                (L2_PROTO_IPV6 WORDS_BIGENDIAN)) as [E|_]; [|reflexivity].
    exfalso. apply Hne. unfold ethertype_field. simpl.
    now apply proto_is_ipv6_iff.
  - unfold ethertype_field in H. simpl in H.
    apply proto_is_ipv6_iff in H.
    rewrite H, Z.eqb_refl. reflexivity.
  - rewrite Nat2Z.id, take_app_length. reflexivity.
Qed.

End TunnelFacts.

(** ** The tunnel device on concrete inputs *)

Section TunnelExamples.
Import Octets Sys Tun6 Tun6Examples.

(** C1 as stated fails.  A 4-octet IPv4 frame is dropped, yet the buffer
    length is left at 4; and a 2-octet frame read after an IPv6 frame is
    accepted, on the ethertype octets the earlier frame left in the
    buffer. *)
Lemma ReceivePacket_no_reset_no_length_check :
  (let '(r, t') := fst (ReceivePacket false tun0 {[ 3 ]} (kernel_reading ipv4_frame)) in
   r = -1 /\ plen t' = 4 /\ plen t' <> 0) /\
  (let t1 := snd (fst (ReceivePacket false tun0 {[ 3 ]} (kernel_reading ipv6_frame))) in
   let '(r, t2) := fst (ReceivePacket false t1 {[ 3 ]} (kernel_reading short_frame)) in
   (length short_frame < 4)%nat /\ r = 0 /\ plen t2 = 2).
Proof.
  split.
  - vm_compute. repeat split; discriminate.
  - vm_compute. repeat split; lia.
Qed.

(** An IPv6 frame of 5 octets on a ready descriptor: accepted, payload one
    octet. *)
Lemma ReceivePacket_frame_witness :
  exists (r : Z) (t' : IPv6Tunnel),
    ReceivePacket false tun0 {[ 3 ]} (kernel_reading ipv6_frame)
      = ((r, t'), [sys_read 3 sizeof_pbuf]) /\
    fd t' = 3 /\ plen t' = 5 /\ take 5 (pbuf t') = ipv6_frame /\
    r = 0 /\ drop 4 (take (Z.to_nat (plen t')) (pbuf t')) = [x60].
Proof.
  destruct (ReceivePacket_frame false tun0 {[ 3 ]} (kernel_reading ipv6_frame) ipv6_frame)
    as (r & t' & Hrun & Hfd & Hplen & Hbuf & _ & Hok).
  - vm_compute. discriminate.
  - apply elem_of_singleton. reflexivity.
  - reflexivity.
  - unfold sizeof_pbuf. simpl length. lia.
  - destruct Hok as [Hr Hpayload]; [reflexivity|].
    exists r, t'. repeat split; assumption.
Defined.

(** A payload of 65536 octets is refused; a payload of one octet goes out
    as five. *)
Lemma SendPacket_frame_witness :
  SendPacket false tun0 (repeat x00 (Z.to_nat 65536)) kernel_ok = (-1, []) /\
  writes (snd (SendPacket false tun0 [x60] kernel_ok))
    = [(3, [x00; x00; x86; xdd; x60])].
Proof.
  split.
  - apply (SendPacket_frame false tun0 (repeat x00 (Z.to_nat 65536)) kernel_ok).
    rewrite repeat_length. lia.
  - destruct (SendPacket_frame false tun0 [x60] kernel_ok) as [_ H].
    destruct H as [H _]; [simpl; lia | vm_compute; discriminate |].
    exact H.
Defined.

(** C3 as stated fails: an MTU inside the range is refused when the kernel
    gives no control socket. *)
Lemma SetMTU_in_range_may_fail :
  1280 <= 1500 <= 65535 /\
  fst (SetMTU tun0 1500 (kernel_with (-1) 0 None all_written)) = -1.
Proof. split; [lia | reflexivity]. Qed.

(** An MTU of 1000: refused with one log line, no socket and no ioctl. *)
Lemma SetMTU_range_witness :
  fst (SetMTU tun0 1000 kernel_ok) = -1 /\
  filter is_socket (snd (SetMTU tun0 1000 kernel_ok)) = [] /\
  filter is_ioctl (snd (SetMTU tun0 1000 kernel_ok)) = [] /\
  (fd tun0 <> -1 -> length (logged (snd (SetMTU tun0 1000 kernel_ok))) = 1%nat).
Proof.
  apply (SetMTU_range tun0 1000 kernel_ok). left. lia.
Defined.

(** C8 as stated fails: bringing the interface down when the kernel reports
    UP and RUNNING succeeds and writes flags in which RUNNING is still
    set. *)
Lemma SetState_down_keeps_RUNNING :
  let k := kernel_with 4 (Z.lor IFF_UP IFF_RUNNING) None all_written in
  SetState tun0 false k =
    (0, [sys_socket;
         sys_ioctl 4 (SIOCGIFFLAGS "teredo");
         sys_ioctl 4 (SIOCSIFFLAGS "teredo" 0xd0);
         sys_close 4]) /\
  flags_set 0xd0 IFF_RUNNING /\ ~ flags_clear 0xd0 IFF_RUNNING.
Proof.
  vm_compute. repeat split. discriminate.
Qed.

(** Bringing the interface up from flags 0. *)
Lemma SetState_flags_written_witness :
  exists written : Z,
    filter is_ioctl (snd (SetState tun0 true kernel_ok)) =
      [sys_ioctl 4 (SIOCGIFFLAGS "teredo");
       sys_ioctl 4 (SIOCSIFFLAGS "teredo" written)] /\
    flags_set written IFF_UP /\ flags_set written IFF_RUNNING.
Proof.
  destruct (SetState_flags_written tun0 true kernel_ok)
    as (w & Htrace & _ & _ & _ & _ & Hup & _).
  - reflexivity.
  - exists w. split; [exact Htrace | apply Hup; reflexivity].
Defined.

(** C9 at a failing input: the payload is one octet, the handle is valid and
    [write] returns -1.  The failure is reported, but the line logged is the
    one of a short write. *)
Theorem SendPacket_write_error_logged_as_truncation :
  SendPacket false tun0 [x60] (kernel_with 4 0 None (fun _ => -1)) =
    (-1, [sys_write 3 [x00; x00; x86; xdd; x60];
          sys_syslog LOG_ERR "Packet truncated to %u byte(s)\n" [ArgInt 5]]).
Proof. vm_compute. reflexivity. Qed.

(** The handle left by a constructor whose [open] failed. *)
Lemma failed_open_is_inert_witness :
  SetState tun_failed true kernel_ok = (-1, []) /\
  SetAddress tun_failed (repeat x00 16) 64 kernel_ok = (-1, []) /\
  SetMTU tun_failed 1280 kernel_ok = (-1, []) /\
  ReceivePacket false tun_failed {[ 3 ]} kernel_ok = ((-1, tun_failed), []) /\
  SendPacket false tun_failed [x60] kernel_ok = (-1, []) /\
  RegisterReadSet tun_failed {[ 3 ]} = (-1, {[ 3 ]}).
Proof.
  apply (failed_open_is_inert false tun_failed true (repeat x00 16) 64 1280
           {[ 3 ]} [x60] kernel_ok).
  reflexivity.
Defined.

End TunnelExamples.

(** * Properties of the signal handlers *)

Section SignalFacts.
Import Miredo.

Lemma signum_nonzero (s : signal) : signum s <> 0.
Proof. destruct s; discriminate. Qed.

Lemma InitSignals_installs (fds : Z * Z) (p : process) (s : signal) :
  handlers (snd (InitSignals (Some fds) p)) s
  = {| sa_handler := installed s; sa_mask := sigemptyset |}.
Proof. destruct fds as [rd wr]. destruct s; reflexivity. Qed.

Lemma InitSignals_clears (fds : Z * Z) (p : process) :
  fst (InitSignals (Some fds) p) = true /\
  should_exit (snd (InitSignals (Some fds) p)) = 0 /\
  should_reload (snd (InitSignals (Some fds) p)) = 0.
Proof. destruct fds as [rd wr]. repeat split. Qed.

(** A handler that finds its variable set returns at once. *)
Lemma exit_handler_dropped (q : process) (n : Z) :
  should_exit q <> 0 -> exit_handler n q = (q, []).
Proof.
  intros H. unfold exit_handler.
  destruct (Z.eqb_spec (should_exit q) 0); [contradiction | reflexivity].
Qed.

Lemma reload_handler_dropped (q : process) (n : Z) :
  should_reload q <> 0 -> reload_handler n q = (q, []).
Proof.
  intros H. unfold reload_handler.
  destruct (Z.eqb_spec (should_reload q) 0); [contradiction | reflexivity].
Qed.

Lemma sets_exit_app a b : sets_exit (a ++ b) = (sets_exit a + sets_exit b)%nat.
Proof. unfold sets_exit. now rewrite filter_app, length_app. Qed.
Lemma sets_reload_app a b : sets_reload (a ++ b) = (sets_reload a + sets_reload b)%nat.
Proof. unfold sets_reload. now rewrite filter_app, length_app. Qed.
Lemma bridge_writes_app a b : bridge_writes (a ++ b) = (bridge_writes a + bridge_writes b)%nat.
Proof. unfold bridge_writes. now rewrite filter_app, length_app. Qed.

(** One delivery under the installed table: it never ends the process, it
    keeps the table, and what it sets comes out of the budget. *)
Lemma deliver_installed (s : signal) (q : process) :
  (forall s', sa_handler (handlers q s') = installed s') ->
  exists q' acts,
    deliver s q = Some (q', acts) /\
    (forall s', sa_handler (handlers q' s') = installed s') /\
    (sets_exit acts + exit_budget q' = exit_budget q)%nat /\
    (sets_reload acts + reload_budget q' = reload_budget q)%nat /\
    bridge_writes acts = (sets_exit acts + sets_reload acts)%nat.
Proof.
  intros Htable. unfold deliver. rewrite Htable.
  pose proof (signum_nonzero s) as Hs.
  destruct s; cbn [installed];
    unfold exit_handler, reload_handler, exit_budget, reload_budget;
    (destruct (Z.eqb_spec (should_exit q) 0) as [E|E];
     destruct (Z.eqb_spec (should_reload q) 0) as [R|R];
     destruct (Z.eqb_spec (signalfd1 q) (-1)) as [F|F]);
    cbn [negb orb];
    eexists _, _; (split; [reflexivity|]);
    cbn [handlers should_exit should_reload];
    rewrite ?E, ?R;
    repeat match goal with
           | |- context [?n =? 0] =>
               destruct (Z.eqb_spec n 0); try contradiction; try discriminate
           end;
    repeat split; try assumption; try reflexivity.
Qed.

Lemma deliver_all_installed (sigs : list signal) : forall q : process,
  (forall s', sa_handler (handlers q s') = installed s') ->
  exists q' acts,
    deliver_all sigs q = Some (q', acts) /\
    (sets_exit acts <= exit_budget q)%nat /\
    (sets_reload acts <= reload_budget q)%nat /\
    bridge_writes acts = (sets_exit acts + sets_reload acts)%nat.
Proof.
  induction sigs as [|s sigs IH]; intros q Htable.
  - exists q, []. repeat split; unfold sets_exit, sets_reload; simpl; lia.
  - destruct (deliver_installed s q Htable) as (q1 & a1 & Hd & Ht1 & He & Hr & Hw).
    destruct (IH q1 Ht1) as (q2 & a2 & Hd2 & He2 & Hr2 & Hw2).
    exists q2, (a1 ++ a2). cbn [deliver_all]. rewrite Hd, Hd2.
    rewrite sets_exit_app, sets_reload_app, bridge_writes_app.
    repeat split; lia.
Qed.


(** When [pipe] fails nothing is cleared, and nothing needs to be: the
    generation stops there and [miredo] returns -1. *)
Lemma miredo_loop_pipe_failed
    (p : process) (facility : Z) (g : generation) (gens : list generation) :
  g_pipe g = None -> miredo_loop p facility (g :: gens) = returned (-1).
Proof.
  intros H. cbn [miredo_loop]. unfold loop_body. rewrite H. reflexivity.
Qed.

(** When no handler is interrupted: a generation starts with both variables
    cleared by [InitSignals]; from there, whatever signals are delivered, the
    process survives them, [should_exit] is assigned at most once and
    [should_reload] at most once, and the pipe is written once per
    assignment.  A handler that finds its variable already set changes
    nothing and writes nothing. *)
Lemma uninterrupted_handlers_set_once
    (p : process) (fds : Z * Z) (sigs : list signal) :
  let p0 := snd (InitSignals (Some fds) p) in
  (fst (InitSignals (Some fds) p) = true /\
   should_exit p0 = 0 /\ should_reload p0 = 0) /\
  (exists (p1 : process) (acts : list action),
     deliver_all sigs p0 = Some (p1, acts) /\
     (sets_exit acts <= 1)%nat /\
     (sets_reload acts <= 1)%nat /\
     bridge_writes acts = (sets_exit acts + sets_reload acts)%nat) /\
  (forall (q : process) (n : Z),
     should_exit q <> 0 -> exit_handler n q = (q, [])) /\
  (forall (q : process) (n : Z),
     should_reload q <> 0 -> reload_handler n q = (q, [])).
Proof.
  intros p0. split; [apply InitSignals_clears|].
  split; [|split; [apply exit_handler_dropped | apply reload_handler_dropped]].
  destruct (deliver_all_installed sigs p0) as (p1 & acts & Hd & He & Hr & Hw).
  - intros s. unfold p0. rewrite InitSignals_installs. reflexivity.
  - exists p1, acts. repeat split; try assumption.
    + etransitivity; [exact He|]. unfold exit_budget. destruct (_ =? _); lia.
    + etransitivity; [exact Hr|]. unfold reload_budget. destruct (_ =? _); lia.
Qed.

Lemma sig_run_app (e1 e2 : list sig_event) : forall m : machine,
  sig_run (e1 ++ e2) m =
    match sig_run e1 m with
    | None => None
    | Some (m1, a1) =>
        match sig_run e2 m1 with
        | None => None
        | Some (m2, a2) => Some (m2, a1 ++ a2)
        end
    end.
Proof.
  induction e1 as [|e e1 IH]; intros m; cbn [sig_run app].
  - destruct (sig_run e2 m) as [[m2 a2]|]; reflexivity.
  - destruct (sig_step e m) as [[m' a]|]; [|reflexivity].
    rewrite IH. destruct (sig_run e1 m') as [[m1 a1]|]; [|reflexivity].
    destruct (sig_run e2 m1) as [[m2 a2]|]; [|reflexivity].
    now rewrite app_assoc.
Qed.

(** The statements of a handler, run one after the other from an idle
    process, do what the handler does. *)
Lemma one_signal_uninterrupted (s : signal) (p : process) :
  sig_run [arrives s; resumes; resumes; resumes] (idle p) =
    match deliver s p with
    | None => None
    | Some (p', a) => Some (idle p', a)
    end.
Proof.
  unfold deliver, exit_handler, reload_handler.
  cbn [sig_run sig_step blocked idle m_stack m_proc existsb].
  destruct (sa_handler (handlers p s)); cbn [sig_run sig_step m_stack m_proc];
    try reflexivity.
  - unfold handler_step at 1. cbn [fr_handler fr_pc fr_signal].
    destruct (negb (should_exit p =? 0) || (signalfd1 p =? -1)); reflexivity.
  - unfold handler_step at 1. cbn [fr_handler fr_pc fr_signal].
    destruct (negb (should_reload p =? 0) || (signalfd1 p =? -1)); reflexivity.
Qed.

Lemma one_by_one_uninterrupted (sigs : list signal) : forall p : process,
  sig_run (one_by_one sigs) (idle p) =
    match deliver_all sigs p with
    | None => None
    | Some (p', a) => Some (idle p', a)
    end.
Proof.
  induction sigs as [|s sigs IH]; intros p; [reflexivity|].
  change (one_by_one (s :: sigs))
    with ([arrives s; resumes; resumes; resumes] ++ one_by_one sigs).
  rewrite sig_run_app, one_signal_uninterrupted. cbn [deliver_all].
  destruct (deliver s p) as [[p1 a1]|]; [|reflexivity].
  rewrite IH. destruct (deliver_all sigs p1) as [[p2 a2]|]; reflexivity.
Qed.

(** With every signal blocked while a handler runs, no handler is
    interrupted, and each event takes what it sets out of what is pending. *)
Lemma sig_step_blocked (e : sig_event) (m m' : machine) (a : list action) :
  blocks_all (m_proc m) -> (length (m_stack m) <= 1)%nat ->
  sig_step e m = Some (m', a) ->
  blocks_all (m_proc m') /\ (length (m_stack m') <= 1)%nat /\
  (sets_exit a + pending_exit m' <= pending_exit m)%nat /\
  (sets_reload a + pending_reload m' <= pending_reload m)%nat.
Proof.
  intros Hmask Hdepth.
  destruct m as [p stack]. cbn [m_proc m_stack] in Hmask, Hdepth.
  destruct e as [s|]; cbn [sig_step m_proc m_stack].
  - destruct stack as [|fr stack].
    + cbn [blocked m_stack existsb].
      destruct (sa_handler (handlers p s)); intros [= <- <-];
        cbn; repeat split; try assumption; lia.
    + unfold blocked. cbn [m_stack m_proc existsb].
      rewrite Hmask, orb_true_r. cbn [orb].
      intros [= <- <-]. cbn [m_proc m_stack].
      repeat split; try assumption; unfold sets_exit, sets_reload; cbn [filter list_filter length]; lia.
  - destruct stack as [|fr stack];
      [intros [= <- <-]; repeat split; try assumption;
       unfold sets_exit, sets_reload; cbn [filter list_filter length]; lia|].
    destruct stack as [|]; [|cbn in Hdepth; lia].
    pose proof (signum_nonzero (fr_signal fr)) as Hs.
    destruct fr as [s h pc]. cbn [fr_signal] in Hs.
    unfold handler_step, pending_exit, pending_reload, exit_budget, reload_budget.
    cbn [fr_signal fr_handler fr_pc m_proc m_stack].
    destruct h, pc;
      repeat match goal with
             | |- context [negb (?x =? 0) || ?c] =>
                 destruct (Z.eqb_spec x 0); destruct c; cbn [negb orb]
             end;
      intros [= <- <-]; cbn [m_proc m_stack fr_handler fr_pc should_exit should_reload handlers];
      repeat match goal with
             | |- context [?x =? 0] => destruct (Z.eqb_spec x 0); try contradiction; try lia
             end;
      repeat split; try assumption; simpl; lia.
Qed.

Lemma sig_run_blocked (events : list sig_event) :
  forall (m m' : machine) (acts : list action),
    blocks_all (m_proc m) -> (length (m_stack m) <= 1)%nat ->
    sig_run events m = Some (m', acts) ->
    (sets_exit acts + pending_exit m' <= pending_exit m)%nat /\
    (sets_reload acts + pending_reload m' <= pending_reload m)%nat.
Proof.
  induction events as [|e events IH]; intros m m' acts Hmask Hdepth; cbn [sig_run].
  - intros [= <- <-]. cbn. lia.
  - destruct (sig_step e m) as [[m1 a1]|] eqn:Hstep; [|discriminate].
    destruct (sig_run events m1) as [[m2 a2]|] eqn:Hrun; [|discriminate].
    intros [= <- <-].
    destruct (sig_step_blocked e m m1 a1 Hmask Hdepth Hstep) as (Hm1 & Hd1 & He1 & Hr1).
    destruct (IH m1 m2 a2 Hm1 Hd1 Hrun) as [He2 Hr2].
    rewrite sets_exit_app, sets_reload_app. lia.
Qed.

(** Had the handlers been installed with every signal blocked, each variable
    would be set at most once whenever the signals arrive. *)
Lemma blocked_handlers_set_once
    (p : process) (events : list sig_event) (m : machine) (acts : list action) :
  blocks_all p ->
  sig_run events (idle p) = Some (m, acts) ->
  (sets_exit acts <= 1)%nat /\ (sets_reload acts <= 1)%nat.
Proof.
  intros Hmask Hrun.
  destruct (sig_run_blocked events (idle p) m acts Hmask ltac:(cbn; lia) Hrun)
    as [He Hr].
  unfold pending_exit, pending_reload, exit_budget, reload_budget, idle in *.
  cbn [m_stack m_proc] in *.
  destruct (should_exit p =? 0), (should_reload p =? 0); lia.
Qed.

(** What [InitSignals] installs blocks nothing. *)
Lemma InitSignals_blocks_nothing (fds : Z * Z) (p : process) :
  ~ blocks_all (snd (InitSignals (Some fds) p)).
Proof.
  intros H. specialize (H SIGINT SIGTERM).
  rewrite InitSignals_installs in H. discriminate H.
Qed.

End SignalFacts.

Section SignalExamples.
Import Miredo.

(** Two terminal signals and two reloads in one generation, none of them
    interrupting a handler: the first of each class is recorded and written
    to the pipe, the second is dropped. *)
Example signals_one_by_one :
  exists m : machine,
    sig_run (one_by_one [SIGINT; SIGHUP; SIGTERM; SIGHUP])
      (idle (snd (InitSignals (Some (5, 6)) process_start)))
    = Some (m, [bridge_write 6 2; set_should_exit 2;
                bridge_write 6 1; set_should_reload 1]) /\
    m_stack m = [] /\
    should_exit (m_proc m) = 2 /\ should_reload (m_proc m) = 1.
Proof. eexists. split; [reflexivity|]. repeat split. Qed.

(** C7 at a failing input: SIGTERM arrives while the handler of SIGINT is
    between its test and its [write].  The signal table [InitSignals] builds
    blocks nothing but the signal being handled, so the handler of SIGTERM
    runs at once, finds [should_exit] still 0, writes to the pipe and sets
    the variable; the handler of SIGINT then goes on, writes and sets it
    again. *)
Theorem nested_terminal_signals_set_twice :
  exists m : machine,
    sig_run [arrives SIGINT; resumes; arrives SIGTERM;
             resumes; resumes; resumes; resumes; resumes]
      (idle (snd (InitSignals (Some (5, 6)) process_start)))
    = Some (m, [bridge_write 6 15; set_should_exit 15;
                bridge_write 6 2; set_should_exit 2]) /\
    m_stack m = [] /\
    should_exit (m_proc m) = 2 /\
    sets_exit [bridge_write 6 15; set_should_exit 15;
               bridge_write 6 2; set_should_exit 2] = 2%nat.
Proof. eexists. split; [reflexivity|]. repeat split. Qed.

End SignalExamples.

(** * Properties of the supervisor *)

Section SupervisorFacts.
Import Miredo.

(** A status of -2 reads as "killed by a signal": the last branch of the
    if-chain never leaves -2 in [retval]. *)
Lemma unclassified_status_not_minus2 (status : Z) :
  WIFEXITED status = false -> WIFSIGNALED status = false -> status <> -2.
Proof. intros _ Hs ->. vm_compute in Hs. discriminate. Qed.

Lemma decide_not_minus2 (p : process) (status : Z) : decide p status <> -2.
Proof.
  unfold decide.
  destruct (negb (should_exit p =? 0)); [discriminate|].
  destruct (negb (should_reload p =? 0)); [discriminate|].
  destruct (WIFEXITED status) eqn:He.
  - destruct (negb (WEXITSTATUS status =? 0)); discriminate.
  - destruct (WIFSIGNALED status) eqn:Hs; [discriminate|].
    now apply unclassified_status_not_minus2.
Qed.

Lemma loop_body_retval (p : process) (facility : Z) (g : generation)
    (r : Z) (p' : process) (facility' : Z) :
  loop_body p facility g = body_retval r p' facility' ->
  r = 1 \/ r = decide p' (g_status g).
Proof.
  unfold loop_body.
  destruct (InitSignals (g_pipe g) p) as [ok p0].
  destruct ok; cbn [negb]; [|intros [= <- _ _]; now left].
  destruct (g_conf g) as [newfac|]; [|intros [= <- _ _]; now left].
  destruct (g_fork g =? -1); [intros [= <- _ _]; now left|].
  destruct (g_fork g =? 0); [discriminate|].
  destruct (handled (g_signals g) p0) as [p1|]; [|discriminate].
  intros [= <- <- _]. now right.
Qed.

(** The value 2 stays inside the loop. *)
Lemma miredo_loop_never_2 (gens : list generation) :
  forall (p : process) (facility v : Z),
    miredo_loop p facility gens = returned v -> v <> 2.
Proof.
  induction gens as [|g gens IH]; intros p facility v; cbn [miredo_loop].
  - discriminate.
  - destruct (loop_body p facility g) as [r p' f'| |] eqn:Hb; try discriminate.
    destruct (Z.eqb_spec r 2) as [_|Hr]; [apply IH|].
    intros [= <-].
    destruct (loop_body_retval _ _ _ _ _ _ Hb) as [->| ->]; [discriminate|].
    pose proof (decide_not_minus2 p' (g_status g)). lia.
Qed.

(** A generation that gets as far as reaping the child leaves the body with
    the value of the if-chain. *)
Lemma loop_body_reaped (p : process) (facility : Z) (g : generation) (p' : process) :
  reaped p g = Some p' ->
  exists facility' : Z,
    loop_body p facility g = body_retval (decide p' (g_status g)) p' facility'.
Proof.
  unfold reaped, loop_body.
  destruct (g_pipe g) as [[rd wr]|]; [|discriminate].
  destruct (g_conf g) as [newfac|]; [|discriminate].
  cbn [InitSignals negb snd].
  destruct (g_fork g =? -1); [discriminate|].
  destruct (g_fork g =? 0); [discriminate|]. cbn [orb].
  destruct (handled _ _) as [p1|]; [|discriminate].
  intros [= <-]. eexists. reflexivity.
Qed.

(** C4. Once the child is reaped the decision is, in this order: a recorded
    terminal signal makes [miredo] return 0; else a recorded reload makes it
    run the next generation; else a child that exited makes it return a
    value that is non-zero exactly when the exit code is; else a child
    killed by a signal makes it run the next generation.  [miredo] never
    returns 2. *)
Theorem supervisor_priority
    (p : process) (facility : Z) (g : generation) (gens : list generation)
    (p' : process) :
  reaped p g = Some p' ->
  let status := g_status g in
  let run := miredo_loop p facility (g :: gens) in
  (exists facility' : Z,
     let next := miredo_loop p' facility' gens in
     (should_exit p' <> 0 -> run = returned 0) /\
     (should_exit p' = 0 -> should_reload p' <> 0 -> run = next) /\
     (should_exit p' = 0 -> should_reload p' = 0 -> WIFEXITED status = true ->
      exists v : Z, run = returned v /\ (v <> 0 <-> WEXITSTATUS status <> 0)) /\
     (should_exit p' = 0 -> should_reload p' = 0 -> WIFEXITED status = false ->
      WIFSIGNALED status = true -> run = next)) /\
  (forall (q : process) (f : Z) (gs : list generation) (v : Z),
     miredo_loop q f gs = returned v -> v <> 2).
Proof.
  intros Hreaped status run.
  split; [|intros q f gs v; apply miredo_loop_never_2].
  destruct (loop_body_reaped p facility g p' Hreaped) as [facility' Hb].
  exists facility'. intros next.
  unfold run. cbn [miredo_loop]. rewrite Hb. fold status. unfold decide.
  repeat split.
  - intros He. destruct (Z.eqb_spec (should_exit p') 0); [contradiction|].
    reflexivity.
  - intros -> Hr. destruct (Z.eqb_spec (should_reload p') 0); [contradiction|].
    reflexivity.
  - intros -> -> ->. cbn [Z.eqb negb].
    destruct (Z.eqb_spec (WEXITSTATUS status) 0) as [E|E]; cbn [negb Z.eqb].
    + exists 0. split; [reflexivity|]. rewrite E. tauto.
    + exists (-1). split; [reflexivity|]. split; [tauto | discriminate].
  - intros -> -> -> ->. reflexivity.
Qed.

End SupervisorFacts.

Section SupervisorExamples.
Import Miredo MiredoExamples.

(** SIGTERM during the first generation: [miredo] returns 0, whatever could
    have come next. *)
Lemma supervisor_priority_witness :
  miredo_loop process_start LOG_DAEMON [gen_term; gen_crash] = returned 0.
Proof.
  destruct (supervisor_priority process_start LOG_DAEMON gen_term [gen_crash]
              {| should_exit := 15; should_reload := 0; signalfd0 := 5;
                 signalfd1 := -1;
                 handlers := handlers (snd (InitSignals (Some (5, 6)) process_start)) |})
    as [[facility' [Hexit _]] _].
  - reflexivity.
  - apply Hexit. discriminate.
Defined.

(** A reload, then a crash, then a failed start: three generations, and the
    failure is what [miredo] returns. *)
Example miredo_reload_crash_fail :
  miredo [gen_hup; gen_crash; gen_failed] = returned (-1).
Proof. reflexivity. Qed.

(** Both a reload and a terminal signal recorded, and a child killed by a
    signal: the terminal signal wins. *)
Example miredo_exit_over_reload :
  miredo [generation_with [SIGHUP; SIGINT] (W_EXITCODE 0 11); gen_failed]
    = returned 0.
Proof. reflexivity. Qed.

Example miredo_still_looping :
  miredo [gen_hup; gen_crash] = looping.
Proof. reflexivity. Qed.

End SupervisorExamples.

(** * Properties of the worker loop *)

Section LoopFacts.
Import Tun6 Miredo.

Variables (sigfd : Z) (tunnel : IPv6Tunnel) (relay server : option registrant).

(** The signal pipe is always watched, and below [maxfd + 1]. *)
Lemma registered_signal_pipe :
  sigfd <= fst (registered sigfd tunnel relay server) /\
  sigfd ∈ snd (registered sigfd tunnel relay server).
Proof.
  unfold registered, register, RegisterReadSet, FD_SET.
  destruct server as [s|], relay as [r|]; cbn [fst snd];
    repeat match goal with
           | |- context [negb (?a =? ?b)] => destruct (Z.eqb_spec a b); cbn [negb fst snd]
           | |- context [?a >? ?b] => destruct (Z.gtb_spec a b); cbn [fst snd]
           | H : context [?a >? ?b] |- _ => destruct (Z.gtb_spec a b)
           end;
    (split; [lia | set_solver]).
Qed.

Lemma select_ready (nfds : Z) (readset : fd_set) (w : tick) :
  select_fails w = false ->
  0 <= sigfd < nfds -> sigfd ∈ readset ->
  let '(n, ready) := select nfds readset w in
  0 <= n /\ ((n >=? 1) && FD_ISSET sigfd ready = true <-> sigfd ∈ readable w).
Proof.
  intros Hok Hrange Hwatched. unfold select. rewrite Hok.
  set (ready := filter (fun fd => 0 <= fd < nfds) (readset ∩ readable w)).
  assert (sigfd ∈ ready <-> sigfd ∈ readable w) as Hin.
  { unfold ready. rewrite elem_of_filter, elem_of_intersection. intuition. }
  split; [lia|].
  unfold FD_ISSET. rewrite andb_true_iff, bool_decide_eq_true, Hin.
  split; [tauto|]. intros Hr. split; [|assumption].
  destruct (Z.geb_spec (Z.of_nat (size ready)) 1) as [|Hsmall]; [reflexivity|].
  exfalso. assert (size ready = 0%nat) as Hz by lia.
  apply size_empty_iff in Hz. apply Hin in Hr.
  apply (not_elem_of_empty (C := fd_set) sigfd), (proj1 (Hz sigfd)), Hr.
Qed.

(** One turn ends in [break] exactly when [select] fails or reports the
    signal pipe; it always starts by a wait of 250 ms. *)
Lemma iteration_break (w : tick) :
  0 <= sigfd ->
  (fst (iteration sigfd tunnel relay server w) = true <-> interrupts sigfd w) /\
  (exists (nfds : Z) (readset : fd_set) (rest : list call),
     snd (iteration sigfd tunnel relay server w)
       = call_select nfds readset 0 250000 :: rest /\
     Forall (fun c => is_select c = false) rest).
Proof.
  intros Hfd. unfold iteration, interrupts.
  pose proof registered_signal_pipe as [Hmax Hin].
  destruct (registered sigfd tunnel relay server) as [maxfd readset].
  cbn [fst snd] in Hmax, Hin.
  destruct (select_fails w) eqn:Hfail.
  - unfold select. rewrite Hfail. cbn. split; [tauto|].
    eexists _, _, _. split; [reflexivity | constructor].
  - pose proof (select_ready (maxfd + 1) readset w Hfail ltac:(lia) Hin) as Hsel.
    destruct (select (maxfd + 1) readset w) as [n ready].
    destruct Hsel as [Hn Hiff].
    destruct (Z.ltb_spec n 0) as [|_]; [lia|]. cbn [orb].
    destruct ((n >=? 1) && FD_ISSET sigfd ready) eqn:Hstop; cbn [fst snd].
    + split; [intuition|].
      eexists _, _, _. split; [reflexivity | constructor].
    + split; [split; [discriminate|]; intros [|Hr]; [discriminate|];
              apply Hiff in Hr; discriminate|].
      eexists _, _, _. split; [reflexivity|].
      destruct server, relay, (tunnel_len w >? 0); repeat constructor.
Qed.

Lemma teredo_server_relay_timeout (ticks : list tick) :
  Forall timeout_250ms (snd (teredo_server_relay sigfd tunnel relay server ticks)).
Proof.
  induction ticks as [|w ticks IH]; cbn [teredo_server_relay]; [constructor|].
  assert (Forall timeout_250ms (snd (iteration sigfd tunnel relay server w))) as Hw.
  { unfold iteration.
    destruct (registered sigfd tunnel relay server) as [maxfd readset].
    destruct (select (maxfd + 1) readset w) as [n ready].
    destruct ((n <? 0) || _); cbn [snd].
    - repeat constructor.
    - constructor; [split; reflexivity|].
      destruct server, relay, (tunnel_len w >? 0); repeat constructor. }
  destruct (iteration sigfd tunnel relay server w) as [stop calls].
  destruct stop; [exact Hw|].
  destruct (teredo_server_relay sigfd tunnel relay server ticks) as [stopped calls'].
  cbn [snd] in *. apply Forall_app. split; assumption.
Qed.

(** C5 (amended). Every turn of the loop makes one wait, with a timeout of
    250 ms.  A turn leaves the loop exactly when [select] fails or the read
    end of the signal pipe is readable; so the loop is left exactly when one
    of the ticks does that, and nothing else in the body leaves it. *)
Theorem loop_exit_condition (ticks : list tick) :
  0 <= sigfd ->
  (forall w : tick,
     exists (nfds : Z) (watched : fd_set) (rest : list call),
       snd (iteration sigfd tunnel relay server w)
         = call_select nfds watched 0 250000 :: rest /\
       Forall (fun c => is_select c = false) rest) /\
  Forall timeout_250ms (snd (teredo_server_relay sigfd tunnel relay server ticks)) /\
  (forall w : tick,
     fst (iteration sigfd tunnel relay server w) = true <-> interrupts sigfd w) /\
  (fst (teredo_server_relay sigfd tunnel relay server ticks) = true
   <-> Exists (interrupts sigfd) ticks).
Proof.
  intros Hfd.
  split; [intros w; apply (iteration_break w Hfd)|].
  split; [apply teredo_server_relay_timeout|].
  split; [intros w; apply (iteration_break w Hfd)|].
  induction ticks as [|w ticks IH]; cbn [teredo_server_relay].
  - split; [discriminate | intros H; inversion H].
  - pose proof (proj1 (iteration_break w Hfd)) as Hw.
    destruct (iteration sigfd tunnel relay server w) as [stop calls].
    cbn [fst] in Hw. rewrite Exists_cons.
    destruct stop; cbn [fst].
    + split; [intros _; left; now apply Hw | reflexivity].
    + destruct (teredo_server_relay sigfd tunnel relay server ticks)
        as [stopped calls'].
      cbn [fst] in *. rewrite IH. split; [tauto|].
      intros [Hi|Ht]; [apply Hw in Hi; discriminate | assumption].
Qed.

Lemma all_beforeb_sound (P Q : call -> bool) (calls : list call) :
  all_beforeb P Q calls = true -> all_before P Q calls.
Proof.
  induction calls as [|c calls IH]; intros Hb i j a b Hi Hj Pa Qb.
  - discriminate Hi.
  - cbn [all_beforeb] in Hb. apply andb_true_iff in Hb as [Hc Hrest].
    destruct j as [|j].
    + exfalso. injection Hj as ->. rewrite Qb in Hc. cbn [negb orb] in Hc.
      apply andb_true_iff in Hc as [HPc Hafter].
      destruct i as [|i].
      * injection Hi as ->. rewrite Pa in HPc. discriminate.
      * cbn in Hi. apply list_elem_of_lookup_2, list_elem_of_In in Hi.
        rewrite forallb_forall in Hafter. specialize (Hafter a Hi).
        rewrite Pa in Hafter. discriminate.
    + destruct i as [|i]; [lia|].
      cbn in Hi, Hj. specialize (IH Hrest i j a b Hi Hj Pa Qb). lia.
Qed.

(** The calls of a turn that does not end in [break]. *)
Lemma iteration_calls (w : tick) :
  fst (iteration sigfd tunnel relay server w) = false ->
  exists (nfds : Z) (watched ready : fd_set),
    snd (iteration sigfd tunnel relay server w) =
      call_select nfds watched 0 250000 ::
      (match server with
       | Some _ => [server_ProcessPacket ready]
       | None => []
       end) ++
      (match relay with
       | Some _ =>
           relay_Process :: tunnel_ReceivePacket ready ::
           (if tunnel_len w >? 0 then [relay_SendPacket (tunnel_len w)] else []) ++
           [relay_ReceivePacket ready]
       | None => []
       end).
Proof.
  unfold iteration.
  destruct (registered sigfd tunnel relay server) as [maxfd readset].
  destruct (select (maxfd + 1) readset w) as [n ready].
  destruct ((n <? 0) || _); cbn [fst snd]; [discriminate|].
  intros _. eexists _, _, _. reflexivity.
Qed.

(** The calls of a turn that ends in [break]: the wait alone. *)
Lemma iteration_break_calls (w : tick) :
  fst (iteration sigfd tunnel relay server w) = true ->
  exists (nfds : Z) (watched : fd_set),
    snd (iteration sigfd tunnel relay server w) = [call_select nfds watched 0 250000].
Proof.
  unfold iteration.
  destruct (registered sigfd tunnel relay server) as [maxfd readset].
  destruct (select (maxfd + 1) readset w) as [n ready].
  destruct ((n <? 0) || _); cbn [fst snd]; [|discriminate].
  intros _. eexists _, _. reflexivity.
Qed.

(** A turn in which [select] does not fail and the read end of the signal
    pipe is not readable does not end in [break]. *)
Lemma iteration_continues (w : tick) :
  select_fails w = false -> sigfd ∉ readable w ->
  fst (iteration sigfd tunnel relay server w) = false.
Proof.
  intros Hok Hquiet. unfold iteration.
  destruct (registered sigfd tunnel relay server) as [maxfd readset].
  unfold select. rewrite Hok.
  set (ready := filter (fun fd => 0 <= fd < maxfd + 1) (readset ∩ readable w)).
  assert (FD_ISSET sigfd ready = false) as Hnot.
  { unfold FD_ISSET. apply bool_decide_eq_false_2. unfold ready.
    rewrite elem_of_filter, elem_of_intersection. tauto. }
  rewrite Hnot, andb_false_r.
  destruct (Z.ltb_spec (Z.of_nat (size ready)) 0) as [|_]; [lia|]. reflexivity.
Qed.

(** C6 (amended). In every turn of the loop, every call to the server's
    [ProcessPacket] comes before every call on the relay path, the relay's
    [Process] before the outbound forwarding (the tunnel's [ReceivePacket],
    then the relay's [SendPacket]), and the outbound forwarding before the
    inbound one (the relay's [ReceivePacket]).  In a turn in which [select]
    does not fail and the read end of the signal pipe is not readable these
    calls are made, and they are all the turn does after its wait:
    [ProcessPacket] when there is a server; [Process], the tunnel's
    [ReceivePacket] and the relay's [ReceivePacket] when there is a relay,
    and the relay's [SendPacket] exactly when the tunnel gave a packet.  In a
    turn in which [select] fails or the pipe is readable none of them is
    made. *)
Theorem tick_order (w : tick) :
  let calls := snd (iteration sigfd tunnel relay server w) in
  (all_before is_server_call is_relay_call calls /\
   all_before is_housekeeping is_outbound calls /\
   all_before is_tunnel_receive is_relay_send calls /\
   all_before is_outbound is_inbound calls) /\
  (select_fails w = false -> sigfd ∉ readable w ->
   (exists (nfds : Z) (watched ready : fd_set),
      calls =
        call_select nfds watched 0 250000 ::
        (match server with
         | Some _ => [server_ProcessPacket ready]
         | None => []
         end) ++
        (match relay with
         | Some _ =>
             relay_Process :: tunnel_ReceivePacket ready ::
             (if tunnel_len w >? 0 then [relay_SendPacket (tunnel_len w)] else []) ++
             [relay_ReceivePacket ready]
         | None => []
         end)) /\
   (server <> None -> existsb is_server_call calls = true) /\
   (relay <> None ->
    existsb is_housekeeping calls = true /\
    existsb is_tunnel_receive calls = true /\
    existsb is_inbound calls = true /\
    (existsb is_relay_send calls = true <-> tunnel_len w > 0))) /\
  (0 <= sigfd -> interrupts sigfd w ->
   existsb is_server_call calls = false /\ existsb is_relay_call calls = false).
Proof.
  intros calls. unfold calls.
  split; [|split].
  - destruct (fst (iteration sigfd tunnel relay server w)) eqn:Hrun.
    + destruct (iteration_break_calls w Hrun) as (nfds & watched & ->).
      repeat split; apply all_beforeb_sound; reflexivity.
    + destruct (iteration_calls w Hrun) as (nfds & watched & ready & ->).
      destruct server as [s|], relay as [r|];
        destruct (Z.gtb_spec (tunnel_len w) 0);
        repeat split; apply all_beforeb_sound; reflexivity.
  - intros Hok Hquiet.
    pose proof (iteration_continues w Hok Hquiet) as Hrun.
    destruct (iteration_calls w Hrun) as (nfds & watched & ready & Hcalls).
    split; [exists nfds, watched, ready; exact Hcalls|].
    rewrite Hcalls. clear Hcalls Hrun.
    destruct server as [s|], relay as [r|];
      destruct (Z.gtb_spec (tunnel_len w) 0);
      repeat split;
      try reflexivity; try congruence; try discriminate; try lia.
  - intros Hfd Hint.
    apply (proj1 (iteration_break w Hfd)) in Hint.
    destruct (iteration_break_calls w Hint) as (nfds & watched & ->).
    split; reflexivity.
Qed.

End LoopFacts.

Section LoopExamples.
Import Tun6 Tun6Examples Miredo MiredoExamples.

(** C5 as stated fails: when [select] fails the loop is left although the
    read end of the signal pipe (descriptor 5) is not readable. *)
Lemma loop_left_without_signal :
  fst (teredo_server_relay 5 tun0 (Some relay0) (Some server0) [tick_select_error])
    = true /\
  (5 : Z) ∉ readable tick_select_error.
Proof.
  split; [reflexivity|]. apply not_elem_of_empty.
Qed.

(** Four ticks, the third with a signal in the pipe: the loop is left, and
    every wait had its 250 ms. *)
Lemma loop_exit_condition_witness :
  Forall timeout_250ms
    (snd (teredo_server_relay 5 tun0 (Some relay0) (Some server0)
            [tick_idle; tick_packet; tick_signal; tick_packet])) /\
  fst (teredo_server_relay 5 tun0 (Some relay0) (Some server0)
         [tick_idle; tick_packet; tick_signal; tick_packet]) = true.
Proof.
  destruct (loop_exit_condition 5 tun0 (Some relay0) (Some server0)
              [tick_idle; tick_packet; tick_signal; tick_packet])
    as (_ & Htimeout & _ & Hexit).
  - lia.
  - split; [exact Htimeout|]. apply Hexit.
    apply Exists_cons_tl, Exists_cons_tl, Exists_cons_hd.
    right. change ((5 : Z) ∈ ({[ 5 ]} : fd_set)).
    apply elem_of_singleton_2. reflexivity.
Defined.

(** C6 as stated fails: in a turn in which the read end of the signal pipe
    (descriptor 5) is not readable and [select] fails, neither the server
    nor the relay is called, although both exist. *)
Lemma tick_without_handlers :
  let calls := snd (iteration 5 tun0 (Some relay0) (Some server0) tick_select_error) in
  ((5 : Z) ∉ readable tick_select_error) /\
  existsb is_server_call calls = false /\
  existsb is_relay_call calls = false.
Proof.
  split; [apply not_elem_of_empty|]. split; reflexivity.
Qed.

(** A turn with a server, a relay and a packet on the tunnel, in which
    [select] succeeds and the signal pipe (descriptor 5) stays quiet. *)
Lemma tick_order_witness :
  let calls := snd (iteration 5 tun0 (Some relay0) (Some server0) tick_packet) in
  existsb is_server_call calls = true /\
  existsb is_housekeeping calls = true /\
  existsb is_relay_send calls = true /\
  existsb is_inbound calls = true /\
  all_before is_server_call is_relay_call calls /\
  all_before is_housekeeping is_outbound calls /\
  all_before is_tunnel_receive is_relay_send calls /\
  all_before is_outbound is_inbound calls.
Proof.
  destruct (tick_order 5 tun0 (Some relay0) (Some server0) tick_packet)
    as ((H1 & H2 & H3 & H4) & Hcalled & _).
  destruct Hcalled as (_ & Hserver & Hrelay).
  - reflexivity.
  - unfold tick_packet. cbn [readable]. intros H.
    apply elem_of_singleton in H. discriminate H.
  - destruct Hrelay as (Hp & _ & Hi & Hs); [discriminate|].
    split; [apply Hserver; discriminate|].
    split; [exact Hp|].
    split; [apply Hs; reflexivity|].
    split; [exact Hi|].
    repeat split; assumption.
Defined.

Example iteration_with_packet :
  iteration 5 tun0 (Some relay0) (Some server0) tick_packet =
    (false,
     [call_select 10 {[ 3; 5; 7; 8; 9 ]} 0 250000;
      server_ProcessPacket {[ 3 ]};
      relay_Process;
      tunnel_ReceivePacket {[ 3 ]};
      relay_SendPacket 40;
      relay_ReceivePacket {[ 3 ]}]).
Proof. vm_compute. reflexivity. Qed.

End LoopExamples.

(** * Further properties of the tunnel device *)

Section TunnelMore.
Import Octets Sys Tun6 Tun6More.

Lemma substring_length_le (s : string) : forall n m : nat,
  (String.length (String.substring n m s) <= m)%nat.
Proof.
  induction s as [|c s IH]; intros n m.
  - destruct n, m; simpl; lia.
  - destruct n as [|n]; destruct m as [|m]; simpl; try lia.
    + specialize (IH 0%nat m). lia.
    + apply (IH n 0%nat).
    + apply (IH n (S m)).
Qed.

Lemma secure_strncpy_fits (s : string) :
  (String.length (secure_strncpy s IFNAMSIZ) < IFNAMSIZ)%nat.
Proof.
  unfold secure_strncpy, IFNAMSIZ.
  pose proof (substring_length_le s 0 (16 - 1)). simpl in *. lia.
Qed.

Lemma substring_whole (s : string) : forall m : nat,
  (String.length s <= m)%nat -> String.substring 0 m s = s.
Proof.
  induction s as [|c s IH]; intros m Hm.
  - destruct m; reflexivity.
  - destruct m as [|m]; simpl in *; [lia|]. rewrite IH by lia. reflexivity.
Qed.


(** Unfold the monad and decide the tests of a control operation. *)
Ltac io_open :=
  unfold SetState, SetAddress, SetMTU, socket_udp6, bind, ret, socket, ioctl,
    ifr_value, syslog, close;
  rewrite ?Z.gtb_ltb.

Ltac io_case :=
  match goal with
  | |- context [Z.eqb ?a ?b] => destruct (Z.eqb_spec a b)
  | |- context [Z.ltb ?a ?b] => destruct (Z.ltb_spec a b)
  end; cbn [negb orb andb fst snd app].

(** X1. [SetAddress] returns 0 exactly when the handle is valid, the prefix
    length is between 0 and 128, the control socket is obtained and both
    requests are accepted; the address is then installed at the index the
    kernel reported, with the address and prefix length given.  A prefix
    length out of range is refused before any socket or ioctl. *)
Theorem SetAddress_outcome
    (t : IPv6Tunnel) (addr : list byte) (prefix_len : Z) (k : kernel) :
  let name := secure_strncpy (ifname t) IFNAMSIZ in
  let index := k_ifr k (SIOCGIFINDEX name) in
  let run := SetAddress t addr prefix_len k in
  (fst run = 0 <->
   fd t <> -1 /\ 0 <= prefix_len <= 128 /\ k_socket k <> -1 /\
   k_ioctl k (SIOCGIFINDEX name) = 0 /\
   k_ioctl k (SIOCSIFADDR index addr prefix_len) = 0) /\
  (fst run = 0 ->
   filter is_ioctl (snd run) =
     [sys_ioctl (k_socket k) (SIOCGIFINDEX name);
      sys_ioctl (k_socket k) (SIOCSIFADDR index addr prefix_len)]) /\
  (prefix_len < 0 \/ 128 < prefix_len ->
   fst run = -1 /\
   filter is_socket (snd run) = [] /\ filter is_ioctl (snd run) = []).
Proof.
  intros name index run. unfold run, index, name. io_open.
  repeat io_case; cbn; repeat split; intros; try lia; try tauto; try reflexivity;
    try (exfalso; lia); try (exfalso; tauto).
Qed.


(** X2. [SetState] and [SetAddress] release the control socket on every
    path: when [socket] gave a descriptor, the last call of the operation
    closes it and nothing else is closed; when no socket was obtained,
    nothing is closed. *)
Theorem control_socket_released
    (t : IPv6Tunnel) (up : bool) (addr : list byte) (prefix_len : Z) (k : kernel) :
  let released (tr : list syscall) :=
    filter is_close tr =
      (if existsb is_socket tr && negb (k_socket k =? -1)
       then [sys_close (k_socket k)] else []) /\
    (existsb is_socket tr && negb (k_socket k =? -1) = true ->
     last tr = Some (sys_close (k_socket k))) in
  released (snd (SetState t up k)) /\
  released (snd (SetAddress t addr prefix_len k)).
Proof.
  intros released. unfold released. io_open.
  split; repeat io_case; cbn; repeat split; intros; try reflexivity;
    try discriminate; try contradiction.
Qed.

(** X3. [SetMTU] closes the control socket when the SIOCSIFMTU request is
    refused, but returns with the socket still open when the request is
    accepted: a successful call makes no [close]. *)
Theorem SetMTU_socket_left_open (t : IPv6Tunnel) (mtu : Z) (k : kernel) :
  let run := SetMTU t mtu k in
  (fst run = 0 ->
   filter is_socket (snd run) = [sys_socket] /\ filter is_close (snd run) = []) /\
  (fst run <> 0 -> k_socket k <> -1 ->
   filter is_socket (snd run) = [sys_socket] ->
   filter is_close (snd run) = [sys_close (k_socket k)]).
Proof.
  intros run. unfold run. io_open.
  repeat io_case; cbn; repeat split; intros; try reflexivity;
    try discriminate; try contradiction; try lia.
Qed.

(** X4. Every control operation returns 0 or -1, and a return of 0 means
    that the last request it made was accepted by the kernel. *)
Theorem control_operations_return
    (t : IPv6Tunnel) (up : bool) (addr : list byte) (prefix_len mtu : Z) (k : kernel) :
  let ok (run : Z * list syscall) :=
    (fst run = 0 \/ fst run = -1) /\
    (fst run = 0 ->
     exists fd req, last (filter is_ioctl (snd run)) = Some (sys_ioctl fd req) /\
                    k_ioctl k req = 0) in
  ok (SetState t up k) /\ ok (SetAddress t addr prefix_len k) /\ ok (SetMTU t mtu k).
Proof.
  intros ok. unfold ok. io_open.
  repeat split; repeat io_case; cbn; intros; try tauto; try discriminate;
    try (eexists _, _; split; [reflexivity | assumption]).
Qed.

(** X5. Every interface name handed to the kernel by a control operation is
    shorter than IFNAMSIZ, whatever name the handle holds: the copy into
    [ifr_name] never runs past its end. *)
Theorem control_operations_names_fit
    (t : IPv6Tunnel) (up : bool) (addr : list byte) (prefix_len mtu : Z) (k : kernel) :
  names_fit (snd (SetState t up k)) /\
  names_fit (snd (SetAddress t addr prefix_len k)) /\
  names_fit (snd (SetMTU t mtu k)).
Proof.
  pose proof (secure_strncpy_fits (ifname t)) as Hfit.
  unfold names_fit. io_open.
  repeat split; repeat io_case; cbn;
    repeat (apply Forall_cons_2; [first [exact I | exact Hfit]|]); apply Forall_nil_2.
Qed.


Ltac ctor_open :=
  unfold IPv6Tunnel_new, IPv6Tunnel_delete, bind, ret, open, ioctl,
    ifr_name_value, syslog, close.

(** X6. The constructor yields a valid handle exactly when the device opens
    and the TUNSETIFF request is accepted.  The handle then holds the
    descriptor [open] returned and the name the kernel chose, cut to fit;
    in every case where the device opened, the name recorded is shorter
    than IFNAMSIZ, and so is the name requested from the kernel. *)
Theorem IPv6Tunnel_new_outcome
    (raw : IPv6Tunnel) (req_name tundev : option string) (k : kernel) :
  let name := requested_name req_name in
  let run := IPv6Tunnel_new raw req_name tundev k in
  let t := fst run in
  (fd t <> -1 <-> k_open k <> -1 /\ k_ioctl k (TUNSETIFF name IFF_TUN) = 0) /\
  (fd t <> -1 ->
   fd t = k_open k /\ ifname t = secure_strncpy (k_ifname k name) IFNAMSIZ) /\
  (k_open k <> -1 -> (String.length (ifname t) < IFNAMSIZ)%nat) /\
  names_fit (snd run) /\
  pbuf t = pbuf raw /\ plen t = plen raw.
Proof.
  intros name run t. unfold t, run, name, requested_name, names_fit.
  pose proof (fun s => secure_strncpy_fits s) as Hfit.
  assert (String.length EmptyString < IFNAMSIZ)%nat as Hempty
    by (unfold IFNAMSIZ; cbn; lia).
  destruct req_name as [n|]; ctor_open;
    repeat io_case; cbn; repeat split; intros; try tauto; try lia;
    try apply Hfit;
    try (repeat (apply Forall_cons_2;
                 [first [exact I | apply Hfit | exact Hempty]|]);
         apply Forall_nil_2).
Qed.

(** X7. Construction followed by destruction closes the descriptor that
    [open] returned exactly once, whether the interface could be allocated
    or not, and closes nothing when the device could not be opened. *)
Theorem IPv6Tunnel_new_delete_closes_once
    (raw : IPv6Tunnel) (req_name tundev : option string) (k : kernel) :
  let built := IPv6Tunnel_new raw req_name tundev k in
  let gone := IPv6Tunnel_delete (fst built) k in
  filter is_close (snd built ++ snd gone) =
    if k_open k =? -1 then [] else [sys_close (k_open k)].
Proof.
  intros built gone. unfold gone, built. ctor_open.
  repeat io_case; cbn; try reflexivity; try contradiction;
    repeat io_case; cbn; try reflexivity; try contradiction; try lia.
Qed.

End TunnelMore.

Ltac conj_intro :=
  repeat match goal with
         | |- _ /\ _ => split
         | |- _ -> _ => intro
         end.

Section PacketMore.
Import Octets Sys Tun6 Tun6More.

Variable WORDS_BIGENDIAN : bool.

(** X8. What [SendPacket] writes on one handle, [ReceivePacket] accepts on
    another: fed the frame written for a payload of at most 65535 octets, it
    returns 0, records a length of four more than the payload, and the
    buffered octets from offset 4 are the payload. *)
Theorem send_receive_roundtrip
    (tx rx : IPv6Tunnel) (packet frame : list byte) (wfd : Z)
    (k_tx k_rx : kernel) (readset : fd_set) :
  fd tx <> -1 -> Z.of_nat (length packet) <= 65535 ->
  writes (snd (SendPacket WORDS_BIGENDIAN tx packet k_tx)) = [(wfd, frame)] ->
  fd rx <> -1 -> fd rx ∈ readset -> k_read k_rx = Some frame ->
  exists rx' : IPv6Tunnel,
    ReceivePacket WORDS_BIGENDIAN rx readset k_rx
      = ((0, rx'), [sys_read (fd rx) sizeof_pbuf]) /\
    plen rx' = Z.of_nat (length packet) + 4 /\
    drop 4 (take (Z.to_nat (plen rx')) (pbuf rx')) = packet.
Proof.
  intros Htx Hlen Hwritten Hrx Hready Hread.
  rewrite (SendPacket_unfold WORDS_BIGENDIAN tx packet k_tx Htx Hlen) in Hwritten.
  assert (frame = frame_header WORDS_BIGENDIAN ++ packet) as ->.
  { destruct (_ =? _); cbn in Hwritten; congruence. }
  rewrite (ReceivePacket_unfold WORDS_BIGENDIAN rx readset k_rx _ Hrx Hready Hread).
  rewrite frame_header_octets.
  assert (length ([x00; x00; x86; xdd] ++ packet) <= sizeof_pbuf)%nat as Hfits
    by (unfold sizeof_pbuf; cbn [length app]; lia).
  rewrite (take_ge _ sizeof_pbuf) by exact Hfits.
  change (nth 2 _ x00) with x86. change (nth 3 _ x00) with xdd.
  assert (u16_of_bytes WORDS_BIGENDIAN x86 xdd = L2_PROTO_IPV6 WORDS_BIGENDIAN) as ->
    by (destruct WORDS_BIGENDIAN; reflexivity).
  rewrite Z.eqb_refl. eexists. split; [reflexivity|].
  cbn [plen pbuf]. split; [cbn [length app]; lia|].
  rewrite Nat2Z.id, take_app_length. reflexivity.
Qed.

(** X9. Whatever it is given, [ReceivePacket] returns 0 or -1, makes at most
    one [read] and no other call, keeps the descriptor and the name, and
    keeps the buffer at its size with the recorded length inside it.  When
    the descriptor is not in the readiness set it does not read, and when
    nothing is read the handle is left as it was. *)
Theorem ReceivePacket_keeps_handle
    (t : IPv6Tunnel) (readset : fd_set) (k : kernel) :
  let run := ReceivePacket WORDS_BIGENDIAN t readset k in
  let r := fst (fst run) in
  let t' := snd (fst run) in
  (r = 0 \/ r = -1) /\
  (snd run = [] \/ snd run = [sys_read (fd t) sizeof_pbuf]) /\
  fd t' = fd t /\ ifname t' = ifname t /\
  (buffer_ok t -> buffer_ok t') /\
  (fd t ∉ readset -> snd run = []) /\
  (snd run = [] \/ k_read k = None -> r = -1 /\ t' = t).
Proof.
  intros run r t'. unfold r, t', run, ReceivePacket, FD_ISSET.
  destruct (Z.eqb_spec (fd t) (-1)) as [Hfd|Hfd]; cbn [orb].
  { cbn. conj_intro; auto. }
  destruct (decide (fd t ∈ readset)) as [Hin|Hout].
  2: { rewrite bool_decide_eq_false_2 by assumption. cbn. conj_intro; auto. }
  rewrite bool_decide_eq_true_2 by assumption.
  cbv [negb bind read ret].
  destruct (k_read k) as [frame|].
  2: { cbn. conj_intro; auto; contradiction. }
  set (octets := take sizeof_pbuf frame).
  assert (length octets <= sizeof_pbuf)%nat as Hoct
    by (unfold octets; rewrite length_take; lia).
  destruct (Z.eqb_spec (Z.of_nat (length octets)) (-1)); [lia|].
  cbn [pbuf fd ifname plen].
  match goal with |- context [if ?c then _ else _] => destruct c end;
    cbn [fst snd app fd ifname].
  all: conj_intro; auto; try contradiction;
    try (match goal with H : _ \/ _ |- _ => destruct H; discriminate end).
  all: match goal with H : buffer_ok _ |- _ => destruct H as [Hlen Hplen] end;
    split; cbn [pbuf plen]; try lia;
    rewrite memcpy_at_start, length_app, length_drop; lia.
Qed.

End PacketMore.

(** * Further properties of the worker loop *)

Section LoopMore.
Import Tun6 Miredo MiredoMore.

Variables (sigfd : Z) (tunnel : IPv6Tunnel) (relay server : option registrant).



(** X11. In a turn that goes on to the handlers, [select] did not fail, and
    the readiness set every handler is given holds only descriptors that
    were watched and are readable; the read end of the signal pipe is never
    in it. *)
Theorem handlers_readset (w : tick) :
  fst (iteration sigfd tunnel relay server w) = false ->
  select_fails w = false /\
  Forall (fun c => match readset_of c with
                   | Some rs =>
                       (sigfd ∉ rs) /\ (rs ⊆ readable w) /\
                       (rs ⊆ snd (registered sigfd tunnel relay server))
                   | None => True
                   end)
    (snd (iteration sigfd tunnel relay server w)).
Proof.
  unfold iteration.
  destruct (registered sigfd tunnel relay server) as [maxfd watched]. cbn [snd].
  unfold select, FD_ISSET.
  destruct (select_fails w); [cbn; discriminate|].
  set (ready := filter (fun fd => 0 <= fd < maxfd + 1) (watched ∩ readable w)).
  destruct (Z.ltb_spec (Z.of_nat (size ready)) 0) as [|_]; [lia|]. cbn [orb].
  destruct ((Z.of_nat (size ready) >=? 1) && bool_decide (sigfd ∈ ready)) eqn:Hstop;
    cbn [fst snd]; [discriminate|].
  intros _. split; [reflexivity|].
  assert (sigfd ∉ ready) as Hout.
  { intros Hin. apply andb_false_iff in Hstop as [Hsize|Hdec].
    - destruct (Z.geb_spec (Z.of_nat (size ready)) 1); [discriminate|].
      assert (size ready = 0%nat) as Hz by lia.
      apply size_empty_iff in Hz.
      apply (not_elem_of_empty (C := fd_set) sigfd), (proj1 (Hz sigfd)), Hin.
    - rewrite bool_decide_eq_true_2 in Hdec by assumption. discriminate. }
  assert (ready ⊆ readable w /\ ready ⊆ watched) as [Hr Hw].
  { split; intros x Hx; unfold ready in Hx;
      apply elem_of_filter in Hx as [_ Hx];
      apply elem_of_intersection in Hx; tauto. }
  destruct server, relay, (tunnel_len w >? 0); cbn [app];
    repeat (apply Forall_cons_2; [cbn; auto|]); apply Forall_nil_2.
Qed.

(** The calls of one turn, whatever its end. *)
Lemma iteration_discipline (w : tick) :
  Forall (fun c =>
            match c with
            | relay_SendPacket len => 0 < len /\ len = tunnel_len w
            | _ => True
            end /\
            (is_relay_call c = true -> relay <> None) /\
            (is_server_call c = true -> server <> None))
    (snd (iteration sigfd tunnel relay server w)).
Proof.
  unfold iteration.
  destruct (registered sigfd tunnel relay server) as [maxfd watched].
  destruct (select (maxfd + 1) watched w) as [n ready].
  destruct ((n <? 0) || _); cbn [snd].
  - apply Forall_cons_2; [|apply Forall_nil_2].
    cbn. repeat split; discriminate.
  - destruct server, relay; destruct (Z.gtb_spec (tunnel_len w) 0); cbn [app];
      repeat (apply Forall_cons_2; [cbn; repeat split; try discriminate; lia|]);
      apply Forall_nil_2.
Qed.

(** X12. Over the whole run of the loop: the relay's [SendPacket] is only
    ever called with a positive length; no call is made on the relay path
    when there is no relay, and none on the server when there is no
    server. *)
Theorem loop_call_discipline (ticks : list tick) :
  Forall (fun c =>
            match c with
            | relay_SendPacket len => 0 < len
            | _ => True
            end /\
            (is_relay_call c = true -> relay <> None) /\
            (is_server_call c = true -> server <> None))
    (snd (teredo_server_relay sigfd tunnel relay server ticks)).
Proof.
  induction ticks as [|w ticks IH]; cbn [teredo_server_relay]; [apply Forall_nil_2|].
  pose proof (iteration_discipline w) as Hw.
  assert (Forall (fun c =>
            match c with
            | relay_SendPacket len => 0 < len
            | _ => True
            end /\
            (is_relay_call c = true -> relay <> None) /\
            (is_server_call c = true -> server <> None))
          (snd (iteration sigfd tunnel relay server w))) as Hw'.
  { eapply Forall_impl; [exact Hw|]. intros c (Hlen & Hr & Hs).
    split; [|tauto]. destruct c; try exact I. tauto. }
  clear Hw.
  destruct (iteration sigfd tunnel relay server w) as [stop calls].
  destruct stop; [exact Hw'|].
  destruct (teredo_server_relay sigfd tunnel relay server ticks) as [stopped calls'].
  cbn [snd] in *. apply Forall_app. split; assumption.
Qed.

Lemma iteration_waits_once (w : tick) :
  waits (snd (iteration sigfd tunnel relay server w)) = 1%nat.
Proof.
  unfold iteration, waits.
  destruct (registered sigfd tunnel relay server) as [maxfd watched].
  destruct (select (maxfd + 1) watched w) as [n ready].
  destruct ((n <? 0) || _); cbn [snd]; [reflexivity|].
  destruct server, relay, (tunnel_len w >? 0); reflexivity.
Qed.

(** While no tick interrupts, the loop goes through the ticks one after the
    other and what follows is run from the same start. *)
Lemma teredo_server_relay_app (before more : list tick) :
  0 <= sigfd ->
  Forall (fun w => ~ interrupts sigfd w) before ->
  teredo_server_relay sigfd tunnel relay server (before ++ more) =
    (fst (teredo_server_relay sigfd tunnel relay server more),
     snd (teredo_server_relay sigfd tunnel relay server before)
     ++ snd (teredo_server_relay sigfd tunnel relay server more)) /\
  fst (teredo_server_relay sigfd tunnel relay server before) = false /\
  waits (snd (teredo_server_relay sigfd tunnel relay server before)) = length before.
Proof.
  intros Hfd. induction before as [|w before IH]; intros Hquiet.
  - cbn. destruct (teredo_server_relay sigfd tunnel relay server more); auto.
  - apply Forall_cons in Hquiet as [Hw Hquiet].
    destruct (IH Hquiet) as (Happ & Hrun & Hwaits).
    cbn [app teredo_server_relay].
    pose proof (proj1 (iteration_break sigfd tunnel relay server w Hfd)) as Hbreak.
    pose proof (iteration_waits_once w) as Hone.
    destruct (iteration sigfd tunnel relay server w) as [stop calls].
    cbn [fst snd] in Hbreak, Hone.
    destruct stop; [exfalso; apply Hw, Hbreak; reflexivity|].
    rewrite Happ.
    destruct (teredo_server_relay sigfd tunnel relay server before) as [s1 c1].
    cbn [fst snd] in *. rewrite app_assoc.
    repeat split; [assumption|].
    unfold waits in *. rewrite filter_app, length_app. cbn [length]. lia.
Qed.

(** X13. The loop ends at the first tick that interrupts it: the ticks after
    it change neither the result nor the calls made, and the number of waits
    is the number of ticks up to and including that one. *)
Theorem loop_ends_at_first_interrupt (before after : list tick) (w : tick) :
  0 <= sigfd ->
  Forall (fun w' => ~ interrupts sigfd w') before ->
  interrupts sigfd w ->
  let run := teredo_server_relay sigfd tunnel relay server (before ++ w :: after) in
  run = teredo_server_relay sigfd tunnel relay server (before ++ [w]) /\
  fst run = true /\
  waits (snd run) = S (length before) /\
  last (snd run) = head (snd (iteration sigfd tunnel relay server w)).
Proof.
  intros Hfd Hquiet Hw run. unfold run.
  destruct (teredo_server_relay_app before (w :: after) Hfd Hquiet) as (-> & _ & Hn).
  destruct (teredo_server_relay_app before [w] Hfd Hquiet) as (-> & _ & _).
  cbn [teredo_server_relay].
  pose proof (proj1 (iteration_break sigfd tunnel relay server w Hfd)) as Hbreak.
  pose proof (iteration_break_calls sigfd tunnel relay server w) as Hcalls.
  destruct (iteration sigfd tunnel relay server w) as [stop calls].
  cbn [fst snd] in *.
  destruct stop; [|apply Hbreak in Hw; discriminate].
  destruct (Hcalls eq_refl) as (nfds & watched & ->).
  cbn [fst snd]. repeat split.
  - unfold waits in *. rewrite filter_app, length_app, Hn. simpl. lia.
  - rewrite last_snoc. reflexivity.
Qed.

End LoopMore.

(** * Further properties of the signal handlers *)

Section SignalMore.
Import Miredo MiredoMore.

Lemma signal_eqb_eq (a b : signal) : signal_eqb a b = true <-> a = b.
Proof. destruct a, b; cbn; split; intros H; try reflexivity; discriminate H. Qed.

(** X14. Once [asyncsafe_close] has put -1 in [signalfd[1]], as
    [DeinitSignals] and the child do, the handlers do nothing: whatever
    signals arrive and however they interleave, nothing is written to the
    pipe and no variable changes. *)
Theorem closed_bridge_silences_handlers
    (q : process) (events : list sig_event) (m : machine) (acts : list action) :
  sig_run events (idle (asyncsafe_close q)) = Some (m, acts) ->
  acts = [] /\ m_proc m = asyncsafe_close q /\
  m_proc m = DeinitSignals q.
Proof.
  set (p := asyncsafe_close q).
  assert (signalfd1 p = -1) as Hclosed by reflexivity.
  assert (forall evs m0 m1 a,
            m_proc m0 = p -> Forall (fun fr => fr_pc fr = pc_test) (m_stack m0) ->
            sig_run evs m0 = Some (m1, a) -> a = [] /\ m_proc m1 = p) as Hinv.
  { clear events m acts.
    induction evs as [|e evs IH]; intros m0 m1 a Hp Hpc; cbn [sig_run].
    - intros [= <- <-]. auto.
    - destruct (sig_step e m0) as [[m' a']|] eqn:Hstep; [|discriminate].
      destruct (sig_run evs m') as [[m'' a'']|] eqn:Hrun; [|discriminate].
      intros [= <- <-].
      assert (a' = [] /\ m_proc m' = p /\
              Forall (fun fr => fr_pc fr = pc_test) (m_stack m')) as (-> & Hp' & Hpc').
      { destruct m0 as [p0 stack]. cbn [m_proc m_stack] in *. subst p0.
        destruct e as [s|]; cbn [sig_step m_proc m_stack] in Hstep.
        - destruct (blocked _ s); [injection Hstep as <- <-; auto|].
          destruct (sa_handler (handlers p s)); try discriminate;
            injection Hstep as <- <-; cbn [m_proc m_stack];
            repeat split; auto; apply Forall_cons_2; auto.
        - destruct stack as [|fr stack]; [injection Hstep as <- <-; auto|].
          apply Forall_cons in Hpc as [Hfr Hpc].
          unfold handler_step in Hstep. rewrite Hfr, Hclosed in Hstep.
          change (-1 =? -1) with true in Hstep. rewrite !orb_true_r in Hstep.
          destruct (fr_handler fr); injection Hstep as <- <-; auto. }
      destruct (IH m' m'' a'' Hp' Hpc' Hrun) as [-> Hp'']. auto. }
  intros Hrun.
  destruct (Hinv events (idle p) m acts eq_refl (Forall_nil_2 _) Hrun) as [-> Hp].
  auto.
Qed.


Lemma not_blocked_fresh (m : machine) (s : signal) :
  blocked m s = false -> s ∉ map fr_signal (m_stack m).
Proof.
  unfold blocked. induction (m_stack m) as [|fr stack IH]; cbn [existsb map].
  - intros _. apply not_elem_of_nil.
  - intros H. apply orb_false_iff in H as [Hfr Hrest].
    apply orb_false_iff in Hfr as [Hne _].
    apply not_elem_of_cons. split; [|apply IH, Hrest].
    intros ->. rewrite (proj2 (signal_eqb_eq _ _) eq_refl) in Hne. discriminate.
Qed.

(** Under a handler of SIGHUP no other handler of SIGHUP is in progress. *)
Lemma no_reload_below (stack : list frame) :
  Forall (fun fr => fr_handler fr = installed (fr_signal fr)) stack ->
  SIGHUP ∉ map fr_signal stack ->
  existsb reload_in_progress stack = false.
Proof.
  induction stack as [|fr stack IH]; intros Hh Hfresh; [reflexivity|].
  apply Forall_cons in Hh as [Hfr Hh]. cbn [map] in Hfresh.
  apply not_elem_of_cons in Hfresh as [Hne Hfresh].
  cbn [existsb]. rewrite (IH Hh Hfresh), orb_false_r.
  unfold reload_in_progress. rewrite Hfr.
  destruct (fr_signal fr); try reflexivity. contradiction.
Qed.

(** One event in a generation: the process survives it, stays as a process
    in a generation is, does only what a handler may do, and takes what it
    sets of [should_reload] out of what is left. *)
Lemma sig_step_in_generation (wr : Z) (e : sig_event) (m : machine) :
  in_generation wr m ->
  exists (m' : machine) (a : list action),
    sig_step e m = Some (m', a) /\ in_generation wr m' /\
    Forall (action_ok wr) a /\
    (sets_reload a + reloads_left m' <= reloads_left m)%nat.
Proof.
  destruct m as [p stack]. unfold in_generation, reloads_left. cbn [m_proc m_stack].
  intros (Ht & Hh & Hnd & He & Hr & Hw).
  destruct e as [s|]; cbn [sig_step m_proc m_stack].
  - destruct (blocked {| m_proc := p; m_stack := stack |} s) eqn:Hb.
    + eexists _, _. split; [reflexivity|]. cbn [m_proc m_stack].
      repeat split; auto; try apply Forall_nil_2; simpl; lia.
    + apply not_blocked_fresh in Hb. cbn [m_stack] in Hb.
      rewrite Ht.
      destruct s; cbn [installed];
        (eexists _, _; split; [reflexivity|]; cbn [m_proc m_stack map existsb];
         repeat split; auto;
         try (apply Forall_cons_2; [reflexivity | assumption]);
         try (apply NoDup_cons; split; assumption);
         try apply Forall_nil_2;
         simpl; lia).
  - destruct stack as [|fr stack].
    { eexists _, _. split; [reflexivity|]. cbn [m_proc m_stack].
      repeat split; auto; try apply Forall_nil_2; simpl; lia. }
    apply Forall_cons in Hh as [Hfr Hh].
    cbn [map] in Hnd. apply NoDup_cons in Hnd as [Hfresh Hnd].
    destruct fr as [s h pc]. cbn [fr_handler fr_signal] in Hfr, Hfresh. subst h.
    assert (s = SIGHUP -> existsb reload_in_progress stack = false) as Hbelow
      by (intros ->; now apply no_reload_below).
    unfold handler_step, reload_in_progress at 2.
    cbn [fr_handler fr_pc fr_signal existsb].
    destruct s; cbn [installed]; destruct pc; cbn [signum];
      try specialize (Hbelow eq_refl);
      repeat match goal with
             | |- context [negb (?x =? 0) || ?c] =>
                 destruct (Z.eqb_spec x 0); destruct c; cbn [negb orb]
             end;
      (eexists _, _; split; [reflexivity|];
       cbn [m_proc m_stack map existsb should_exit should_reload signalfd1 handlers
            fr_signal fr_handler fr_pc];
       unfold reload_budget, sets_reload, terminal_number, reload_number in *;
       unfold reload_in_progress in *;
       cbn [fr_handler fr_pc fr_signal should_reload orb];
       repeat split; auto;
       try (apply Forall_cons_2; [reflexivity | assumption]);
       try (apply NoDup_cons; split; assumption);
       try (repeat (apply Forall_cons_2; [cbn; unfold terminal_number, reload_number; auto|]);
            apply Forall_nil_2);
       try (simpl; repeat match goal with
                   | |- context [if ?c then _ else _] => destruct c eqn:?
                   end; try lia; try congruence)).
Qed.

Lemma sig_run_in_generation (wr : Z) (events : list sig_event) :
  forall m : machine,
    in_generation wr m ->
    exists (m' : machine) (acts : list action),
      sig_run events m = Some (m', acts) /\ in_generation wr m' /\
      Forall (action_ok wr) acts /\
      (sets_reload acts + reloads_left m' <= reloads_left m)%nat.
Proof.
  induction events as [|e events IH]; intros m Hm; cbn [sig_run].
  - exists m, []. split; [reflexivity|]. split; [exact Hm|].
    split; [apply Forall_nil_2 | simpl; lia].
  - destruct (sig_step_in_generation wr e m Hm) as (m1 & a1 & -> & Hm1 & Ha1 & Hl1).
    destruct (IH m1 Hm1) as (m2 & a2 & -> & Hm2 & Ha2 & Hl2).
    exists m2, (a1 ++ a2). split; [reflexivity|]. split; [exact Hm2|]. split.
    + apply Forall_app. auto.
    + rewrite sets_reload_app. lia.
Qed.

Lemma InitSignals_in_generation (rd wr : Z) (p : process) :
  in_generation wr (idle (snd (InitSignals (Some (rd, wr)) p))).
Proof.
  unfold in_generation. cbn [idle m_proc m_stack map].
  split; [intros s; now rewrite InitSignals_installs|].
  split; [apply Forall_nil_2|].
  split; [apply NoDup_nil_2|].
  destruct (InitSignals_clears (rd, wr) p) as (_ & -> & ->).
  repeat split; auto.
Qed.

(** X15. Between [InitSignals] and [DeinitSignals] the signals the program
    names never end the process, however they arrive and interleave; the
    variables hold 0 or the number of a signal of their class ([should_exit]
    2, 3 or 15, [should_reload] 1); every write goes to the write end of the
    pipe and carries such a number; the descriptor of the write end stays
    what [pipe] gave. *)
Theorem generation_survives_signals
    (p : process) (rd wr : Z) (events : list sig_event) :
  exists (m : machine) (acts : list action),
    sig_run events (idle (snd (InitSignals (Some (rd, wr)) p))) = Some (m, acts) /\
    (should_exit (m_proc m) = 0 \/ terminal_number (should_exit (m_proc m))) /\
    (should_reload (m_proc m) = 0 \/ reload_number (should_reload (m_proc m))) /\
    signalfd1 (m_proc m) = wr /\
    Forall (action_ok wr) acts.
Proof.
  destruct (sig_run_in_generation wr events _ (InitSignals_in_generation rd wr p))
    as (m & acts & Hrun & (_ & _ & _ & He & Hr & Hw) & Hacts & _).
  exists m, acts. auto.
Qed.

(** X16. Even when handlers interrupt one another, [should_reload] is set at
    most once in a generation: SIGHUP is the only signal with the reload
    handler and it is blocked while that handler runs. *)
Theorem reload_set_once_even_interrupted
    (p : process) (rd wr : Z) (events : list sig_event) :
  exists (m : machine) (acts : list action),
    sig_run events (idle (snd (InitSignals (Some (rd, wr)) p))) = Some (m, acts) /\
    (sets_reload acts <= 1)%nat.
Proof.
  destruct (sig_run_in_generation wr events _ (InitSignals_in_generation rd wr p))
    as (m & acts & Hrun & _ & _ & Hleft).
  exists m, acts. split; [exact Hrun|].
  unfold reloads_left, reload_budget, idle in Hleft. cbn in Hleft. lia.
Qed.

End SignalMore.

(** * Further properties of the supervisor *)

Section SupervisorMore.
Import Miredo MiredoMore.

(** X17. A generation in which [pipe], [ParseConf] or [fork] fails ends the
    supervisor at once: [miredo] returns -1, whatever was recorded before
    and whatever generations could have followed. *)
Theorem start_failure_returns_minus1
    (p : process) (facility : Z) (g : generation) (gens : list generation) :
  start_fails g ->
  miredo_loop p facility (g :: gens) = returned (-1).
Proof.
  unfold start_fails. intros H. cbn [miredo_loop]. unfold loop_body.
  destruct (g_pipe g) as [[rd wr]|]; cbn [InitSignals negb]; [|reflexivity].
  destruct (g_conf g) as [newfac|]; [|reflexivity].
  destruct H as [H|[H|H]]; try discriminate H.
  rewrite H. reflexivity.
Qed.

(** X18. In the child, the process exits with the negation of what
    [miredo_run] returned; the supervisor's loop is not continued there. *)
Theorem child_exits_with_run_value
    (p : process) (facility : Z) (g : generation) (gens : list generation) :
  g_pipe g <> None -> g_conf g <> None -> g_fork g = 0 ->
  miredo_loop p facility (g :: gens) = exited (- g_run g).
Proof.
  intros Hp Hc Hf. cbn [miredo_loop]. unfold loop_body.
  destruct (g_pipe g) as [[rd wr]|]; [|contradiction]. cbn [InitSignals negb].
  destruct (g_conf g) as [newfac|]; [|contradiction].
  rewrite Hf. reflexivity.
Qed.

Lemma handled_in_generation (rd wr : Z) (p : process) (events : list sig_event) :
  exists p' : process,
    handled events (snd (InitSignals (Some (rd, wr)) p)) = Some p' /\
    (should_exit p' = 0 \/ terminal_number (should_exit p')) /\
    (should_reload p' = 0 \/ reload_number (should_reload p')).
Proof.
  unfold handled.
  destruct (sig_run_in_generation wr events _ (InitSignals_in_generation rd wr p))
    as (m & acts & -> & Hm & _).
  unfold settle.
  destruct (sig_run_in_generation wr (repeat resumes (3 * length (m_stack m))) m Hm)
    as (m' & acts' & -> & (_ & _ & _ & He & Hr & _) & _).
  exists (m_proc m'). auto.
Qed.

(** X19. While it waits for the child the supervisor is never ended by one of
    the signals the program names: each has a handler or is ignored from
    [InitSignals] on. *)
Theorem supervisor_never_killed
    (p : process) (facility : Z) (gens : list generation) :
  miredo_loop p facility gens <> killed.
Proof.
  revert p facility. induction gens as [|g gens IH]; intros p facility; cbn [miredo_loop].
  - discriminate.
  - unfold loop_body.
    destruct (g_pipe g) as [[rd wr]|]; cbn [InitSignals negb]; [|discriminate].
    destruct (g_conf g) as [newfac|]; [|discriminate].
    destruct (g_fork g =? -1); [discriminate|].
    destruct (g_fork g =? 0); [discriminate|].
    match goal with
    | |- context [handled ?ev (?q)] =>
        destruct (handled_in_generation rd wr p ev) as (p' & Hh & _);
        change q with (snd (InitSignals (Some (rd, wr)) p));
        rewrite Hh
    end.
    destruct (_ =? 2); [apply IH | discriminate].
Qed.

(** X20. What [miredo] returns: 0, or -1, or, for a child whose status is
    neither an exit nor a death by signal, the negated status itself. *)
Theorem miredo_return_values (gens : list generation) :
  forall (p : process) (facility v : Z),
    miredo_loop p facility gens = returned v ->
    v = 0 \/ v = -1 \/
    Exists (fun g => unclassified (g_status g) /\ v = - g_status g) gens.
Proof.
  induction gens as [|g gens IH]; intros p facility v; cbn [miredo_loop].
  - discriminate.
  - destruct (loop_body p facility g) as [r p' f'| |] eqn:Hb; try discriminate.
    destruct (Z.eqb_spec r 2) as [_|Hr].
    + intros H.
      destruct (IH _ _ _ H) as [?|[?|?]];
        [now left | now (right; left) | right; right; now apply Exists_cons_tl].
    + intros [= <-].
      apply loop_body_retval in Hb as [-> | ->]; [now (right; left)|].
      revert Hr. unfold decide.
      destruct (negb (should_exit p' =? 0)); [now left|].
      destruct (negb (should_reload p' =? 0)); [congruence|].
      destruct (WIFEXITED (g_status g)) eqn:He.
      { destruct (negb (WEXITSTATUS (g_status g) =? 0)); auto. }
      destruct (WIFSIGNALED (g_status g)) eqn:Hs; [congruence|].
      intros _. right; right. apply Exists_cons_hd. now split.
Qed.

Lemma InitSignals_same (fds : Z * Z) (p q : process) :
  same_state (snd (InitSignals (Some fds) p)) (snd (InitSignals (Some fds) q)).
Proof.
  destruct fds as [rd wr]. unfold same_state. cbn [InitSignals snd should_exit
    should_reload signalfd0 signalfd1 handlers].
  repeat split. intros s. destruct s; reflexivity.
Qed.

(** Without a signal in between, the statements give what [InitSignals]
    gives. *)
Lemma InitSignals_uninterrupted (rd wr : Z) (p : process) :
  interleaved (InitSignals_statements rd wr) [] p
  = Some (snd (InitSignals (Some (rd, wr)) p), []).
Proof. reflexivity. Qed.

(** X22. [InitSignals] does not start a generation afresh when a signal
    arrives while it runs.  From the second generation on the handlers of
    the generation before are still installed; a signal that arrives between
    [pipe] and the two assignments is handled by them, on the new pipe and
    on the variables as the generation before left them: when its variable
    was left at 0 its number is written to the new pipe and recorded, when
    the variable was left set nothing is done.  The assignments then erase
    the record: [InitSignals] ends in the state it always ends in, with both
    variables at 0, whether or not the new pipe holds a number. *)
Theorem signal_inside_InitSignals (p : process) (rd wr : Z) (s : signal) :
  wr <> -1 ->
  sa_handler (handlers p s) = installed s ->
  exists q : process,
    interleaved (InitSignals_statements rd wr) [[arrives s]] p
      = Some (q, handler_actions s (pipe_signalfd rd wr p)) /\
    same_state q (snd (InitSignals (Some (rd, wr)) p)) /\
    should_exit q = 0 /\ should_reload q = 0.
Proof.
  intros Hwr Hh.
  assert ((signalfd1 (pipe_signalfd rd wr p) =? -1) = false) as Hfd
    by (cbn [signalfd1 pipe_signalfd]; now apply Z.eqb_neq).
  unfold handler_actions.
  cbn [interleaved InitSignals_statements hd tl].
  unfold handling at 1. cbn [sig_run sig_step blocked idle m_stack m_proc existsb].
  change (handlers (pipe_signalfd rd wr p) s) with (handlers p s).
  rewrite Hh.
  destruct s; cbn [installed] in *;
    cbn [settle m_stack length Nat.mul Nat.add repeat sig_run sig_step handler_step
         fr_handler fr_pc fr_signal m_proc app];
    rewrite ?Hfd;
    try (destruct (should_exit (pipe_signalfd rd wr p) =? 0) eqn:He);
    try (destruct (should_reload (pipe_signalfd rd wr p) =? 0) eqn:Hr);
    cbn [negb orb settle m_stack length Nat.mul Nat.add repeat sig_run sig_step
         handler_step fr_handler fr_pc fr_signal m_proc app signum];
    rewrite ?Hfd; cbn [negb orb app m_proc];
    (eexists; split; [reflexivity|]);
    (split; [|split; reflexivity]);
    unfold same_state; cbn; repeat split; intros s'; destruct s'; reflexivity.
Qed.

End SupervisorMore.

(** * The further properties at concrete inputs *)

Section TunnelMoreExamples.
Import Octets Sys Tun6 Tun6More Tun6Examples.

(** One octet sent on one handle and read on another. *)
Lemma send_receive_roundtrip_witness :
  exists rx' : IPv6Tunnel,
    ReceivePacket false tun0 {[ 3 ]} (kernel_reading ipv6_frame)
      = ((0, rx'), [sys_read 3 sizeof_pbuf]) /\
    plen rx' = 5 /\
    drop 4 (take (Z.to_nat (plen rx')) (pbuf rx')) = [x60].
Proof.
  apply (send_receive_roundtrip false tun0 tun0 [x60] ipv6_frame 3
           kernel_ok (kernel_reading ipv6_frame) {[ 3 ]}).
  - vm_compute. discriminate.
  - simpl. lia.
  - reflexivity.
  - vm_compute. discriminate.
  - apply elem_of_singleton. reflexivity.
  - reflexivity.
Defined.

End TunnelMoreExamples.

Section LoopMoreExamples.
Import Tun6 Tun6Examples Miredo MiredoMore MiredoExamples.

(** A turn in which the tunnel has a packet: the handlers run, on a
    readiness set without the signal pipe. *)
Lemma handlers_readset_witness :
  select_fails tick_packet = false /\
  Forall (fun c => match readset_of c with
                   | Some rs =>
                       (5 ∉ rs) /\ (rs ⊆ readable tick_packet) /\
                       (rs ⊆ snd (registered 5 tun0 (Some relay0) (Some server0)))
                   | None => True
                   end)
    (snd (iteration 5 tun0 (Some relay0) (Some server0) tick_packet)).
Proof.
  apply (handlers_readset 5 tun0 (Some relay0) (Some server0) tick_packet).
  vm_compute. reflexivity.
Defined.

(** Two quiet ticks, a signal, and a packet that is never looked at. *)
Lemma loop_ends_at_first_interrupt_witness :
  teredo_server_relay 5 tun0 (Some relay0) (Some server0)
      ([tick_idle; tick_packet] ++ tick_signal :: [tick_packet])
    = teredo_server_relay 5 tun0 (Some relay0) (Some server0)
        ([tick_idle; tick_packet] ++ [tick_signal]) /\
  waits (snd (teredo_server_relay 5 tun0 (Some relay0) (Some server0)
                ([tick_idle; tick_packet] ++ tick_signal :: [tick_packet]))) = 3%nat.
Proof.
  destruct (loop_ends_at_first_interrupt 5 tun0 (Some relay0) (Some server0)
              [tick_idle; tick_packet] [tick_packet] tick_signal)
    as (H1 & _ & H3 & _).
  - lia.
  - apply Forall_cons_2; [|apply Forall_cons_2; [|apply Forall_nil_2]].
    + unfold interrupts, tick_idle. cbn [select_fails readable].
      intros [H|H]; [discriminate H | exact (not_elem_of_empty _ H)].
    + unfold interrupts, tick_packet. cbn [select_fails readable].
      intros [H|H]; [discriminate H|].
      apply elem_of_singleton in H. discriminate H.
  - right. unfold tick_signal. cbn [readable]. apply elem_of_singleton. reflexivity.
  - split; [exact H1 | exact H3].
Defined.

End LoopMoreExamples.

Section SignalMoreExamples.
Import Miredo MiredoMore MiredoExamples MiredoMoreExamples.

(** SIGTERM, then SIGHUP on top of it, after the write end was given up:
    both handlers return at their test. *)
Lemma closed_bridge_silences_handlers_witness :
  sig_run [arrives SIGTERM; arrives SIGHUP; resumes; resumes]
      (idle (asyncsafe_close proc0))
    = Some (idle (asyncsafe_close proc0), []) /\
  m_proc (idle (asyncsafe_close proc0)) = DeinitSignals proc0.
Proof.
  split; [reflexivity|].
  apply (closed_bridge_silences_handlers proc0
           [arrives SIGTERM; arrives SIGHUP; resumes; resumes]
           (idle (asyncsafe_close proc0)) []).
  reflexivity.
Defined.

(** [fork] fails in the first generation. *)
Lemma start_failure_returns_minus1_witness :
  miredo_loop process_start LOG_DAEMON (gen_no_fork :: [gen_term]) = returned (-1).
Proof.
  apply (start_failure_returns_minus1 process_start LOG_DAEMON gen_no_fork [gen_term]).
  right. right. reflexivity.
Defined.

(** In the child [miredo_run] returns -1: the exit code is 1. *)
Lemma child_exits_with_run_value_witness :
  miredo_loop process_start LOG_DAEMON (gen_child :: [gen_term]) = exited 1.
Proof.
  apply (child_exits_with_run_value process_start LOG_DAEMON gen_child [gen_term]).
  - discriminate.
  - discriminate.
  - reflexivity.
Defined.

(** A stopped child: the negated status comes back. *)
Lemma miredo_return_values_witness :
  -4991 = 0 \/ -4991 = -1 \/
  Exists (fun g => unclassified (g_status g) /\ -4991 = - g_status g) [gen_stopped].
Proof.
  apply (miredo_return_values [gen_stopped] process_start LOG_DAEMON (-4991)).
  reflexivity.
Defined.

(** The generation before ended by a crash of the child, with neither
    variable set; SIGHUP arrives just after the new pipe (descriptors 7 and
    8) is made: 1 is written to the new pipe and the record is erased. *)
Lemma signal_inside_InitSignals_witness :
  exists q : process,
    interleaved (InitSignals_statements 7 8) [[arrives SIGHUP]] (DeinitSignals proc0)
      = Some (q, [bridge_write 8 1; set_should_reload 1]) /\
    same_state q (snd (InitSignals (Some (7, 8)) (DeinitSignals proc0))) /\
    should_exit q = 0 /\ should_reload q = 0.
Proof.
  apply (signal_inside_InitSignals (DeinitSignals proc0) 7 8 SIGHUP).
  - discriminate.
  - reflexivity.
Defined.

End SignalMoreExamples.

Section ControlMoreExamples.
Import Octets Sys Tun6 Tun6More Tun6Examples.

(** An address with a 64-bit prefix on a kernel that accepts everything. *)
Lemma SetAddress_outcome_witness :
  fst (SetAddress tun0 (repeat x00 16) 64 kernel_ok) = 0 /\
  filter is_ioctl (snd (SetAddress tun0 (repeat x00 16) 64 kernel_ok)) =
    [sys_ioctl 4 (SIOCGIFINDEX "teredo"); sys_ioctl 4 (SIOCSIFADDR 0 (repeat x00 16) 64)].
Proof.
  destruct (SetAddress_outcome tun0 (repeat x00 16) 64 kernel_ok) as (Hiff & Htrace & _).
  assert (fst (SetAddress tun0 (repeat x00 16) 64 kernel_ok) = 0) as H0.
  { apply Hiff. repeat split; try reflexivity; try lia; vm_compute; discriminate. }
  split; [exact H0 | exact (Htrace H0)].
Defined.

(** An MTU of 1280 is accepted, and the control socket is not closed. *)
Lemma SetMTU_socket_left_open_witness :
  filter is_socket (snd (SetMTU tun0 1280 kernel_ok)) = [sys_socket] /\
  filter is_close (snd (SetMTU tun0 1280 kernel_ok)) = [].
Proof.
  destruct (SetMTU_socket_left_open tun0 1280 kernel_ok) as [Hok _].
  apply Hok. reflexivity.
Defined.

(** The device opens and the kernel names the interface. *)
Lemma IPv6Tunnel_new_outcome_witness :
  fd (fst (IPv6Tunnel_new tun_raw None None kernel_ok)) = 3 /\
  ifname (fst (IPv6Tunnel_new tun_raw None None kernel_ok)) = "tun0"%string.
Proof.
  destruct (IPv6Tunnel_new_outcome tun_raw None None kernel_ok) as (Hiff & Hval & _).
  apply Hval. apply Hiff. split; [vm_compute; discriminate | reflexivity].
Defined.

(** Bringing the interface up: the control socket, descriptor 4, is closed
    last. *)
Lemma control_socket_released_witness :
  last (snd (SetState tun0 true kernel_ok)) = Some (sys_close 4).
Proof.
  destruct (control_socket_released tun0 true (repeat x00 16) 64 kernel_ok)
    as ((_ & Hlast) & _).
  apply Hlast. reflexivity.
Defined.

(** Bringing the interface up: the last request, SIOCSIFFLAGS, was accepted. *)
Lemma control_operations_return_witness :
  exists fd req,
    last (filter is_ioctl (snd (SetState tun0 true kernel_ok))) = Some (sys_ioctl fd req) /\
    k_ioctl kernel_ok req = 0.
Proof.
  destruct (control_operations_return tun0 true (repeat x00 16) 64 1280 kernel_ok)
    as ((_ & Hlast) & _).
  apply Hlast. reflexivity.
Defined.

End ControlMoreExamples.

Section PacketMoreExamples.
Import Octets Sys Tun6 Tun6More Tun6Examples.

(** An IPv4 frame is dropped, and the buffer stays in order. *)
Lemma ReceivePacket_keeps_handle_witness :
  buffer_ok (snd (fst (ReceivePacket false tun0 {[ 3 ]} (kernel_reading ipv4_frame)))).
Proof.
  destruct (ReceivePacket_keeps_handle false tun0 {[ 3 ]} (kernel_reading ipv4_frame))
    as (_ & _ & _ & _ & Hbuf & _).
  apply Hbuf. split; [reflexivity | vm_compute; split; discriminate].
Defined.

End PacketMoreExamples.

Section RegisteredExamples.
Import Tun6 Tun6Examples Miredo MiredoMore MiredoExamples.


End RegisteredExamples.

(** * The configuration and the worker's set-up and tear-down *)

(** ** Byte order *)

Section ByteOrderFacts.
Import MiredoRun.

Lemma uint16_range (x : Z) : 0 <= uint16 x < 65536.
Proof. unfold uint16. apply Z.mod_pos_bound. lia. Qed.

Lemma uint32_range (x : Z) : 0 <= uint32 x < 4294967296.
Proof. unfold uint32. apply Z.mod_pos_bound. lia. Qed.

Lemma uint16_small (x : Z) : 0 <= x < 65536 -> uint16 x = x.
Proof. apply Z.mod_small. Qed.

Lemma uint32_small (x : Z) : 0 <= x < 4294967296 -> uint32 x = x.
Proof. apply Z.mod_small. Qed.

Lemma bswap_16_range (x : Z) : 0 <= bswap_16 x < 65536.
Proof. unfold bswap_16. Z.div_mod_to_equations; lia. Qed.

Lemma bswap_16_involutive (x : Z) : 0 <= x < 65536 -> bswap_16 (bswap_16 x) = x.
Proof. unfold bswap_16. intros H. Z.div_mod_to_equations; lia. Qed.

Lemma bswap_32_range (x : Z) : 0 <= bswap_32 x < 4294967296.
Proof. unfold bswap_32. Z.div_mod_to_equations; lia. Qed.

(** The four octets of a number built from four octets. *)
Lemma octets_of_sum (a b c d : Z) :
  0 <= a < 256 -> 0 <= b < 256 -> 0 <= c < 256 -> 0 <= d < 256 ->
  let y := a * 16777216 + b * 65536 + c * 256 + d in
  y mod 256 = d /\ (y / 256) mod 256 = c /\ (y / 65536) mod 256 = b /\
  (y / 16777216) mod 256 = a.
Proof.
  intros Ha Hb Hc Hd y. subst y.
  repeat split.
  - Z.div_mod_to_equations; lia.
  - Z.div_mod_to_equations; lia.
  - Z.div_mod_to_equations; lia.
  - Z.div_mod_to_equations; lia.
Qed.

Lemma sum_of_octets (x : Z) :
  0 <= x < 4294967296 ->
  x = ((x / 16777216) mod 256) * 16777216 + ((x / 65536) mod 256) * 65536
      + ((x / 256) mod 256) * 256 + x mod 256.
Proof. intros H. Z.div_mod_to_equations; lia. Qed.

Lemma bswap_32_involutive (x : Z) : 0 <= x < 4294967296 -> bswap_32 (bswap_32 x) = x.
Proof.
  intros H. unfold bswap_32 at 1.
  assert (0 <= x mod 256 < 256) as Hd by (apply Z.mod_pos_bound; lia).
  assert (0 <= (x / 256) mod 256 < 256) as Hc by (apply Z.mod_pos_bound; lia).
  assert (0 <= (x / 65536) mod 256 < 256) as Hb by (apply Z.mod_pos_bound; lia).
  assert (0 <= (x / 16777216) mod 256 < 256) as Ha by (apply Z.mod_pos_bound; lia).
  destruct (octets_of_sum _ _ _ _ Hd Hc Hb Ha) as (E1 & E2 & E3 & E4).
  unfold bswap_32. rewrite E1, E2, E3, E4.
  symmetry. rewrite (sum_of_octets x H) at 1. lia.
Qed.

End ByteOrderFacts.

Section WorkerFacts.
Import Sys MiredoRun.

Variable WORDS_BIGENDIAN : bool.
Variable MIREDO_CHROOT : option string.
Variable unpriv_uid : Z.

(** ** [ParseConf] *)

(** The paths of [ParseConf]: the result is named, the function is unfolded
    and each test is decided in the order of the source, so that every goal
    left is one path with its result and its trace written out.  What the
    parsers store stays as it is given. *)
Ltac conf_eval :=
  cbv beta iota zeta delta
    [ParseConf fst snd negb andb orb mode_eqb app
     ifname prefix mode server_ip bind_ip bind_port default_route
     cf_ReadFile cf_SyslogFacility cf_RelayType cf_IPv4 cf_IPv6 cf_Boolean cf_Int16
     cf_RawValue].

Ltac conf_paths :=
  let path := fresh "path" in let newfac := fresh "newfac" in
  let conf := fresh "conf" in let cf := fresh "cf" in
  let run := fresh "run" in let Hrun := fresh "Hrun" in
  let m := fresh "m" in let rt := fresh "rt" in let rf := fresh "rf" in
  intros path newfac conf cf; cbv zeta;
  remember (ParseConf _ path newfac conf cf) as run eqn:Hrun;
  revert Hrun;
  destruct conf as [? ? m ? ? ? ?];
  destruct cf as [rf ? rt ? ? ? ? ?];
  conf_eval;
  destruct rf; conf_eval;
  [ destruct (p_ok rt); conf_eval;
    [ destruct (store rt m); conf_eval;
      repeat (match goal with
              | |- context [p_ok (?f ?k)] => destruct (p_ok (f k))
              end; conf_eval)
    | ]
  | ];
  intros ->.

(** On one path: the readings of the trace are computed. *)
Ltac conf_leaf :=
  cbv beta iota zeta delta
    [alerts keys keys_for List.filter length is_conf_alert is_conf_syslog head
     fst snd app negb andb orb mode_eqb LOG_ALERT
     ifname prefix mode server_ip bind_ip bind_port default_route
     cf_ReadFile cf_SyslogFacility cf_RelayType cf_IPv4 cf_IPv6 cf_Boolean cf_Int16
     cf_RawValue];
  change (1 =? 1) with true;
  cbv beta iota.

Ltac conf_done :=
  conf_leaf;
  repeat match goal with
         | |- _ /\ _ => split
         | |- _ -> _ => intro
         end;
  try reflexivity; try discriminate; try assumption;
  try (apply prefix_nil); try (eexists; reflexivity).

(** X23. [ParseConf] reads the file first and logs exactly one line, an
    ALERT, when it fails and nothing when it succeeds.  The keys it looks up
    are, in order, those of the mode it finds in [RelayType], all of them
    when it succeeds and a beginning of them when it fails: the client keys
    are not looked up in the other modes nor the relay keys in client mode,
    and the bind address and port are not looked up in disabled mode.  The
    interface name is looked up last and only on success. *)
Theorem ParseConf_outcome :
  forall (path : string) (newfac : Z) (conf : miredo_conf) (cf : conf_file),
  let run := ParseConf WORDS_BIGENDIAN path newfac conf cf in
  let ok := fst (fst (fst run)) in
  let newfac' := snd (fst (fst run)) in
  let conf' := snd (fst run) in
  let t := snd run in
  alerts t = (if ok then 0%nat else 1%nat) /\
  length (List.filter is_conf_syslog t) = alerts t /\
  head t = Some (cnf_ReadFile path) /\
  keys t `prefix_of` keys_for (mode conf') /\
  (ok = true -> keys t = keys_for (mode conf')) /\
  (ok = true -> cf_ReadFile cf = true /\ p_ok (cf_RelayType cf) = true) /\
  ifname conf' = (if ok then cf_RawValue cf "InterfaceName" else ifname conf) /\
  (cf_ReadFile cf = true ->
   mode conf' = store (cf_RelayType cf) (mode conf) /\
   newfac' = store (cf_SyslogFacility cf) newfac) /\
  (cf_ReadFile cf = false -> conf' = conf /\ newfac' = newfac /\ keys t = []).
Proof.
  conf_paths; conf_done.
Qed.

Lemma htons_range (x : Z) : 0 <= htons WORDS_BIGENDIAN x < 65536.
Proof.
  unfold htons. destruct WORDS_BIGENDIAN; [apply uint16_range | apply bswap_16_range].
Qed.

Lemma htons_htons (x : Z) : htons WORDS_BIGENDIAN (htons WORDS_BIGENDIAN x) = uint16 x.
Proof.
  unfold htons. pose proof (uint16_range x) as Hx.
  destruct WORDS_BIGENDIAN.
  - now apply uint16_small.
  - pose proof (bswap_16_range (uint16 x)) as Hy.
    rewrite (uint16_small _ Hy).
    now apply bswap_16_involutive.
Qed.

Lemma htonl_range (x : Z) : 0 <= htonl WORDS_BIGENDIAN x < 4294967296.
Proof.
  unfold htonl. destruct WORDS_BIGENDIAN; [apply uint32_range | apply bswap_32_range].
Qed.

Lemma ntohl_htonl (x : Z) : ntohl WORDS_BIGENDIAN (htonl WORDS_BIGENDIAN x) = uint32 x.
Proof.
  unfold ntohl, htonl. pose proof (uint32_range x) as Hx.
  destruct WORDS_BIGENDIAN.
  - now apply uint32_small.
  - pose proof (bswap_32_range (uint32 x)) as Hy.
    rewrite (uint32_small _ Hy).
    now apply bswap_32_involutive.
Qed.

(** X24. What [ParseConf] leaves alone, and the byte order of the port.  In
    client mode the prefix is not touched; in the other modes the default
    route is not; in disabled mode neither the bind address nor the bind port
    are.  When the parse succeeds in another mode, the port recorded is a
    16-bit value in network byte order: the value [GetInt16] stored,
    converted; and when [GetInt16] stored nothing, the port the
    configuration had. *)
Theorem ParseConf_fields :
  forall (path : string) (newfac : Z) (conf : miredo_conf) (cf : conf_file),
  let run := ParseConf WORDS_BIGENDIAN path newfac conf cf in
  let ok := fst (fst (fst run)) in
  let conf' := snd (fst run) in
  (mode conf' = TEREDO_CLIENT -> prefix conf' = prefix conf) /\
  (mode conf' <> TEREDO_CLIENT -> default_route conf' = default_route conf) /\
  (mode conf' = TEREDO_DISABLED ->
   bind_ip conf' = bind_ip conf /\ bind_port conf' = bind_port conf) /\
  (ok = true -> mode conf' <> TEREDO_DISABLED ->
   0 <= bind_port conf' < 65536 /\
   match p_stored (cf_Int16 cf "BindPort") with
   | Some v => ntohs WORDS_BIGENDIAN (bind_port conf') = uint16 v
   | None => bind_port conf' = uint16 (bind_port conf)
   end).
Proof.
  conf_paths; conf_leaf;
    (split; [|split; [|split]]);
    try (intros _; reflexivity); try (intros H; discriminate H);
    try (intros H; exfalso; apply H; reflexivity);
    try (intros _; split; reflexivity).
  all: intros _ Hmode; try (exfalso; apply Hmode; reflexivity).
  all: unfold store, ntohs;
    (split; [apply htons_range|]);
    destruct (p_stored _); apply htons_htons.
Qed.

(** ** [miredo_run] *)

(** The paths of [miredo_run]: the result is named, the function is unfolded
    and each answer is decided in the order in which the source asks for
    it, so that every goal left is one path with its return value and its
    trace written out. *)
Ltac run_eval :=
  cbv beta iota zeta delta
    [MiredoRun.miredo_run miredo_run_body routing enter_chroot abort
     run_bind run_ret goto_abort call perform read_local
     set_fd set_relay set_server set_retval try_new tunnel_ready
     fst snd negb andb orb mode_eqb app
     l_relay l_server l_fd l_retval
     ifname prefix mode server_ip bind_ip bind_port default_route
     prefix_ip6 prefix_teredo_prefix
     w_tunnel w_SetMTU w_privileged_process w_BringUp w_AddAddress w_AddRoute
     w_chroot w_chdir w_setuid w_server w_relay].

Ltac run_split m wt wmtu wpp wbu waa war wch wcd wsu wsrv wrel sip bport :=
  run_eval;
  destruct m; run_eval;
  destruct wt; run_eval;
  repeat (match goal with
          | |- context [wmtu =? 0] => destruct (Z.eqb_spec wmtu 0)
          | |- context [wpp =? -1] => destruct (Z.eqb_spec wpp (-1))
          | |- context [wbu =? 0] => destruct (Z.eqb_spec wbu 0)
          | |- context [waa =? 0] => destruct (Z.eqb_spec waa 0)
          | |- context [war =? 0] => destruct (Z.eqb_spec war 0)
          | |- context [match MIREDO_CHROOT with _ => _ end] => destruct MIREDO_CHROOT
          | |- context [wch =? 0] => destruct (Z.eqb_spec wch 0)
          | |- context [wcd =? 0] => destruct (Z.eqb_spec wcd 0)
          | |- context [wsu =? 0] => destruct (Z.eqb_spec wsu 0)
          | |- context [sip =? 0] => destruct (Z.eqb_spec sip 0)
          | |- context [match wsrv with _ => _ end] => destruct wsrv
          | |- context [match wrel with _ => _ end] => destruct wrel
          | |- context [bport =? 0] => destruct (Z.eqb_spec bport 0)
          end; run_eval).

Ltac run_paths :=
  let conf := fresh "conf" in let w := fresh "w" in
  let run := fresh "run" in let Hrun := fresh "Hrun" in
  let ifn := fresh "ifn" in let pfx := fresh "pfx" in let m := fresh "m" in
  let sip := fresh "sip" in let bip := fresh "bip" in let bport := fresh "bport" in
  let droute := fresh "droute" in
  let wt := fresh "wt" in let wmtu := fresh "wmtu" in let wpp := fresh "wpp" in
  let wbu := fresh "wbu" in let waa := fresh "waa" in let war := fresh "war" in
  let wch := fresh "wch" in let wcd := fresh "wcd" in let wsu := fresh "wsu" in
  let wsrv := fresh "wsrv" in let wrel := fresh "wrel" in
  intros conf w; cbv zeta;
  remember (MiredoRun.miredo_run _ _ _ conf w) as run eqn:Hrun;
  revert Hrun;
  destruct conf as [ifn pfx m sip bip bport droute];
  destruct w as [wt wmtu wpp wbu waa war wch wcd wsu wsrv wrel];
  run_split m wt wmtu wpp wbu waa war wch wcd wsu wsrv wrel sip bport;
  intros ->.

(** On one path: the readings of the trace are computed, and the tests the
    statement makes on the answers are decided as on the path. *)
Ltac run_leaf :=
  cbv beta iota zeta delta
    [count_calls List.filter length precede forallb existsb negb andb orb
     is_alert is_loop is_setuid is_set_up is_service is_new_relay is_new_server
     is_delete_relay is_delete_server is_helper is_run_close is_run_wait
     is_nonce_init is_nonce_deinit is_tunnel_setup is_tunnel_new is_tunnel_delete
     is_client_relay is_plain_relay is_cone_relay is_AddRoute is_AddAddress is_cleanup
     constructed loop_args_ok servers_of closed_of mode_eqb tunnel_ready fst snd
     mode server_ip w_setuid w_tunnel w_SetMTU w_relay w_server w_privileged_process
     LOG_ALERT LOG_WARNING LOG_NOTICE app last head];
  change (1 =? 1) with true; change (4 =? 1) with false; change (5 =? 1) with false;
  change (-1 =? -1) with true; change (0 =? 0) with true; change (-1 =? 0) with false;
  cbv beta iota zeta delta
    [count_calls List.filter length precede forallb existsb negb andb orb app last head].

Ltac run_tests :=
  repeat match goal with
         | H : ?x = ?c |- context [?x =? ?c] => rewrite (proj2 (Z.eqb_eq x c) H)
         | H : ?x <> ?c |- context [?x =? ?c] => rewrite (proj2 (Z.eqb_neq x c) H)
         end;
  cbv beta iota.

Ltac run_done :=
  run_leaf; run_tests;
  repeat match goal with
         | |- _ /\ _ => split
         end;
  try reflexivity; try (now left); try (now right).

(** X25. [miredo_run] returns 0 or -1.  It returns 0 exactly when it entered
    the loop, which it does at most once; a failure is reported by exactly
    one ALERT line and a success by none.  The loop is given a relay exactly
    when the mode is not disabled, a server exactly when the mode is not
    client and a server address is configured, and never an object that is
    not ready. *)
Theorem miredo_run_result : forall (conf : miredo_conf) (w : world),
  let r := fst (miredo_run WORDS_BIGENDIAN MIREDO_CHROOT unpriv_uid conf w) in
  let t := snd (miredo_run WORDS_BIGENDIAN MIREDO_CHROOT unpriv_uid conf w) in
  (r = 0 \/ r = -1) /\
  count_calls is_loop t = (if r =? 0 then 1%nat else 0%nat) /\
  count_calls is_alert t = (if r =? 0 then 0%nat else 1%nat) /\
  forallb (loop_args_ok conf) t = true.
Proof.
  run_paths; run_done.
Qed.

(** X26. Where [setuid] stands among the calls of [miredo_run].  The
    construction of the tunnel, its [SetMTU], [BringUp], [AddAddress] and
    [AddRoute], the start of the helper and [chroot] and [chdir] are made
    before [setuid]; the constructions of the server and of the relay, the
    calls that configure the server and the loop are made after it, and
    only when it was called and returned 0.  [setuid] is called at most
    once, with [unpriv_uid], and only when the tunnel set-up succeeded.
    Nothing is said of the sockets and descriptors that the calls made
    before [setuid] open. *)
Theorem setuid_ordering : forall (conf : miredo_conf) (w : world),
  let t := snd (miredo_run WORDS_BIGENDIAN MIREDO_CHROOT unpriv_uid conf w) in
  precede is_set_up is_setuid t = true /\
  precede is_setuid is_service t = true /\
  (existsb is_service t = true -> existsb is_setuid t = true /\ w_setuid w = 0) /\
  (existsb is_setuid t = true -> tunnel_ready w = true) /\
  List.filter is_setuid t = (if existsb is_setuid t then [run_setuid unpriv_uid] else []).
Proof.
  run_paths; run_done;
    try (intros _; split; [reflexivity | assumption]);
    try (intros _; reflexivity); try (intros H; discriminate H).
Qed.


(** X28. The nonce generator is initialised exactly in client mode, before
    anything else; it is deinitialised exactly when, in client mode, the
    tunnel set-up succeeded.  When the tunnel set-up fails in client mode the
    function returns without deinitialising it. *)
Theorem nonce_generator_pairing : forall (conf : miredo_conf) (w : world),
  let t := snd (miredo_run WORDS_BIGENDIAN MIREDO_CHROOT unpriv_uid conf w) in
  let client := mode_eqb (mode conf) TEREDO_CLIENT in
  count_calls is_nonce_init t = (if client then 1%nat else 0%nat) /\
  count_calls is_nonce_deinit t = (if client && tunnel_ready w then 1%nat else 0%nat) /\
  head t = Some (if client then InitNonceGenerator else tunnel_new (ifname conf)) /\
  precede is_nonce_init is_nonce_deinit t = true.
Proof.
  run_paths; run_done.
Qed.

(** X29. What each mode does and does not do.  In client mode the tunnel is
    not configured by the worker and no server is constructed; the helper is
    started, and the relay is constructed as a client on the helper's
    descriptor.  In the other modes no helper is started, nothing is closed
    or waited for, and the address assigned is the restricted one in
    restricted mode and the cone one otherwise; a relay is constructed as
    cone only in cone mode.  In disabled mode no relay is constructed and no
    route is added.  Without a server address no server is constructed. *)
Theorem mode_separation : forall (conf : miredo_conf) (w : world),
  let t := snd (miredo_run WORDS_BIGENDIAN MIREDO_CHROOT unpriv_uid conf w) in
  match mode conf with
  | TEREDO_CLIENT =>
      count_calls is_tunnel_setup t = 0%nat /\ count_calls is_new_server t = 0%nat /\
      count_calls is_plain_relay t = 0%nat /\
      count_calls is_helper t = (if tunnel_ready w then 1%nat else 0%nat)
  | TEREDO_DISABLED =>
      count_calls is_helper t = 0%nat /\ closed_of t = [] /\
      count_calls is_run_wait t = 0%nat /\
      count_calls is_new_relay t = 0%nat /\ count_calls is_AddRoute t = 0%nat /\
      count_calls (is_AddAddress teredo_restrict) t = 0%nat
  | TEREDO_RESTRICT =>
      count_calls is_helper t = 0%nat /\ closed_of t = [] /\
      count_calls is_run_wait t = 0%nat /\
      count_calls is_client_relay t = 0%nat /\ count_calls is_cone_relay t = 0%nat /\
      count_calls (is_AddAddress teredo_cone) t = 0%nat
  | TEREDO_CONE =>
      count_calls is_helper t = 0%nat /\ closed_of t = [] /\
      count_calls is_run_wait t = 0%nat /\
      count_calls is_client_relay t = 0%nat /\
      count_calls is_cone_relay t = count_calls is_new_relay t /\
      count_calls (is_AddAddress teredo_restrict) t = 0%nat
  end /\
  (server_ip conf = 0 -> count_calls is_new_server t = 0%nat).
Proof.
  run_paths; run_done; try (intros _; reflexivity); try (intros H; contradiction).
Qed.

(** X30. A server is constructed at most once, on the configured address and
    a second address which, read in host byte order, is the first plus one,
    wrapping round at 2^32, on either byte order. *)
Theorem secondary_server_address : forall (conf : miredo_conf) (w : world),
  let t := snd (miredo_run WORDS_BIGENDIAN MIREDO_CHROOT unpriv_uid conf w) in
  Forall (fun p => fst p = server_ip conf /\
                   ntohl WORDS_BIGENDIAN (snd p)
                   = uint32 (ntohl WORDS_BIGENDIAN (fst p) + 1))
         (servers_of t) /\
  (length (servers_of t) <= 1)%nat.
Proof.
  run_paths; run_leaf; (split; [|cbv [length]; lia]);
    repeat (apply Forall_cons_2; [split; [reflexivity | apply ntohl_htonl]|]);
    apply Forall_nil_2.
Qed.

End WorkerFacts.

(** * The worker at concrete inputs *)

Section WorkerExamples.
Import Sys MiredoRun MiredoRunExamples.

(** A client for which everything succeeds, on a little-endian build without
    [chroot]. *)
Example miredo_run_client :
  miredo_run false None 0 conf_client world_ok
  = (0, [InitNonceGenerator; tunnel_new (Some "teredo"%string); tunnel_SetMTU 1280;
         miredo_privileged_process true; run_setuid 0;
         new_MiredoRelay_client 9 0x0a000001 0 0;
         run_teredo_server_relay (object true) NULL;
         run_close 9; delete_relay; DeinitNonceGenerator; run_wait; tunnel_delete]).
Proof. reflexivity. Qed.

(** A client whose tunnel cannot be opened: the nonce generator stays
    initialised. *)
Example miredo_run_client_no_tunnel :
  miredo_run false None 0 conf_client world_no_tunnel
  = (-1, [InitNonceGenerator; tunnel_new (Some "teredo"%string);
          run_syslog LOG_ALERT "Teredo tunnel setup failed:\n %s"
            [ArgStr "You should be root to do that."];
          tunnel_delete]).
Proof. reflexivity. Qed.

(** A cone relay with a server on 255.255.255.255 whose relay port is taken:
    the secondary server address wraps round to 0.0.0.0, and both objects
    are deleted. *)
Example miredo_run_cone_port_taken :
  miredo_run false (Some "/var/empty"%string) 65534 conf_cone world_port_taken
  = (-1, [tunnel_new None; tunnel_SetMTU 1280;
          tunnel_BringUp; tunnel_AddAddress teredo_cone;
          tunnel_AddRoute ([x3f; xfe; x83; x1f] ++ repeat x00 12) 32;
          run_chroot "/var/empty"; run_chdir "/"; run_setuid 65534;
          new_MiredoServer 0xffffffff 0;
          server_SetPrefix [x3f; xfe; x83; x1f]; server_SetTunnel;
          new_MiredoRelay [x3f; xfe; x83; x1f] 3545 0 true;
          run_syslog LOG_ALERT "Teredo service port failure: cannot open UDP port %u"
            [ArgInt 55565];
          run_syslog LOG_NOTICE
            "Make sure another instance of the program is not already running." [];
          delete_relay; delete_server; tunnel_delete]).
Proof. reflexivity. Qed.

(** A file that asks for a cone relay on port 3545, on a little-endian
    build: the port is recorded as 0xd90d. *)
Example ParseConf_port :
  let run := ParseConf false "miredo.conf" 24 conf_client file_port in
  fst run = (true, 24,
             {| ifname := None; prefix := repeat x00 16; mode := TEREDO_CONE;
                server_ip := 0x0a000001; bind_ip := 0; bind_port := 0xd90d;
                default_route := true |}) /\
  keys (snd run) = keys_for TEREDO_CONE.
Proof. split; reflexivity. Qed.

(** A file that disables the relay: the bind address and port are not looked
    up. *)
Example ParseConf_disabled :
  keys (snd (ParseConf false "miredo.conf" 24 conf_client (file_with TEREDO_DISABLED)))
  = ["SyslogFacility"; "RelayType"; "ServerBindAddress"; "Prefix";
     "InterfaceName"]%string.
Proof. reflexivity. Qed.

End WorkerExamples.

Section WorkerMoreExamples.
Import Sys MiredoRun MiredoRunExamples.

(** A cone relay on port 3545: every key of the mode is looked up. *)
Lemma ParseConf_outcome_witness :
  keys (snd (ParseConf false "miredo.conf" 24 conf_client file_port))
  = keys_for (mode (snd (fst (ParseConf false "miredo.conf" 24 conf_client file_port)))).
Proof.
  destruct (ParseConf_outcome false "miredo.conf" 24 conf_client file_port)
    as (_ & _ & _ & _ & Hkeys & _).
  apply Hkeys. reflexivity.
Defined.

(** The port 3545 is recorded in network byte order. *)
Lemma ParseConf_fields_witness :
  ntohs false (bind_port (snd (fst (ParseConf false "miredo.conf" 24 conf_client file_port))))
  = uint16 3545.
Proof.
  destruct (ParseConf_fields false "miredo.conf" 24 conf_client file_port)
    as (_ & _ & _ & Hport).
  destruct Hport as [_ Hport]; [reflexivity | discriminate |].
  exact Hport.
Defined.

(** A client that reaches the loop: [setuid] had been called, and had
    succeeded. *)
Lemma setuid_ordering_witness :
  existsb is_setuid (snd (miredo_run false None 0 conf_client world_ok)) = true /\
  w_setuid world_ok = 0.
Proof.
  destruct (setuid_ordering false None 0 conf_client world_ok)
    as (_ & _ & Hnet & _).
  apply Hnet. reflexivity.
Defined.

(** Disabled, without a server address: no server is constructed. *)
Lemma mode_separation_witness :
  count_calls is_new_server (snd (miredo_run false None 0 conf_disabled world_ok)) = 0%nat.
Proof.
  destruct (mode_separation false None 0 conf_disabled world_ok) as [_ Hserver].
  apply Hserver. reflexivity.
Defined.

End WorkerMoreExamples.
